(** * peaks.js: the virtual windowed waveform cache of waveform-builder.js

    A shallow embedding of [src/waveform-builder.js]:
    - [VirtualChannel], the windowed channel (the specification's
      VirtualWindowChannel);
    - [DynamicLoadWaveForm], the virtual waveform (VirtualWaveform);
    - [DynamicResampleWaveform], the facade that decides between local
      downsampling and virtualisation (ResamplingWaveform);
    - [WaveformBuilder.prototype.init] and the private methods it
      dispatches to (WaveformAcquisition), in module [Builder].

    Conventions of the embedding.
    - JavaScript numbers are modelled exactly: pixel indices and peak
      samples are integers ([Z]); scales, sample rates and times are
      rationals ([Q]).  The rounding of IEEE doubles, NaN and the
      infinities of a division by zero are not modelled, except where
      a definition takes the rounding as a parameter
      ([sampleIdx_rounded]).
    - A JavaScript array is a [list jsval]; a hole and an index outside
      the array both read as [JUndefined], as in JavaScript.
    - The XMLHttpRequest objects created by a channel live in a store
      ([xhrs]) indexed by creation order; everything the channel does to
      the outside (provider call, abort, send, console.log, refresh
      callback) is appended to a trace of events.
    - [WaveformData] (the waveform-data library) is an external
      dependency: its objects are records, its [resample] method is a
      section variable.  A response is taken after
      [WaveformData.create] has decoded it.  [onload] takes the calls
      into the library as total; [onload_throwing] is the handler with
      a library whose calls may throw.
    - [WaveformOrdinateAxis], which shares the source file, is in
      module [Axis]. *)

From Stdlib Require Import ZArith QArith Qround Lia Lqa.
From stdpp Require Import base list strings pretty.

Open Scope Z_scope.

(** ** JavaScript values held by the peak arrays *)

Inductive jsval : Type :=
| JUndefined
| JNum (z : Z).

(** [a <= b] of JavaScript on these values: [undefined] converts to NaN
    and every comparison with NaN is false. *)
Definition js_le (a b : jsval) : bool :=
  match a, b with
  | JNum x, JNum y => x <=? y
  | _, _ => false
  end.

(** [new Array(n)]: [n] holes. *)
Definition new_Array (n : Z) : list jsval := replicate (Z.to_nat n) JUndefined.

(** [a[k]] *)
Definition arr_get (a : list jsval) (k : Z) : jsval :=
  if k <? 0 then JUndefined else default JUndefined (a !! Z.to_nat k).

(** [a[k] = v]: inside the array the slot is replaced; past the end
    JavaScript grows the array with holes; a negative key is an ordinary
    property and no element changes. *)
Definition arr_set (a : list jsval) (k : Z) (v : jsval) : list jsval :=
  if k <? 0 then a
  else if (Z.to_nat k <? length a)%nat then <[Z.to_nat k := v]> a
  else a ++ replicate (Z.to_nat k - length a)%nat JUndefined ++ [v].

(** [for (var i = start; i < start + n; i++) body] threading the state
    [a] the body mutates. *)
Fixpoint for_loop {A : Type} (n : nat) (i : Z) (body : Z -> A -> A) (a : A) : A :=
  match n with
  | O => a
  | S n' => for_loop n' (i + 1) body (body i a)
  end.

(** [for (var i = from; i < to; i++) body] *)
Definition for_range {A : Type} (from to : Z) (body : Z -> A -> A) (a : A) : A :=
  for_loop (Z.to_nat (to - from)) from body a.

(** [Math.round]: nearest integer, ties towards plus infinity. *)
Definition Math_round (x : Q) : Z := Qfloor (x + (1 # 2)).

(** ** The waveform-data library objects *)

(** A decoded waveform: header fields and the (min, max) pairs of
    channel 0, one pair per pixel. *)
Record WaveformData : Type := mkWaveformData {
  wd_sample_rate : Q;
  wd_scale : Q;
  wd_channels : Z;
  wd_samples : list (Z * Z)
}.

Definition wd_length (w : WaveformData) : Z := Z.of_nat (length (wd_samples w)).

(** Modelled from the spec: the [duration] getter of the waveform-data
    library, which is not part of the sources: the seconds covered by
    [length] pixels of [scale] samples each (the comment in the
    constructor of DynamicLoadWaveForm states the same relation). *)
Definition wd_duration (w : WaveformData) : Q :=
  inject_Z (wd_length w) * wd_scale w / wd_sample_rate w.

(** Modelled from the spec: the accessors
    [waveformData.channel(0).min_sample(i)] and [max_sample(i)] of the
    waveform-data library, which is not part of the sources: the stored
    pair at pixel [i], and [undefined] outside [0, length), where the
    read of the backing array finds nothing. *)
Definition wd_min_sample (w : WaveformData) (i : Z) : jsval :=
  if i <? 0 then JUndefined
  else match wd_samples w !! Z.to_nat i with
       | Some p => JNum (fst p)
       | None => JUndefined
       end.

Definition wd_max_sample (w : WaveformData) (i : Z) : jsval :=
  if i <? 0 then JUndefined
  else match wd_samples w !! Z.to_nat i with
       | Some p => JNum (snd p)
       | None => JUndefined
       end.

(** The argument object of [resample]: [{scale: ..}] or [{width: ..}];
    [None] is an absent property. *)
Record ResampleArgs : Type := mkArgs {
  arg_scale : option Q;
  arg_width : option Q
}.

(** Truthiness of a numeric property: absent and [0] are falsy. *)
Definition truthy (o : option Q) : bool :=
  match o with
  | Some q => negb (Qeq_bool q 0)
  | None => false
  end.

(** ** DynamicResampleWaveform *)

Record DynamicResampleWaveform : Type := mkDynamicResampleWaveform {
  waveformData : WaveformData;
  drw_detailUriProvider : Q -> Q -> string
}.

Definition drw_sample_rate (w : DynamicResampleWaveform) : Q := wd_sample_rate (waveformData w).
Definition drw_length (w : DynamicResampleWaveform) : Z := wd_length (waveformData w).
Definition drw_scale (w : DynamicResampleWaveform) : Q := wd_scale (waveformData w).
Definition drw_channels (w : DynamicResampleWaveform) : Z := wd_channels (waveformData w).

(** ** VirtualChannel *)

Record VirtualChannel : Type := mkVirtualChannel {
  originalWaveform : DynamicResampleWaveform;
  samples_per_pixel : Q;
  data : list jsval;
  dataOffset : Z;
  detailUriProvider : Q -> Q -> string;
  refreshCallback : bool;       (* is a refresh callback installed *)
  xhr : option nat              (* this.xhr: handle of the last request *)
}.

(** The constructor. *)
Definition new_VirtualChannel (org : DynamicResampleWaveform) (spp : Q)
    (provider : Q -> Q -> string) (cb : bool) : VirtualChannel :=
  {| originalWaveform := org;
     samples_per_pixel := spp;
     data := [];
     dataOffset := 0;
     detailUriProvider := provider;
     refreshCallback := cb;
     xhr := None |}.

Definition set_data (c : VirtualChannel) (d : list jsval) : VirtualChannel :=
  {| originalWaveform := originalWaveform c;
     samples_per_pixel := samples_per_pixel c;
     data := d;
     dataOffset := dataOffset c;
     detailUriProvider := detailUriProvider c;
     refreshCallback := refreshCallback c;
     xhr := xhr c |}.

(** [in_range(index)]:
    [index >= dataOffset && index < dataOffset + data.length / 2].
    The division is the exact one of JavaScript, so the second test is
    written with the denominator cleared. *)
Definition in_range (c : VirtualChannel) (index : Z) : bool :=
  (dataOffset c <=? index) && (2 * (index - dataOffset c) <? Z.of_nat (length (data c))).

(** The test that opens [ensureIndexAvailable]:
    [index >= dataOffset && index <= dataOffset + data.length / 2]. *)
Definition is_available (c : VirtualChannel) (index : Z) : bool :=
  (dataOffset c <=? index) && (2 * (index - dataOffset c) <=? Z.of_nat (length (data c))).

Definition maxWindowSize : Z := 2000.

(** [Math.round(.5 + i * samples_per_pixel / originalWaveform.scale)] *)
Definition sampleIdxInOriginalWave (c : VirtualChannel) (i : Z) : Z :=
  Math_round ((1 # 2) + inject_Z i * samples_per_pixel c / drw_scale (originalWaveform c)).

(** Body of the copy loop of [ensureIndexAvailable]
    ([useUpsampledOriginalData] is the constant [true]). *)
Definition seed_body (c : VirtualChannel) (from : Z) (i : Z) (newData : list jsval)
    : list jsval :=
  if in_range c i then
    let newData := arr_set newData ((i - from) * 2)
                     (arr_get (data c) ((i - dataOffset c) * 2)) in
    arr_set newData ((i - from) * 2 + 1)
      (arr_get (data c) ((i - dataOffset c) * 2 + 1))
  else
    let s := sampleIdxInOriginalWave c i in
    if (0 <=? s) && (s <? drw_length (originalWaveform c)) then
      let newData := arr_set newData ((i - from) * 2)
                       (wd_min_sample (waveformData (originalWaveform c)) s) in
      arr_set newData ((i - from) * 2 + 1)
        (wd_max_sample (waveformData (originalWaveform c)) s)
    else newData.

(** The loop stores a pair for pixel [i] of the new window when the
    pixel was resident or its mapped index is inside the backing
    waveform. *)
Definition writes (c : VirtualChannel) (i : Z) : bool :=
  in_range c i ||
  ((0 <=? sampleIdxInOriginalWave c i) &&
   (sampleIdxInOriginalWave c i <? drw_length (originalWaveform c))).

(** The pair it then stores. *)
Definition seed_pair (c : VirtualChannel) (i : Z) : jsval * jsval :=
  if in_range c i then
    (arr_get (data c) ((i - dataOffset c) * 2),
     arr_get (data c) ((i - dataOffset c) * 2 + 1))
  else
    (wd_min_sample (waveformData (originalWaveform c)) (sampleIdxInOriginalWave c i),
     wd_max_sample (waveformData (originalWaveform c)) (sampleIdxInOriginalWave c i)).

(** A pair of the window is well formed when it is unpopulated (both
    halves [undefined]) or two numbers with min <= max. *)
Definition pair_ok (x y : jsval) : Prop :=
  match x, y with
  | JNum a, JNum b => a <= b
  | JUndefined, JUndefined => True
  | _, _ => False
  end.

Definition pairs_ok (a : list jsval) : Prop :=
  forall p : Z, pair_ok (arr_get a (p * 2)) (arr_get a (p * 2 + 1)).

Definition waveform_ok (w : WaveformData) : Prop :=
  Forall (fun p => fst p <= snd p) (wd_samples w).

(** ** The requests and the outside world *)

Inductive XhrState : Type :=
| Sent          (* in flight *)
| Aborted       (* abort() was called while in flight *)
| Completed.    (* a final event was delivered *)

(** One XMLHttpRequest created by [ensureIndexAvailable], with the
    variables [from] and [to] its [onload] closure captured. *)
Record Xhr : Type := mkXhr {
  xhr_url : string;
  xhr_from : Z;
  xhr_to : Z;
  xhr_state : XhrState
}.

Definition set_state (x : Xhr) (s : XhrState) : Xhr :=
  {| xhr_url := xhr_url x; xhr_from := xhr_from x; xhr_to := xhr_to x; xhr_state := s |}.

(** [xhr.abort()]: cancels a request in flight; nothing happens to one
    that already ended. *)
Definition abort (x : Xhr) : Xhr :=
  match xhr_state x with
  | Sent => set_state x Aborted
  | _ => x
  end.

Inductive Event : Type :=
| EvProvider (fromSecs toSecs : Q)   (* detailUriProvider(fromSecs, toSecs) *)
| EvAbort (k : nat)                  (* xhrs[k].abort() *)
| EvSend (k : nat) (url : string)    (* xhrs[k].send() *)
| EvLog (msg : string)               (* console.log(msg) *)
| EvRefresh.                         (* refreshCallback() *)

Record World : Type := mkWorld {
  chan : VirtualChannel;
  xhrs : list Xhr;
  trace : list Event
}.

(** Requests sent and aborts issued along a trace. *)
Definition is_send (e : Event) : bool :=
  match e with EvSend _ _ => true | _ => false end.

Definition is_abort (e : Event) : bool :=
  match e with EvAbort _ => true | _ => false end.

Definition is_refresh (e : Event) : bool :=
  match e with EvRefresh => true | _ => false end.

Definition sends (t : list Event) : nat := length (List.filter is_send t).
Definition refreshes (t : list Event) : nat := length (List.filter is_refresh t).
Definition aborts (t : list Event) : nat := length (List.filter is_abort t).

Definition new_World (c : VirtualChannel) : World :=
  {| chan := c; xhrs := []; trace := [] |}.

(** [if (this.xhr) this.xhr.abort()]: the requests afterwards, and the
    call recorded. *)
Definition after_abort (w : World) : list Xhr :=
  match xhr (chan w) with
  | Some k => alter abort k (xhrs w)
  | None => xhrs w
  end.

Definition abort_events (w : World) : list Event :=
  match xhr (chan w) with
  | Some k => [EvAbort k]
  | None => []
  end.

(** The bookkeeping of requests: [this.xhr] is the request created
    last; a request in flight is that last one and was issued for the
    window now installed; every request covers 4000 pixels; once a
    request exists the window array has 8000 slots. *)
Definition single_fetch (w : World) : Prop :=
  match xhr (chan w) with
  | Some k => S k = length (xhrs w)
  | None => xhrs w = []
  end /\
  (forall k x, xhrs w !! k = Some x -> xhr_state x = Sent ->
     S k = length (xhrs w) /\ xhr_from x = dataOffset (chan w)) /\
  (forall k x, xhrs w !! k = Some x -> xhr_to x - xhr_from x = 4000) /\
  (xhrs w <> [] -> Z.of_nat (length (data (chan w))) = 8000).

(** [ensureIndexAvailable(index)] *)
Definition ensureIndexAvailable (index : Z) (w : World) : World :=
  let c := chan w in
  if is_available c index then w
  else
    let from := index - maxWindowSize in
    let to := index + maxWindowSize in
    let newData :=
      for_range from to (seed_body c from) (new_Array ((to - from) * 2)) in
    let fromSecs := (inject_Z from * samples_per_pixel c / 48000)%Q in
    let toSecs := (inject_Z to * samples_per_pixel c / 48000)%Q in
    let url := detailUriProvider c fromSecs toSecs in
    let requests := after_abort w in
    let k := length requests in
    {| chan := {| originalWaveform := originalWaveform c;
                  samples_per_pixel := samples_per_pixel c;
                  data := newData;
                  dataOffset := from;
                  detailUriProvider := detailUriProvider c;
                  refreshCallback := refreshCallback c;
                  xhr := Some k |};
       xhrs := requests ++ [mkXhr url from to Sent];
       trace := trace w ++ [EvProvider fromSecs toSecs] ++ abort_events w
                        ++ [EvSend k url] |}.

Arguments ensureIndexAvailable : simpl never.

(** [min_sample(index)] and [max_sample(index)]: the value returned and
    the world after the call. *)
Definition min_sample (index : Z) (w : World) : jsval * World :=
  let w' := ensureIndexAvailable index w in
  (arr_get (data (chan w')) ((index - dataOffset (chan w')) * 2), w').

Definition max_sample (index : Z) (w : World) : jsval * World :=
  let w' := ensureIndexAvailable index w in
  (arr_get (data (chan w')) ((index - dataOffset (chan w')) * 2 + 1), w').

(** ** The completion handler and the waveform facades

    The [resample] method of the waveform-data library is a parameter of
    everything below. *)

Section WithLibrary.

Variable wd_resample : WaveformData -> ResampleArgs -> WaveformData.

Definition log (msg : string) (w : World) : World :=
  {| chan := chan w; xhrs := xhrs w; trace := trace w ++ [EvLog msg] |}.

(** Body of the copy loop of the [onload] handler. *)
Definition copy_body (channel : WaveformData) (dataIdx : Z) (d : list jsval)
    : list jsval :=
  let d := arr_set d (dataIdx * 2) (wd_min_sample channel dataIdx) in
  arr_set d (dataIdx * 2 + 1) (wd_max_sample channel dataIdx).

(** [numSamplesToCopy] of the handler of a request whose closure holds
    [from] and [to]. *)
Definition numSamplesToCopy (x : Xhr) (response : WaveformData) : Z :=
  Z.min (xhr_to x - xhr_from x) (wd_length response).

(** The waveform the handler reads from:
    [waveformData.resample({scale: this._samples_per_pixel})]. *)
Definition resampled (c : VirtualChannel) (response : WaveformData) : WaveformData :=
  wd_resample response {| arg_scale := Some (samples_per_pixel c); arg_width := None |}.

(** The indices [dataIdx] at which the copy loop calls
    [channel.min_sample] and [channel.max_sample]. *)
Definition copy_reads (x : Xhr) (response : WaveformData) : list Z :=
  for_range 0 (numSamplesToCopy x response) (fun dataIdx l => l ++ [dataIdx]) [].

(** The [onload] handler of request [k], given what it reads in
    [xhr.readyState] and [xhr.status] of the request it captured and
    the decoded body [WaveformData.create(event.target.response)].
    [this] is the channel as it is when the handler runs. *)
Definition onload (k : nat) (readyState status : Z) (response : WaveformData)
    (w : World) : World :=
  match xhrs w !! k with
  | None => w
  | Some x =>
    if negb (readyState =? 4) then w
    else if negb (status =? 200) then
      log ("Unable to fetch remote data. HTTP status " +:+ pretty status) w
    else if negb (wd_channels response =? 1) then
      log "Peaks.init(): Only mono or stereo waveforms are currently supported" w
    else
      let channel := resampled (chan w) response in
      let d := for_range 0 (numSamplesToCopy x response) (copy_body channel)
                 (data (chan w)) in
      {| chan := set_data (chan w) d;
         xhrs := xhrs w;
         trace := trace w ++ (if refreshCallback (chan w) then [EvRefresh] else []) |}
  end.

(** How a request can end.  The channel registers an [onload] handler
    only, so a transport error and an abort run no code of the
    channel. *)
Inductive Completion : Type :=
| LoadEvent (readyState status : Z) (response : WaveformData)
| ErrorEvent
| AbortEvent.

(** What the handler reads in [xhr.readyState] and [xhr.status]: the
    fields of the request itself.  [abort()] resets both to 0; on a
    request that was not aborted they are what the transport set when
    the request ended. *)
Definition xhr_readyState (x : Xhr) (readyState : Z) : Z :=
  match xhr_state x with Aborted => 0 | _ => readyState end.

Definition xhr_status (x : Xhr) (status : Z) : Z :=
  match xhr_state x with Aborted => 0 | _ => status end.

Definition dispatch (k : nat) (ev : Completion) (w : World) : World :=
  match ev with
  | LoadEvent readyState status response =>
    match xhrs w !! k with
    | Some x => onload k (xhr_readyState x readyState) (xhr_status x status) response w
    | None => w
    end
  | ErrorEvent => w
  | AbortEvent => w
  end.

(** A fetch has failed: a status other than 200, a transport error or
    an abort. *)
Definition is_failure (ev : Completion) : bool :=
  match ev with
  | LoadEvent _ status _ => negb (status =? 200)
  | ErrorEvent => true
  | AbortEvent => true
  end.

Definition complete (k : nat) (w : World) : World :=
  {| chan := chan w;
     xhrs := alter (fun x => set_state x Completed) k (xhrs w);
     trace := trace w |}.

(** What happens to a channel: the renderer reads a pixel, or the
    network ends a request. *)
Inductive Action : Type :=
| Access (index : Z)
| Complete (k : nat) (ev : Completion).

Definition is_sent (x : Xhr) : bool :=
  match xhr_state x with Sent => true | _ => false end.

Definition in_flight (w : World) (k : nat) : bool :=
  match xhrs w !! k with
  | Some x => is_sent x
  | None => false
  end.

(** One step.  With [strict = true] the transport follows the
    XMLHttpRequest rule that a request which was aborted or has ended
    fires no further event.  [strict = false] is the transport the
    code does not rely on: an event is dispatched, once, even to a
    request on which [abort()] was called; the handler then reads the
    fields of that request, 0 and 0. *)
Definition step (strict : bool) (a : Action) (w : World) : World :=
  match a with
  | Access index => ensureIndexAvailable index w
  | Complete k ev =>
    match xhrs w !! k with
    | None => w
    | Some x =>
      match xhr_state x with
      | Completed => w
      | Sent => complete k (dispatch k ev w)
      | Aborted => if strict then w else complete k (dispatch k ev w)
      end
    end
  end.

(** The decoded response an action carries, if any, has min <= max
    at every pixel. *)
Definition response_ok (a : Action) : Prop :=
  match a with
  | Complete _ (LoadEvent _ _ r) => waveform_ok r
  | _ => True
  end.

Definition run (strict : bool) (acts : list Action) (w : World) : World :=
  fold_left (fun w a => step strict a w) acts w.

(** Number of requests in flight. *)
Definition count_in_flight (w : World) : nat :=
  length (List.filter is_sent (xhrs w)).

(** *** DynamicLoadWaveForm *)

Record DynamicLoadWaveForm : Type := mkDynamicLoadWaveForm {
  dl_waveformData : DynamicResampleWaveform;
  dl_length : Q;
  dl_samples_per_pixel : Q;
  dl_channel : VirtualChannel
}.

(** The constructor: [inl] is the string it throws. *)
Definition new_DynamicLoadWaveForm (wf : DynamicResampleWaveform) (length : Q)
    (provider : Q -> Q -> string) (cb : bool) : string + DynamicLoadWaveForm :=
  if negb (drw_channels wf =? 1) then inl "No support for multiple channels"
  else
    let spp := (drw_scale wf * inject_Z (drw_length wf) / length)%Q in
    inr {| dl_waveformData := wf;
           dl_length := length;
           dl_samples_per_pixel := spp;
           dl_channel := new_VirtualChannel wf spp provider cb |}.

(** The getters [length] and [scale]. *)
Definition dl_get_length (v : DynamicLoadWaveForm) : Q := dl_length v.
Definition dl_get_scale (v : DynamicLoadWaveForm) : Q := dl_samples_per_pixel v.

(** [resample(args)] of a DynamicLoadWaveForm always throws. *)
Definition dl_resample (v : DynamicLoadWaveForm) (args : ResampleArgs)
    : string + WaveformData :=
  inl "A resampled waveform can't be resampled".

(** *** DynamicResampleWaveform.resample *)

Inductive ResampleResult : Type :=
| Virtual (v : DynamicLoadWaveForm)     (* a new DynamicLoadWaveForm *)
| Downsampled (w : WaveformData)        (* this.waveformData.resample(args) *)
| Thrown (msg : string).

(** The local [length] of [resample]; [None] is [undefined]
    ([args.width] absent). *)
Definition target_length (self : DynamicResampleWaveform) (args : ResampleArgs)
    : option Q :=
  if truthy (arg_scale args) then
    match arg_scale args with
    | Some s => Some (wd_duration (waveformData self) * wd_sample_rate (waveformData self) / s)%Q
    | None => None
    end
  else arg_width args.

(** [length > this.waveformData.length]; [undefined > n] is false. *)
Definition exceeds (length : option Q) (n : Z) : bool :=
  match length with
  | Some l => negb (Qle_bool l (inject_Z n))
  | None => false
  end.

Definition resample (self : DynamicResampleWaveform) (args : ResampleArgs)
    (callback : bool) : ResampleResult :=
  match target_length self args with
  | Some length =>
    if exceeds (Some length) (wd_length (waveformData self)) then
      match new_DynamicLoadWaveForm self length (drw_detailUriProvider self) callback with
      | inr v => Virtual v
      | inl msg => Thrown msg
      end
    else Downsampled (wd_resample (waveformData self) args)
  | None => Downsampled (wd_resample (waveformData self) args)
  end.

End WithLibrary.

(** ** WaveformBuilder: the acquisition entry point

    [init] and the private methods it dispatches to.  The browser and
    the waveform-data library are an environment that fixes how each
    asynchronous operation ends; the result of [init] is every
    invocation of the completion callback, every log line, every
    exception that escapes an event handler and every request sent. *)

Module Builder.

Inductive ErrorKind : Type := TypeError | Error.

(** What [WaveformData.create(x)] does with a payload: it throws an
    exception (its kind and message), or it returns a waveform. *)
Inductive Payload : Type :=
| Malformed (kind : ErrorKind) (err : string)
| Parsed (w : WaveformData).

(** [options.dataUri] when it is truthy. *)
Inductive DataUri : Type :=
| UriObject (arraybuffer json : option string)   (* Utils.isObject *)
| UriString (url : string)                       (* Utils.isString *)
| UriOther.                                      (* any other truthy value *)

(** [options.waveformData] when it is truthy: an object whose [json]
    property may be an object and whose [arraybuffer] property may be
    an ArrayBuffer, or something that is not an object. *)
Inductive LocalData : Type :=
| LocalObject (json arraybuffer : option Payload)
| LocalOther.

Record WebAudio : Type := mkWebAudio {
  audioContext_valid : bool;       (* audioContext instanceof AudioContext *)
  audioBuffer : bool;              (* is an audioBuffer supplied *)
  multiChannel : bool;
  wa_scale : option Z
}.

Record Options : Type := mkOptions {
  dataUri : option DataUri;
  waveformData : option LocalData;
  webAudio : option WebAudio;
  audioContext : option bool;      (* deprecated option; is it a valid context *)
  dataUriDefaultFormat : option string;
  withCredentials : bool;
  zoomLevels : list Z;
  opt_detailUriProvider : Q -> Q -> string
}.

(** The waveform handed to the callback. *)
Inductive Waveform : Type :=
| Dynamic (w : DynamicResampleWaveform)
| Plain (w : WaveformData).

(** One invocation of the completion callback: [callback(err)] or
    [callback(null, waveform)]. *)
Inductive Call : Type :=
| CallError (kind : ErrorKind) (msg : string)
| CallWaveform (w : Waveform).

(** How a GET ends. *)
Inductive XhrOutcome : Type :=
| OnLoad (readyState status : Z) (body : Payload)
| OnError
| NoEvent.

Record Env : Type := mkEnv {
  window_ArrayBuffer : bool;
  window_JSON : bool;
  xhr_outcome : string -> XhrOutcome;   (* by requested URL *)
  currentSrc : string;                  (* mediaElement.currentSrc at init *)
  canplay : option string;              (* currentSrc when player.canplay fires *)
  createFromAudio : list Call           (* what WaveformData.createFromAudio does
                                           with the callback it is given *)
}.

Record Outcome : Type := mkOutcome {
  calls : list Call;
  logs : list string;
  uncaught : list string;              (* exceptions escaping an event handler *)
  requests : list string               (* URLs of the requests sent: xhr.send() *)
}.

Definition call (c : Call) : Outcome :=
  {| calls := [c]; logs := []; uncaught := []; requests := [] |}.
Definition silent : Outcome :=
  {| calls := []; logs := []; uncaught := []; requests := [] |}.
Definition logged (msg : string) (o : Outcome) : Outcome :=
  {| calls := calls o; logs := msg :: logs o; uncaught := uncaught o;
     requests := requests o |}.

(** [xhr.send()] on the request created for [url], and what its
    handlers do when the request ends. *)
Definition sent (url : string) (o : Outcome) : Outcome :=
  {| calls := calls o; logs := logs o; uncaught := uncaught o;
     requests := url :: requests o |}.

Definition nonempty (s : string) : bool := negb (String.eqb s "").

(** Truthiness of a URL property. *)
Definition truthy_url (u : option string) : bool :=
  match u with Some s => nonempty s | None => false end.

Definition valid_channels (n : Z) : bool := (n =? 1) || (n =? 2).

Definition unsupported : string :=
  "Peaks.init(): Only mono or stereo waveforms are currently supported".

(** The URL chosen by the loop over ['ArrayBuffer', 'JSON']. *)
Definition choose_url (e : Env) (arraybuffer json : option string) : option string :=
  let url := if window_ArrayBuffer e then arraybuffer else None in
  if window_ArrayBuffer e && truthy_url url then url
  else if window_JSON e then json
  else url.

Definition _getRemoteWaveformData (e : Env) (o : Options) (uri : DataUri) : Outcome :=
  let resolved :=
    match uri with
    | UriObject ab js => Some (ab, js)
    | UriString s =>
      let key := default "json" (match dataUriDefaultFormat o with
                                 | Some k => if nonempty k then Some k else None
                                 | None => None
                                 end) in
      Some (if String.eqb key "arraybuffer" then Some s else None,
            if String.eqb key "json" then Some s else None)
    | UriOther => None
    end in
  match resolved with
  | None => call (CallError TypeError "Peaks.init(): The dataUri option must be an object")
  | Some (ab, js) =>
    let url := choose_url e ab js in
    if negb (truthy_url url) then
      call (CallError Error
        "Peaks.init(): Unable to determine a compatible dataUri format for this browser")
    else
      sent (default "" url)
        match xhr_outcome e (default "" url) with
        | OnLoad readyState status body =>
          if negb (readyState =? 4) then silent
          else if negb (status =? 200) then
            call (CallError Error ("Unable to fetch remote data. HTTP status " +:+ pretty status))
          else
            match body with
            | Malformed _ err =>
              {| calls := []; logs := []; uncaught := [err]; requests := [] |}
            | Parsed w =>
              if negb (valid_channels (wd_channels w)) then call (CallError Error unsupported)
              else call (CallWaveform
                           (Dynamic (mkDynamicResampleWaveform w (opt_detailUriProvider o))))
            end
        | OnError => call (CallError Error "XHR Failed")
        | NoEvent => silent
        end
  end.

Definition _buildWaveformFromLocalData (o : Options) (d : LocalData) : Outcome :=
  match d with
  | LocalOther =>
    call (CallError Error "Peaks.init(): The waveformData option must be an object")
  | LocalObject json arraybuffer =>
    let data := match json with Some p => Some p | None => arraybuffer end in
    match data with
    | None =>
      call (CallError Error "Peaks.init(): Unable to determine a compatible waveformData format")
    | Some (Malformed kind err) => call (CallError kind err)
    | Some (Parsed w) =>
      if negb (valid_channels (wd_channels w)) then call (CallError Error unsupported)
      else call (CallWaveform (Plain w))
    end
  end.

Definition _requestAudioAndBuildWaveformData (e : Env) (url : string) : Outcome :=
  if negb (nonempty url) then
    logged "Peaks.init(): The mediaElement src is invalid" silent
  else
    sent url
      match xhr_outcome e url with
      | OnLoad readyState status _ =>
        if negb (readyState =? 4) then silent
        else if negb (status =? 200) then
          call (CallError Error ("Unable to fetch remote data. HTTP status " +:+ pretty status))
        else {| calls := createFromAudio e; logs := []; uncaught := []; requests := [] |}
      | OnError => call (CallError Error "XHR Failed")
      | NoEvent => silent
      end.

Definition _buildWaveformDataUsingWebAudio (e : Env) (o : Options) (wa : WebAudio)
    : Outcome :=
  if negb (audioContext_valid wa) then
    call (CallError TypeError
      "Peaks.init(): The webAudio.audioContext option must be a valid AudioContext")
  else if nonempty (currentSrc e) then
    _requestAudioAndBuildWaveformData e (currentSrc e)
  else
    match canplay e with
    | Some src => _requestAudioAndBuildWaveformData e src
    | None => silent
    end.

Definition _buildWaveformDataFromAudioBuffer (e : Env) (o : Options) (wa : WebAudio)
    : Outcome :=
  {| calls := createFromAudio e; logs := []; uncaught := []; requests := [] |}.

Definition is_some {A : Type} (x : option A) : bool :=
  match x with Some _ => true | None => false end.

Definition init (e : Env) (o : Options) : Outcome :=
  if (is_some (dataUri o) && (is_some (webAudio o) || is_some (audioContext o))) ||
     (is_some (waveformData o) && (is_some (webAudio o) || is_some (audioContext o))) ||
     (is_some (dataUri o) && is_some (waveformData o))
  then
    call (CallError TypeError
      "Peaks.init(): You may only pass one source (webAudio, dataUri, or waveformData) to render waveform data.")
  else
    let deprecated := is_some (audioContext o) in
    let wa := match audioContext o with
              | Some valid => Some (mkWebAudio valid false false None)
              | None => webAudio o
              end in
    let rest :=
      match dataUri o with
      | Some uri => _getRemoteWaveformData e o uri
      | None =>
        match waveformData o with
        | Some d => _buildWaveformFromLocalData o d
        | None =>
          match wa with
          | Some a =>
            if audioBuffer a then _buildWaveformDataFromAudioBuffer e o a
            else _buildWaveformDataUsingWebAudio e o a
          | None =>
            call (CallError Error
              "Peaks.init(): You must pass an audioContext, or dataUri, or waveformData to render waveform data")
          end
        end
      end in
    if deprecated then
      logged "Peaks.init(): The audioContext option is deprecated, please pass a webAudio object instead" rest
    else rest.

End Builder.

(** ** Concrete objects used by the examples *)

Module Scenario.

(** A detail provider: the URL of the detail service. *)
Definition provider (fromSecs toSecs : Q) : string := "/detail".

(** The waveform of the resampling scenario: 1000 pixels at 512
    samples per pixel, 48 kHz, mono. *)
Definition base1000 : DynamicResampleWaveform :=
  mkDynamicResampleWaveform
    (mkWaveformData 48000 512 1 (replicate 1000 (-1, 1))) provider.


(** An overview of 1000 pixels at 512 samples per pixel of a 44.1 kHz
    recording, and the channel of its view of 64000 pixels (8 samples
    per pixel), as [DynamicLoadWaveForm] builds it. *)
Definition base : DynamicResampleWaveform :=
  mkDynamicResampleWaveform
    (mkWaveformData 44100 512 1 (replicate 1000 (-1, 1))) provider.

Definition channel : VirtualChannel :=
  new_VirtualChannel base (512 * inject_Z 1000 / 64000)%Q provider true.

Definition world0 : World := new_World channel.

(** The renderer reads pixel 2100: the window [100, 4100) is
    installed and request 0 is sent. *)
Definition world1 : World := ensureIndexAvailable 2100 world0.

(** It then reads pixel 10000: the window [8000, 12000) is installed,
    request 0 is aborted and request 1 is sent. *)
Definition world2 : World := ensureIndexAvailable 10000 world1.

(** On the fresh channel the renderer reads pixel 100000, far beyond
    the 64000 pixels of the view. *)
Definition far_world : World := ensureIndexAvailable 100000 world0.

(** Request 0 as [world1] holds it. *)
Definition request0 : Xhr := mkXhr "/detail" 100 4100 Sent.

(** A detail response at the scale of the view, and one at twice its
    resolution. *)
Definition detail : WaveformData :=
  mkWaveformData 44100 8 1 [(-7, 7); (-8, 8)].

Definition fine_detail : WaveformData :=
  mkWaveformData 44100 4 1 [(-7, 5); (-6, 7); (-9, 8); (-8, 9)].

(** An instance of the library's [resample] for the examples:
    downsampling by an integer factor, each output pixel the minimum
    of the minima and the maximum of the maxima of the pixels it
    merges. *)
Fixpoint merge (l : list (Z * Z)) (acc : Z * Z) : Z * Z :=
  match l with
  | [] => acc
  | p :: l' => merge l' (Z.min (fst acc) (fst p), Z.max (snd acc) (snd p))
  end.

Fixpoint decimate (fuel f : nat) (l : list (Z * Z)) : list (Z * Z) :=
  match fuel, l with
  | S fuel', p :: l' => merge (firstn (f - 1) l') p :: decimate fuel' f (skipn (f - 1) l')
  | _, _ => []
  end.

Definition lib_resample (w : WaveformData) (args : ResampleArgs) : WaveformData :=
  match arg_scale args with
  | Some s =>
    let f := Z.to_nat (Z.max 1 (Qfloor (s / wd_scale w))) in
    mkWaveformData (wd_sample_rate w) s (wd_channels w)
      (decimate (length (wd_samples w)) f (wd_samples w))
  | None => w
  end.

(** [init] with a valid [webAudio.audioContext] and no audio buffer,
    in a page whose media element has no source yet and still has
    none when [player.canplay] fires. *)
Definition audio_options : Builder.Options :=
  Builder.mkOptions None None
    (Some (Builder.mkWebAudio true false false None))
    None None false [512] provider.

Definition no_media_source : Builder.Env :=
  Builder.mkEnv true true (fun _ => Builder.NoEvent) "" (Some "") [].

End Scenario.

(** ** The remaining members of DynamicLoadWaveForm *)

(** The getters [sample_rate] and [channels]. *)
Definition dl_sample_rate (v : DynamicLoadWaveForm) : Q :=
  drw_sample_rate (dl_waveformData v).

Definition dl_channels (v : DynamicLoadWaveForm) : Z :=
  drw_channels (dl_waveformData v).

(** [channel(index)]: [inl] is the string it throws. *)
Definition dl_channel_at (v : DynamicLoadWaveForm) (index : Z) : string + VirtualChannel :=
  if negb (index =? 0) then inl "Invalid channel" else inr (dl_channel v).

(** ** The seeding index in the arithmetic of the code

    [sampleIdxInOriginalWave] computes in exact rationals.  The code
    computes [.5 + i * samples_per_pixel / scale] in double precision:
    the product, the quotient and the sum are each rounded.  [fl] is
    that rounding; [Math.round] itself is exact. *)
Definition sampleIdx_rounded (fl : Q -> Q) (c : VirtualChannel) (i : Z) : Z :=
  Math_round
    (fl ((1 # 2) + fl (fl (inject_Z i * samples_per_pixel c)
                       / drw_scale (originalWaveform c))))%Q.

(** What the properties below need of a rounding: it is monotone and
    it leaves 0 and 1/2 as they are. *)
Definition rounding (fl : Q -> Q) : Prop :=
  (forall x y : Q, (x <= y)%Q -> (fl x <= fl y)%Q) /\
  (fl 0 == 0)%Q /\
  (fl (1 # 2) == 1 # 2)%Q.

(** ** The completion handler with a library that throws

    [onload] takes the calls into the waveform-data library as total.
    Lines 244 to 257 make them outside any [try]: when
    [WaveformData.create], [resample] or a read of the resampled
    channel throws, the handler stops there, with what it has written
    so far in place.  Each call of the library is given by what it
    returns, [None] when it throws. *)
Section ThrowingLibrary.

Variable lib_resample : WaveformData -> ResampleArgs -> option WaveformData.
Variables lib_min_sample lib_max_sample : WaveformData -> Z -> option jsval.

(** The copy loop, [n] turns from [dataIdx] on: the array afterwards,
    and whether a read threw. *)
Fixpoint copy_until_throw (n : nat) (dataIdx : Z) (channel : WaveformData)
    (d : list jsval) : list jsval * bool :=
  match n with
  | O => (d, false)
  | S n' =>
    match lib_min_sample channel dataIdx with
    | None => (d, true)
    | Some lo =>
      let d := arr_set d (dataIdx * 2) lo in
      match lib_max_sample channel dataIdx with
      | None => (d, true)
      | Some hi => copy_until_throw n' (dataIdx + 1) channel (arr_set d (dataIdx * 2 + 1) hi)
      end
    end
  end.

(** Pixel [p] of the array holds what the two reads of the channel
    returned. *)
Definition pair_read (channel : WaveformData) (d : list jsval) (p : Z) : Prop :=
  lib_min_sample channel p = Some (arr_get d (p * 2)) /\
  lib_max_sample channel p = Some (arr_get d (p * 2 + 1)).

(** The handler of request [k] on the body [event.target.response]:
    the world afterwards, and whether an exception escaped. *)
Definition onload_throwing (k : nat) (readyState status : Z) (body : Builder.Payload)
    (w : World) : World * bool :=
  match xhrs w !! k with
  | None => (w, false)
  | Some x =>
    if negb (readyState =? 4) then (w, false)
    else if negb (status =? 200) then
      (log ("Unable to fetch remote data. HTTP status " +:+ pretty status) w, false)
    else
      match body with
      | Builder.Malformed _ _ => (w, true)
      | Builder.Parsed response =>
        if negb (wd_channels response =? 1) then
          (log "Peaks.init(): Only mono or stereo waveforms are currently supported" w,
           false)
        else
          match lib_resample response
                  {| arg_scale := Some (samples_per_pixel (chan w)); arg_width := None |} with
          | None => (w, true)
          | Some channel =>
            let out := copy_until_throw (Z.to_nat (numSamplesToCopy x response - 0)) 0
                         channel (data (chan w)) in
            ({| chan := set_data (chan w) (fst out);
                xhrs := xhrs w;
                trace := trace w ++
                         (if snd out then []
                          else if refreshCallback (chan w) then [EvRefresh] else []) |},
             snd out)
          end
      end
  end.

End ThrowingLibrary.

(** Pixel [p] holds in [d'] what it held in [d]. *)
Definition pair_kept (d d' : list jsval) (p : Z) : Prop :=
  arr_get d' (p * 2) = arr_get d (p * 2) /\
  arr_get d' (p * 2 + 1) = arr_get d (p * 2 + 1).

(** ** Counting what a run is made of *)

Definition is_access (a : Action) : bool :=
  match a with Access _ => true | _ => false end.

Definition is_load (a : Action) : bool :=
  match a with Complete _ (LoadEvent _ _ _) => true | _ => false end.

Definition accesses (acts : list Action) : nat := length (List.filter is_access acts).
Definition loads (acts : list Action) : nat := length (List.filter is_load acts).

Definition is_provider_call (e : Event) : bool :=
  match e with EvProvider _ _ => true | _ => false end.

Definition provider_calls (t : list Event) : nat :=
  length (List.filter is_provider_call t).

(** What a run keeps count of: every request was sent once, after one
    call of the provider; every request but the first was preceded by
    an [abort()] of its predecessor. *)
Definition counted (w : World) : Prop :=
  sends (trace w) = length (xhrs w) /\
  provider_calls (trace w) = length (xhrs w) /\
  aborts (trace w) = Nat.pred (length (xhrs w)) /\
  match xhr (chan w) with
  | Some _ => xhrs w <> []
  | None => xhrs w = []
  end.

(** The window is empty until the first refresh and 4000 pixels wide
    ever after. *)
Definition window_sized (w : World) : Prop :=
  (xhrs w = [] /\ data (chan w) = [] /\ dataOffset (chan w) = 0) \/
  (xhrs w <> [] /\ Z.of_nat (length (data (chan w))) = 8000).

(** ** WaveformBuilder: the sources given to [init] *)

(** How many of the three kinds of source the options name; the
    deprecated [audioContext] counts as [webAudio]. *)
Definition nsources (o : Builder.Options) : nat :=
  ((if Builder.is_some (Builder.dataUri o) then 1 else 0) +
   (if Builder.is_some (Builder.waveformData o) then 1 else 0) +
   (if Builder.is_some (Builder.webAudio o) || Builder.is_some (Builder.audioContext o)
    then 1 else 0))%nat.

(** The options with another [webAudio] property. *)
Definition with_webAudio (o : Builder.Options) (wa : option Builder.WebAudio)
    : Builder.Options :=
  Builder.mkOptions (Builder.dataUri o) (Builder.waveformData o) wa
    (Builder.audioContext o) (Builder.dataUriDefaultFormat o)
    (Builder.withCredentials o) (Builder.zoomLevels o)
    (Builder.opt_detailUriProvider o).

(** The payload [_buildWaveformFromLocalData] parses: [json] when it is
    an object, else [arraybuffer] when it is an ArrayBuffer. *)
Definition local_payload (d : Builder.LocalData) : option Builder.Payload :=
  match d with
  | Builder.LocalObject json arraybuffer =>
    match json with Some p => Some p | None => arraybuffer end
  | Builder.LocalOther => None
  end.

(** ** A completion callback that throws

    [Builder.init] takes the callback as one that returns normally.
    [_buildWaveformFromLocalData] is the one place where the callback
    is invoked inside a [try] block, so there a callback that throws
    is observed by the code; [Callback] says what an invocation throws,
    if anything. *)
Definition Callback : Type := Builder.Call -> option string.

(** [callback(c)] outside a [try]: what it throws escapes. *)
Definition invoke (cb : Callback) (c : Builder.Call) : Builder.Outcome :=
  {| Builder.calls := [c];
     Builder.logs := [];
     Builder.uncaught := match cb c with Some exn => [exn] | None => [] end;
     Builder.requests := [] |}.

(** [callback(c)] inside the [try] block: what it throws is caught and
    handed to [callback(err)] by the [catch] clause. *)
Definition invoke_in_try (cb : Callback) (c : Builder.Call) : Builder.Outcome :=
  match cb c with
  | None => Builder.call c
  | Some exn =>
    {| Builder.calls := c :: Builder.calls (invoke cb (Builder.CallError Builder.Error exn));
       Builder.logs := [];
       Builder.uncaught :=
         Builder.uncaught (invoke cb (Builder.CallError Builder.Error exn));
       Builder.requests := [] |}
  end.

(** [_buildWaveformFromLocalData(options, callback)] with such a
    callback. *)
Definition _buildWaveformFromLocalData_with (cb : Callback) (o : Builder.Options)
    (d : Builder.LocalData) : Builder.Outcome :=
  match d with
  | Builder.LocalOther =>
    invoke cb (Builder.CallError Builder.Error
                 "Peaks.init(): The waveformData option must be an object")
  | Builder.LocalObject json arraybuffer =>
    let data := match json with Some p => Some p | None => arraybuffer end in
    match data with
    | None =>
      invoke cb (Builder.CallError Builder.Error
                   "Peaks.init(): Unable to determine a compatible waveformData format")
    | Some (Builder.Malformed kind err) => invoke cb (Builder.CallError kind err)
    | Some (Builder.Parsed w) =>
      if negb (Builder.valid_channels (wd_channels w)) then
        invoke_in_try cb (Builder.CallError Builder.Error Builder.unsupported)
      else invoke_in_try cb (Builder.CallWaveform (Builder.Plain w))
    end
  end.

(** ** WaveformOrdinateAxis

    The axis module that shares the source file: the label scale, the
    marker labels and the drawing of the axis.  The view and the canvas
    context are collaborators: the view is a record of what its getters
    return, [timeToPixels] is a function, and the calls made on the
    context are returned as a list of commands. *)

Module Axis.

Definition steps : list Z := [1; 2; 5; 10; 20; 30].
Definition minSpacing : Q := 60%Q.

(** One turn of the [for (;;)] loop of [getAxisLabelScale] on the state
    [(baseSecs, index)], when the spacing is still too small. *)
Definition next (s : Z * nat) : Z * nat :=
  if (S (snd s) =? length steps)%nat then (fst s * 60, 0%nat) else (fst s, S (snd s)).

(** [secs = baseSecs * steps[index]] *)
Definition secs_of (s : Z * nat) : Z := fst s * nth (snd s) steps 0.

(** The loop, with a bound on the number of turns: [None] when the
    bound is reached before the loop breaks. *)
Fixpoint label_loop (fuel : nat) (timeToPixels : Z -> Q) (s : Z * nat) : option Z :=
  match fuel with
  | O => None
  | S fuel' =>
    let secs := secs_of s in
    let pixels := timeToPixels secs in
    if negb (Qle_bool minSpacing pixels) then label_loop fuel' timeToPixels (next s)
    else Some secs
  end.

(** [getAxisLabelScale(view)]: [baseSecs = 1], [index = 0]. *)
Definition getAxisLabelScale (fuel : nat) (timeToPixels : Z -> Q) : option Z :=
  label_loop fuel timeToPixels (1, 0%nat).

(** The values the loop tries, in order:
    1, 2, 5, 10, 20, 30, 60, 120, 300, ... *)
Definition ladder (q r : nat) : Z := 60 ^ Z.of_nat q * nth r steps 0.

(** [_getNIntervals(dbScale)] *)
Definition _getNIntervals (dbScale : bool) : Z := if dbScale then 24 else 20.

(** What [_getMarkerLabel] returns: a number or a string. *)
Inductive Label : Type :=
| LabelNumber (z : Z)
| LabelString (s : string).

(** The text [fillText] draws for a label. *)
Definition label_text (l : Label) : string :=
  match l with
  | LabelNumber z => pretty z
  | LabelString s => s
  end.

(** [x.toFixed(1)]: the sign, then the nearest number of tenths of the
    absolute value, the larger one on a tie. *)
Definition toFixed1 (x : Q) : string :=
  let magnitude := if Qle_bool 0 x then x else (- x)%Q in
  let n := Qfloor (magnitude * 10 + (1 # 2)) in
  (if Qle_bool 0 x then "" else "-") +:+ pretty (n / 10) +:+ "." +:+ pretty (n mod 10).

(** [_getMarkerLabel(i, linearScale)].  On the db scale, for [i < 12]
    the unary minus applies to the string [(5 * i).toString()] and the
    result is a number. *)
Definition _getMarkerLabel (i : Z) (linearScale : bool) : Label :=
  if linearScale then LabelString (toFixed1 (1 - (1 # 10) * inject_Z i))
  else if i <? 12 then LabelNumber (- (5 * i))
  else LabelString (pretty (-60 + (i - 12) * 5)).

Record View : Type := mkView {
  getWidth : Q;
  getHeight : Q;
  getIsDbScale : bool
}.

Inductive AttrValue : Type :=
| AttrString (s : string)
| AttrNumber (z : Z).

(** The calls made on the canvas context. *)
Inductive Cmd : Type :=
| SetAttr (name : string) (value : AttrValue)
| BeginPath
| MoveTo (x y : Q)
| LineTo (x y : Q)
| Stroke
| FillText (text : Label) (x y : Q).

(** Body of the loop of [drawAxis] for marker [i]. *)
Definition draw_marker (view : View) (nIntervals : Z) (dy : Q) (i : Z) (cmds : list Cmd)
    : list Cmd :=
  let markerHeight : Q := 10%Q in
  let margin : Q := 0%Q in
  let y := (margin / 2 + inject_Z i * dy)%Q in
  let textBaseline :=
    if i =? nIntervals then "bottom" else if i =? 0 then "top" else "middle" in
  cmds ++
  [BeginPath;
   MoveTo 0%Q y;
   LineTo (0 + markerHeight)%Q y;
   MoveTo (getWidth view) y;
   LineTo (getWidth view - markerHeight)%Q y;
   Stroke;
   SetAttr "textBaseline" (AttrString textBaseline);
   FillText (_getMarkerLabel i (negb (getIsDbScale view))) (markerHeight + 1)%Q y].

(** [drawAxis(context, view)] for an axis built with the given
    colours. *)
Definition drawAxis (axisGridlineColor axisLabelColor : string) (view : View) : list Cmd :=
  let margin : Q := 0%Q in
  let axisHeight := (getHeight view - margin)%Q in
  let nIntervals := _getNIntervals (getIsDbScale view) in
  let dy := (axisHeight / inject_Z nIntervals)%Q in
  for_range 0 (nIntervals + 1) (draw_marker view nIntervals dy)
    [SetAttr "strokeStyle" (AttrString axisGridlineColor);
     SetAttr "lineWidth" (AttrNumber 1);
     SetAttr "font" (AttrString "11px sans-serif");
     SetAttr "fillStyle" (AttrString axisLabelColor);
     SetAttr "textAlign" (AttrString "left")].

(** The labels drawn, with their heights, in drawing order. *)
Definition drawn_labels (cmds : list Cmd) : list (Label * Q) :=
  flat_map (fun c => match c with FillText t _ y => [(t, y)] | _ => [] end) cmds.

(** The text baselines set, in order. *)
Definition baselines (cmds : list Cmd) : list string :=
  flat_map (fun c => match c with
                     | SetAttr "textBaseline" (AttrString b) => [b]
                     | _ => []
                     end) cmds.

End Axis.

(** ** More concrete objects for the examples *)

Module Examples.

(** The virtual waveform of the resampling scenario:
    [resample({width: 5000})] on the 1000-pixel base. *)
Definition virtual5000 : DynamicLoadWaveForm :=
  mkDynamicLoadWaveForm Scenario.base1000 5000%Q
    (drw_scale Scenario.base1000 * inject_Z (drw_length Scenario.base1000) / 5000)%Q
    (new_VirtualChannel Scenario.base1000
       (drw_scale Scenario.base1000 * inject_Z (drw_length Scenario.base1000) / 5000)%Q
       Scenario.provider true).

(** A stereo detail response. *)
Definition stereo_detail : WaveformData :=
  mkWaveformData 44100 8 2 [(-7, 7); (-8, 8)].

(** The window [100, 4100) is resident and the renderer reads pixel
    4200: the windows [100, 4100) and [2200, 6200) overlap. *)
Definition overlap_world : World := ensureIndexAvailable 4200 Scenario.world1.

(** [init] with a remote source in both formats, in a browser that has
    ArrayBuffer and JSON, and a server that answers 200 with a mono
    waveform. *)
Definition remote_options : Builder.Options :=
  Builder.mkOptions
    (Some (Builder.UriObject (Some "/overview.dat") (Some "/overview.json")))
    None None None None false [512] Scenario.provider.

Definition overview : WaveformData :=
  mkWaveformData 44100 512 1 (replicate 1000 (-1, 1)).

Definition good_server : Builder.Env :=
  Builder.mkEnv true true
    (fun url => Builder.OnLoad 4 200 (Builder.Parsed overview))
    "" None [].

(** The waveform that server's answer is turned into, and its view of
    5000 pixels. *)
Definition delivered : DynamicResampleWaveform :=
  mkDynamicResampleWaveform overview Scenario.provider.

Definition delivered_view : DynamicLoadWaveForm :=
  mkDynamicLoadWaveForm delivered 5000%Q
    (drw_scale delivered * inject_Z (drw_length delivered) / 5000)%Q
    (new_VirtualChannel delivered
       (drw_scale delivered * inject_Z (drw_length delivered) / 5000)%Q
       Scenario.provider true).

(** [init] with local JSON data. *)
Definition local_options : Builder.Options :=
  Builder.mkOptions None
    (Some (Builder.LocalObject (Some (Builder.Parsed overview)) None))
    None None None false [512] Scenario.provider.

(** [init] with both a remote and a local source. *)
Definition two_sources : Builder.Options :=
  Builder.mkOptions
    (Some (Builder.UriString "/overview.json"))
    (Some (Builder.LocalObject (Some (Builder.Parsed overview)) None))
    None None None false [512] Scenario.provider.

(** [init] with the deprecated [audioContext] option. *)
Definition deprecated_options : Builder.Options :=
  Builder.mkOptions None None None (Some true) None false [512] Scenario.provider.

(** A rounding for the examples: to the nearest multiple of 1/1024. *)
Definition to_1024th (x : Q) : Q :=
  (inject_Z (Qfloor (x * 1024 + (1 # 2))) / 1024)%Q.

(** A library for the examples that throws as waveform-data does:
    [resample] when it is asked for a finer scale than the data has, a
    channel read outside [0, length). *)
Definition checked_resample (r : WaveformData) (args : ResampleArgs)
    : option WaveformData :=
  match arg_scale args with
  | Some s =>
    if Qle_bool (wd_scale r) s then Some (Scenario.lib_resample r args) else None
  | None => Some (Scenario.lib_resample r args)
  end.

Definition checked_min (ch : WaveformData) (i : Z) : option jsval :=
  if (0 <=? i) && (i <? wd_length ch) then Some (wd_min_sample ch i) else None.

Definition checked_max (ch : WaveformData) (i : Z) : option jsval :=
  if (0 <=? i) && (i <? wd_length ch) then Some (wd_max_sample ch i) else None.

(** A callback whose rendering of the waveform fails. *)
Definition failing_renderer : Callback :=
  fun c => match c with
           | Builder.CallWaveform _ => Some "cannot render"
           | Builder.CallError _ _ => None
           end.

(** A view of 10 pixels per second and a view of no width at all. *)
Definition ten_per_second (secs : Z) : Q := inject_Z (secs * 10).
Definition collapsed (secs : Z) : Q := 0%Q.

(** A db-scale view of 400 by 240 pixels. *)
Definition db_view : Axis.View := Axis.mkView 400%Q 240%Q true.

End Examples.

(** * Properties *)

(** ** Arrays *)

Lemma arr_get_new_Array (n k : Z) : arr_get (new_Array n) k = JUndefined.
Proof.
  unfold arr_get, new_Array. destruct (k <? 0); [reflexivity|].
  destruct (replicate (Z.to_nat n) JUndefined !! Z.to_nat k) as [v|] eqn:E; [|reflexivity].
  apply lookup_replicate in E. simpl. tauto.
Qed.

Lemma arr_get_nil (k : Z) : arr_get [] k = JUndefined.
Proof. unfold arr_get. destruct (k <? 0); reflexivity. Qed.

Lemma arr_get_set_eq (a : list jsval) (k : Z) (v : jsval) :
  0 <= k -> arr_get (arr_set a k v) k = v.
Proof.
  intros Hk. unfold arr_get, arr_set.
  destruct (Z.ltb_spec k 0) as [?|_]; [lia|].
  destruct (Nat.ltb_spec (Z.to_nat k) (length a)) as [Hlt|Hge].
  - rewrite list_lookup_insert_eq by exact Hlt. reflexivity.
  - rewrite lookup_app_r by exact Hge.
    rewrite lookup_app_r by (rewrite length_replicate; lia).
    rewrite length_replicate, Nat.sub_diag. reflexivity.
Qed.

Lemma arr_get_set_ne (a : list jsval) (k k' : Z) (v : jsval) :
  k <> k' -> arr_get (arr_set a k v) k' = arr_get a k'.
Proof.
  intros Hne. unfold arr_get, arr_set.
  destruct (Z.ltb_spec k' 0) as [?|Hk']; [reflexivity|].
  destruct (Z.ltb_spec k 0) as [?|Hk]; [reflexivity|].
  assert (Hn : Z.to_nat k <> Z.to_nat k') by lia.
  destruct (Nat.ltb_spec (Z.to_nat k) (length a)) as [Hlt|Hge].
  - rewrite list_lookup_insert_ne by exact Hn. reflexivity.
  - destruct (Nat.lt_ge_cases (Z.to_nat k') (length a)) as [Hin|Hout].
    + rewrite lookup_app_l by exact Hin. reflexivity.
    + rewrite lookup_app_r by exact Hout.
      rewrite (lookup_ge_None_2 a) by exact Hout. simpl.
      destruct (Nat.lt_ge_cases (Z.to_nat k' - length a) (Z.to_nat k - length a))
        as [Hhole|Hpast].
      * rewrite lookup_app_l by (rewrite length_replicate; exact Hhole).
        rewrite lookup_replicate_2 by exact Hhole. reflexivity.
      * rewrite lookup_app_r by (rewrite length_replicate; exact Hpast).
        rewrite length_replicate.
        rewrite lookup_ge_None_2 by (simpl; lia). reflexivity.
Qed.

Lemma length_arr_set (a : list jsval) (k : Z) (v : jsval) :
  0 <= k < Z.of_nat (length a) -> length (arr_set a k v) = length a.
Proof.
  intros Hk. unfold arr_set.
  destruct (Z.ltb_spec k 0) as [?|_]; [lia|].
  destruct (Nat.ltb_spec (Z.to_nat k) (length a)) as [_|?]; [|lia].
  apply length_insert.
Qed.

(** Boolean comparisons of integers, decided by case analysis. *)
Ltac zbool :=
  repeat match goal with
  | |- context [?a <=? ?b] => destruct (Z.leb_spec a b)
  | |- context [?a <? ?b] => destruct (Z.ltb_spec a b)
  | |- context [?a =? ?b] => destruct (Z.eqb_spec a b)
  end; simpl; try reflexivity; try lia.

(** Reads after writes at distinct or equal slots. *)
Ltac arr_simpl :=
  repeat first
    [ rewrite arr_get_set_eq by lia
    | rewrite arr_get_set_ne by lia
    | rewrite length_arr_set by (repeat rewrite length_arr_set by lia; lia) ].

(** ** The seeding loop of ensureIndexAvailable *)

Lemma seed_body_min (c : VirtualChannel) (from i j : Z) (a : list jsval) :
  from <= i ->
  arr_get (seed_body c from i a) ((j - from) * 2) =
  if (j =? i) && writes c i then fst (seed_pair c i) else arr_get a ((j - from) * 2).
Proof.
  intros Hi. unfold seed_body, writes, seed_pair.
  destruct (in_range c i); simpl.
  - destruct (Z.eqb_spec j i) as [->|Hne]; simpl; arr_simpl; reflexivity.
  - destruct ((0 <=? sampleIdxInOriginalWave c i) &&
              (sampleIdxInOriginalWave c i <? drw_length (originalWaveform c)));
      [|rewrite andb_false_r; reflexivity].
    destruct (Z.eqb_spec j i) as [->|Hne]; simpl; arr_simpl; reflexivity.
Qed.

Lemma seed_body_max (c : VirtualChannel) (from i j : Z) (a : list jsval) :
  from <= i ->
  arr_get (seed_body c from i a) ((j - from) * 2 + 1) =
  if (j =? i) && writes c i then snd (seed_pair c i) else arr_get a ((j - from) * 2 + 1).
Proof.
  intros Hi. unfold seed_body, writes, seed_pair.
  destruct (in_range c i); simpl.
  - destruct (Z.eqb_spec j i) as [->|Hne]; simpl; arr_simpl; reflexivity.
  - destruct ((0 <=? sampleIdxInOriginalWave c i) &&
              (sampleIdxInOriginalWave c i <? drw_length (originalWaveform c)));
      [|rewrite andb_false_r; reflexivity].
    destruct (Z.eqb_spec j i) as [->|Hne]; simpl; arr_simpl; reflexivity.
Qed.

Lemma length_seed_body (c : VirtualChannel) (from i : Z) (a : list jsval) :
  from <= i -> (i - from) * 2 + 1 < Z.of_nat (length a) ->
  length (seed_body c from i a) = length a.
Proof.
  intros Hi Hlen. unfold seed_body.
  destruct (in_range c i); [arr_simpl; reflexivity|].
  destruct ((0 <=? _) && _); [arr_simpl; reflexivity|reflexivity].
Qed.

Lemma seed_loop_min (c : VirtualChannel) (from j : Z) (n : nat) :
  forall (i : Z) (a : list jsval), from <= i ->
  arr_get (for_loop n i (seed_body c from) a) ((j - from) * 2) =
  if (i <=? j) && (j <? i + Z.of_nat n) && writes c j
  then fst (seed_pair c j) else arr_get a ((j - from) * 2).
Proof.
  induction n as [|n IH]; intros i a Hi.
  - simpl. replace ((i <=? j) && (j <? i + Z.of_nat 0)) with false by zbool. reflexivity.
  - cbn [for_loop]. rewrite IH by lia. rewrite seed_body_min by exact Hi.
    destruct (Z.eqb_spec j i) as [->|Hne].
    + replace (i + 1 <=? i) with false by zbool.
      replace ((i <=? i) && (i <? i + Z.of_nat (S n))) with true by zbool. reflexivity.
    + replace ((i <=? j) && (j <? i + Z.of_nat (S n)))
        with ((i + 1 <=? j) && (j <? i + 1 + Z.of_nat n)) by zbool.
      simpl. destruct ((i + 1 <=? j) && (j <? i + 1 + Z.of_nat n) && writes c j); reflexivity.
Qed.

Lemma seed_loop_max (c : VirtualChannel) (from j : Z) (n : nat) :
  forall (i : Z) (a : list jsval), from <= i ->
  arr_get (for_loop n i (seed_body c from) a) ((j - from) * 2 + 1) =
  if (i <=? j) && (j <? i + Z.of_nat n) && writes c j
  then snd (seed_pair c j) else arr_get a ((j - from) * 2 + 1).
Proof.
  induction n as [|n IH]; intros i a Hi.
  - simpl. replace ((i <=? j) && (j <? i + Z.of_nat 0)) with false by zbool. reflexivity.
  - cbn [for_loop]. rewrite IH by lia. rewrite seed_body_max by exact Hi.
    destruct (Z.eqb_spec j i) as [->|Hne].
    + replace (i + 1 <=? i) with false by zbool.
      replace ((i <=? i) && (i <? i + Z.of_nat (S n))) with true by zbool. reflexivity.
    + replace ((i <=? j) && (j <? i + Z.of_nat (S n)))
        with ((i + 1 <=? j) && (j <? i + 1 + Z.of_nat n)) by zbool.
      simpl. destruct ((i + 1 <=? j) && (j <? i + 1 + Z.of_nat n) && writes c j); reflexivity.
Qed.

Lemma length_seed_loop (c : VirtualChannel) (from : Z) (n : nat) :
  forall (i : Z) (a : list jsval), from <= i ->
  (i + Z.of_nat n - from) * 2 <= Z.of_nat (length a) ->
  length (for_loop n i (seed_body c from) a) = length a.
Proof.
  induction n as [|n IH]; intros i a Hi Hlen; [reflexivity|].
  cbn [for_loop]. rewrite IH; rewrite ?length_seed_body; lia.
Qed.

(** ** ensureIndexAvailable *)

Lemma is_available_spec (c : VirtualChannel) (i : Z) :
  is_available c i = true <->
  dataOffset c <= i /\ 2 * (i - dataOffset c) <= Z.of_nat (length (data c)).
Proof. unfold is_available. rewrite andb_true_iff, Z.leb_le, Z.leb_le. tauto. Qed.

Lemma in_range_spec (c : VirtualChannel) (i : Z) :
  in_range c i = true <->
  dataOffset c <= i /\ 2 * (i - dataOffset c) < Z.of_nat (length (data c)).
Proof. unfold in_range. rewrite andb_true_iff, Z.leb_le, Z.ltb_lt. tauto. Qed.

(** A pixel of the resident window passes the test of
    [ensureIndexAvailable]. *)
Lemma in_range_is_available (c : VirtualChannel) (i : Z) :
  in_range c i = true -> is_available c i = true.
Proof. rewrite in_range_spec, is_available_spec. lia. Qed.

Lemma ensure_available (w : World) (i : Z) :
  is_available (chan w) i = true -> ensureIndexAvailable i w = w.
Proof. intros H. unfold ensureIndexAvailable. rewrite H. reflexivity. Qed.

Lemma length_after_abort (w : World) : length (after_abort w) = length (xhrs w).
Proof. unfold after_abort. destruct (xhr (chan w)); [apply length_alter|reflexivity]. Qed.

Section Refresh.

Variables (w : World) (i : Z).
Hypothesis Hout : is_available (chan w) i = false.

Lemma refresh_offset : dataOffset (chan (ensureIndexAvailable i w)) = i - 2000.
Proof. unfold ensureIndexAvailable. rewrite Hout. reflexivity. Qed.

Lemma refresh_static :
  originalWaveform (chan (ensureIndexAvailable i w)) = originalWaveform (chan w) /\
  samples_per_pixel (chan (ensureIndexAvailable i w)) = samples_per_pixel (chan w) /\
  detailUriProvider (chan (ensureIndexAvailable i w)) = detailUriProvider (chan w) /\
  refreshCallback (chan (ensureIndexAvailable i w)) = refreshCallback (chan w).
Proof. unfold ensureIndexAvailable. rewrite Hout. simpl. tauto. Qed.

Lemma refresh_data :
  data (chan (ensureIndexAvailable i w)) =
  for_range (i - maxWindowSize) (i + maxWindowSize)
    (seed_body (chan w) (i - maxWindowSize))
    (new_Array ((i + maxWindowSize - (i - maxWindowSize)) * 2)).
Proof. unfold ensureIndexAvailable. rewrite Hout. reflexivity. Qed.

Lemma refresh_length : Z.of_nat (length (data (chan (ensureIndexAvailable i w)))) = 8000.
Proof.
  rewrite refresh_data. unfold for_range.
  rewrite length_seed_loop.
  - unfold new_Array. rewrite length_replicate. unfold maxWindowSize. lia.
  - lia.
  - unfold new_Array. rewrite length_replicate. unfold maxWindowSize. lia.
Qed.

Lemma refresh_xhr : xhr (chan (ensureIndexAvailable i w)) = Some (length (xhrs w)).
Proof.
  unfold ensureIndexAvailable. rewrite Hout. simpl.
  rewrite length_after_abort. reflexivity.
Qed.

Lemma refresh_xhrs :
  xhrs (ensureIndexAvailable i w) =
  after_abort w ++
  [mkXhr (detailUriProvider (chan w)
            (inject_Z (i - maxWindowSize) * samples_per_pixel (chan w) / 48000)%Q
            (inject_Z (i + maxWindowSize) * samples_per_pixel (chan w) / 48000)%Q)
         (i - maxWindowSize) (i + maxWindowSize) Sent].
Proof.
  unfold ensureIndexAvailable. rewrite Hout. reflexivity.
Qed.

Lemma refresh_trace :
  trace (ensureIndexAvailable i w) =
  trace w ++
  [EvProvider (inject_Z (i - maxWindowSize) * samples_per_pixel (chan w) / 48000)%Q
              (inject_Z (i + maxWindowSize) * samples_per_pixel (chan w) / 48000)%Q] ++
  abort_events w ++
  [EvSend (length (xhrs w))
     (detailUriProvider (chan w)
        (inject_Z (i - maxWindowSize) * samples_per_pixel (chan w) / 48000)%Q
        (inject_Z (i + maxWindowSize) * samples_per_pixel (chan w) / 48000)%Q)].
Proof.
  unfold ensureIndexAvailable. rewrite Hout. simpl.
  rewrite length_after_abort. reflexivity.
Qed.

(** The pair of pixel [j] of the new window. *)
Lemma refresh_min (j : Z) :
  i - 2000 <= j < i + 2000 ->
  arr_get (data (chan (ensureIndexAvailable i w)))
    ((j - dataOffset (chan (ensureIndexAvailable i w))) * 2) =
  if writes (chan w) j then fst (seed_pair (chan w) j) else JUndefined.
Proof.
  intros Hj. rewrite refresh_offset, refresh_data. unfold for_range.
  change (i - 2000) with (i - maxWindowSize).
  rewrite seed_loop_min by lia. rewrite arr_get_new_Array.
  replace ((i - maxWindowSize <=? j) &&
           (j <? i - maxWindowSize
                 + Z.of_nat (Z.to_nat (i + maxWindowSize - (i - maxWindowSize)))))
    with true; [reflexivity|].
  unfold maxWindowSize. zbool.
Qed.

Lemma refresh_max (j : Z) :
  i - 2000 <= j < i + 2000 ->
  arr_get (data (chan (ensureIndexAvailable i w)))
    ((j - dataOffset (chan (ensureIndexAvailable i w))) * 2 + 1) =
  if writes (chan w) j then snd (seed_pair (chan w) j) else JUndefined.
Proof.
  intros Hj. rewrite refresh_offset, refresh_data. unfold for_range.
  change (i - 2000) with (i - maxWindowSize).
  rewrite seed_loop_max by lia. rewrite arr_get_new_Array.
  replace ((i - maxWindowSize <=? j) &&
           (j <? i - maxWindowSize
                 + Z.of_nat (Z.to_nat (i + maxWindowSize - (i - maxWindowSize)))))
    with true; [reflexivity|].
  unfold maxWindowSize. zbool.
Qed.

(** The new window is the 4000 pixels around [i]. *)
Lemma refresh_in_range (j : Z) :
  in_range (chan (ensureIndexAvailable i w)) j = true <-> i - 2000 <= j < i + 2000.
Proof. rewrite in_range_spec, refresh_offset, refresh_length. lia. Qed.

Lemma refresh_is_available (j : Z) :
  is_available (chan (ensureIndexAvailable i w)) j = true <-> i - 2000 <= j <= i + 2000.
Proof. rewrite is_available_spec, refresh_offset, refresh_length. lia. Qed.

End Refresh.

(** The channel's fixed fields are those it was built with. *)
Lemma ensure_static (w : World) (i : Z) :
  originalWaveform (chan (ensureIndexAvailable i w)) = originalWaveform (chan w) /\
  samples_per_pixel (chan (ensureIndexAvailable i w)) = samples_per_pixel (chan w) /\
  detailUriProvider (chan (ensureIndexAvailable i w)) = detailUriProvider (chan w) /\
  refreshCallback (chan (ensureIndexAvailable i w)) = refreshCallback (chan w).
Proof.
  destruct (is_available (chan w) i) eqn:E.
  - rewrite ensure_available by exact E. tauto.
  - apply refresh_static. exact E.
Qed.

Lemma sampleIdx_static (c c0 : VirtualChannel) (j : Z) :
  originalWaveform c = originalWaveform c0 ->
  samples_per_pixel c = samples_per_pixel c0 ->
  sampleIdxInOriginalWave c j = sampleIdxInOriginalWave c0 j.
Proof. intros H1 H2. unfold sampleIdxInOriginalWave. rewrite H1, H2. reflexivity. Qed.

(** *** What the seeding loop stores (the parts of C3 the code keeps) *)

(** Cache reuse: a pixel of the new span that lay inside the previous
    window keeps its pair. *)
Lemma ensure_carries_over (w : World) (i j : Z) :
  is_available (chan w) i = false ->
  i - 2000 <= j < i + 2000 ->
  in_range (chan w) j = true ->
  arr_get (data (chan (ensureIndexAvailable i w)))
    ((j - dataOffset (chan (ensureIndexAvailable i w))) * 2)
    = arr_get (data (chan w)) ((j - dataOffset (chan w)) * 2) /\
  arr_get (data (chan (ensureIndexAvailable i w)))
    ((j - dataOffset (chan (ensureIndexAvailable i w))) * 2 + 1)
    = arr_get (data (chan w)) ((j - dataOffset (chan w)) * 2 + 1).
Proof.
  intros Hout Hj Hin.
  rewrite refresh_min, refresh_max by assumption.
  unfold writes, seed_pair. rewrite Hin. simpl. split; reflexivity.
Qed.

(** Seeding: any other pixel whose mapped index is inside the backing
    waveform receives the backing pair at that index. *)
Lemma ensure_seeds (w : World) (i j : Z) :
  is_available (chan w) i = false ->
  i - 2000 <= j < i + 2000 ->
  in_range (chan w) j = false ->
  0 <= sampleIdxInOriginalWave (chan w) j < drw_length (originalWaveform (chan w)) ->
  exists lo hi,
    wd_samples (waveformData (originalWaveform (chan w)))
      !! Z.to_nat (sampleIdxInOriginalWave (chan w) j) = Some (lo, hi) /\
    arr_get (data (chan (ensureIndexAvailable i w)))
      ((j - dataOffset (chan (ensureIndexAvailable i w))) * 2) = JNum lo /\
    arr_get (data (chan (ensureIndexAvailable i w)))
      ((j - dataOffset (chan (ensureIndexAvailable i w))) * 2 + 1) = JNum hi.
Proof.
  intros Hout Hj Hin Hs. set (s := sampleIdxInOriginalWave (chan w) j) in *.
  rewrite refresh_min, refresh_max by assumption.
  unfold writes, seed_pair. rewrite Hin. fold s.
  replace ((0 <=? s) && (s <? drw_length (originalWaveform (chan w)))) with true by zbool.
  simpl. unfold wd_min_sample, wd_max_sample.
  replace (s <? 0) with false by zbool.
  unfold drw_length, wd_length in Hs.
  destruct (wd_samples (waveformData (originalWaveform (chan w))) !! Z.to_nat s)
    as [[lo hi]|] eqn:E.
  - exists lo, hi. auto.
  - apply lookup_ge_None in E. lia.
Qed.

(** A pixel that is neither carried over nor mapped inside the backing
    waveform is left a hole of [new Array]. *)
Lemma ensure_leaves_hole (w : World) (i j : Z) :
  is_available (chan w) i = false ->
  i - 2000 <= j < i + 2000 ->
  in_range (chan w) j = false ->
  sampleIdxInOriginalWave (chan w) j < 0 \/
  drw_length (originalWaveform (chan w)) <= sampleIdxInOriginalWave (chan w) j ->
  arr_get (data (chan (ensureIndexAvailable i w)))
    ((j - dataOffset (chan (ensureIndexAvailable i w))) * 2) = JUndefined /\
  arr_get (data (chan (ensureIndexAvailable i w)))
    ((j - dataOffset (chan (ensureIndexAvailable i w))) * 2 + 1) = JUndefined.
Proof.
  intros Hout Hj Hin Hs. set (s := sampleIdxInOriginalWave (chan w) j) in *.
  rewrite refresh_min, refresh_max by assumption.
  unfold writes. rewrite Hin. fold s.
  replace ((0 <=? s) && (s <? drw_length (originalWaveform (chan w)))) with false by zbool.
  split; reflexivity.
Qed.

(** A pixel of the freshly installed window is read without a second
    refresh. *)
Lemma ensure_twice (w : World) (i j : Z) :
  is_available (chan w) i = false ->
  i - 2000 <= j <= i + 2000 ->
  ensureIndexAvailable j (ensureIndexAvailable i w) = ensureIndexAvailable i w.
Proof.
  intros Hout Hj. apply ensure_available. apply refresh_is_available; assumption.
Qed.

(** The facts the examples need about the first refresh of the scenario
    channel. *)
Lemma scenario_fresh (i : Z) :
  i <> 0 -> is_available (chan Scenario.world0) i = false.
Proof. intros Hi. unfold is_available. simpl. zbool. Qed.

(** C3: on a fresh channel over the 1000-pixel overview, the window
    installed around pixel 100000 holds, at pixel 99000, a pair whose
    mapped backing index 1547 is outside the overview; the pair reads
    [undefined], not the number 0. *)
Theorem C3_unmapped_pixel_is_not_zero :
  in_range (chan Scenario.far_world) 99000 = true /\
  sampleIdxInOriginalWave (chan Scenario.world0) 99000 = 1547 /\
  drw_length (originalWaveform (chan Scenario.world0)) = 1000 /\
  arr_get (data (chan Scenario.far_world))
    ((99000 - dataOffset (chan Scenario.far_world)) * 2) = JUndefined /\
  arr_get (data (chan Scenario.far_world))
    ((99000 - dataOffset (chan Scenario.far_world)) * 2 + 1) = JUndefined /\
  JUndefined <> JNum 0.
Proof.
  assert (Hout : is_available (chan Scenario.world0) 100000 = false)
    by (apply scenario_fresh; lia).
  unfold Scenario.far_world.
  split; [apply refresh_in_range; [exact Hout|lia]|].
  split; [vm_compute; reflexivity|].
  split; [vm_compute; reflexivity|].
  destruct (ensure_leaves_hole Scenario.world0 100000 99000 Hout) as [H1 H2];
    [lia|reflexivity|right; vm_compute; discriminate|].
  split; [exact H1|]. split; [exact H2|discriminate].
Qed.

Lemma min_sample_eq (i : Z) (w : World) :
  fst (min_sample i w) =
  arr_get (data (chan (ensureIndexAvailable i w)))
    ((i - dataOffset (chan (ensureIndexAvailable i w))) * 2).
Proof. reflexivity. Qed.

Lemma max_sample_eq (i : Z) (w : World) :
  fst (max_sample i w) =
  arr_get (data (chan (ensureIndexAvailable i w)))
    ((i - dataOffset (chan (ensureIndexAvailable i w))) * 2 + 1).
Proof. reflexivity. Qed.

(** *** The time range handed to the detail provider *)

(** Whatever the backing waveform, the provider is called with the pixel
    range divided by the literal 48000. *)
Lemma provider_time_range (w : World) (i : Z) :
  is_available (chan w) i = false ->
  In (EvProvider (inject_Z (i - 2000) * samples_per_pixel (chan w) / 48000)%Q
                 (inject_Z (i + 2000) * samples_per_pixel (chan w) / 48000)%Q)
     (trace (ensureIndexAvailable i w)).
Proof.
  intros Hout. rewrite refresh_trace by exact Hout.
  apply in_or_app. right. left. reflexivity.
Qed.

(** C4: for the 44.1 kHz overview, the refresh that installs the span
    [100, 4100) at 8 samples per pixel calls the provider with
    100 * 8 / 48000 and 4100 * 8 / 48000 seconds; the times of that
    span at the backing sample rate, 100 * 8 / 44100 and
    4100 * 8 / 44100, are different numbers. *)
Theorem C4_time_range_ignores_sample_rate :
  (drw_sample_rate (originalWaveform (chan Scenario.world0)) == 44100)%Q /\
  (samples_per_pixel (chan Scenario.world0) == 8)%Q /\
  dataOffset (chan Scenario.world1) = 100 /\
  trace Scenario.world1 =
    [EvProvider (inject_Z 100 * samples_per_pixel (chan Scenario.world0) / 48000)%Q
                (inject_Z 4100 * samples_per_pixel (chan Scenario.world0) / 48000)%Q;
     EvSend 0 "/detail"] /\
  ~ (inject_Z 100 * samples_per_pixel (chan Scenario.world0) / 48000
       == inject_Z 100 * samples_per_pixel (chan Scenario.world0)
            / drw_sample_rate (originalWaveform (chan Scenario.world0)))%Q /\
  ~ (inject_Z 4100 * samples_per_pixel (chan Scenario.world0) / 48000
       == inject_Z 4100 * samples_per_pixel (chan Scenario.world0)
            / drw_sample_rate (originalWaveform (chan Scenario.world0)))%Q.
Proof.
  assert (Hout : is_available (chan Scenario.world0) 2100 = false)
    by (apply scenario_fresh; lia).
  unfold Scenario.world1.
  split; [reflexivity|]. split; [reflexivity|].
  split; [rewrite refresh_offset by exact Hout; reflexivity|].
  split; [rewrite refresh_trace by exact Hout; reflexivity|].
  split; vm_compute; discriminate.
Qed.

(** *** When ensureIndexAvailable does nothing *)

Lemma ensure_noop_iff (w : World) (i : Z) :
  ensureIndexAvailable i w = w <-> is_available (chan w) i = true.
Proof.
  split; [|apply ensure_available].
  destruct (is_available (chan w) i) eqn:E; [reflexivity|].
  intros Heq. assert (H := refresh_trace w i E). rewrite Heq in H.
  apply (f_equal (@length Event)) in H. rewrite !length_app in H. simpl in H. lia.
Qed.

(** The test is the closed interval [offset, offset + size]. *)
Lemma ensure_noop_closed_interval (w : World) (i : Z) (size : Z) :
  Z.of_nat (length (data (chan w))) = 2 * size ->
  (ensureIndexAvailable i w = w <->
   dataOffset (chan w) <= i <= dataOffset (chan w) + size).
Proof. intros Hs. rewrite ensure_noop_iff, is_available_spec. lia. Qed.

Lemma sends_app (t1 t2 : list Event) : sends (t1 ++ t2) = (sends t1 + sends t2)%nat.
Proof. unfold sends. rewrite List.filter_app, length_app. reflexivity. Qed.

Lemma aborts_app (t1 t2 : list Event) : aborts (t1 ++ t2) = (aborts t1 + aborts t2)%nat.
Proof. unfold aborts. rewrite List.filter_app, length_app. reflexivity. Qed.

(** A refresh sends exactly one request and aborts at most one. *)
Lemma refresh_one_fetch (w : World) (i : Z) :
  is_available (chan w) i = false ->
  sends (trace (ensureIndexAvailable i w)) = S (sends (trace w)) /\
  (aborts (trace (ensureIndexAvailable i w)) <= S (aborts (trace w)))%nat.
Proof.
  intros Hout. rewrite refresh_trace by exact Hout.
  rewrite !sends_app, !aborts_app. unfold abort_events.
  destruct (xhr (chan w)); simpl; unfold sends, aborts; simpl; lia.
Qed.

(** C5: the test that opens [ensureIndexAvailable] is inclusive at the
    upper end.  On a fresh channel (empty window, offset 0) pixel 0 is
    not resident, yet [ensureIndexAvailable(0)] changes nothing and
    sends nothing, and [min_sample(0)] reads [undefined].  With the
    window [100, 4100) resident, pixel 4100 is outside it and
    [ensureIndexAvailable(4100)] is again a no-op. *)
Theorem C5_noop_outside_half_open_window :
  (in_range (chan Scenario.world0) 0 = false /\
   ensureIndexAvailable 0 Scenario.world0 = Scenario.world0 /\
   fst (min_sample 0 Scenario.world0) = JUndefined) /\
  (dataOffset (chan Scenario.world1) = 100 /\
   Z.of_nat (length (data (chan Scenario.world1))) = 2 * 4000 /\
   in_range (chan Scenario.world1) 4100 = false /\
   ensureIndexAvailable 4100 Scenario.world1 = Scenario.world1 /\
   sends (trace (ensureIndexAvailable 4100 Scenario.world1))
     = sends (trace Scenario.world1)).
Proof.
  assert (Hout : is_available (chan Scenario.world0) 2100 = false)
    by (apply scenario_fresh; lia).
  unfold Scenario.world1. split.
  - split; [reflexivity|]. split; reflexivity.
  - assert (Hno : ensureIndexAvailable 4100 (ensureIndexAvailable 2100 Scenario.world0)
                  = ensureIndexAvailable 2100 Scenario.world0)
      by (apply ensure_twice; [exact Hout|lia]).
    split; [rewrite refresh_offset by exact Hout; reflexivity|].
    split; [rewrite refresh_length by exact Hout; reflexivity|].
    split.
    + destruct (in_range (chan (ensureIndexAvailable 2100 Scenario.world0)) 4100) eqn:E;
        [|reflexivity].
      pose proof (proj1 (refresh_in_range Scenario.world0 2100 Hout 4100) E). lia.
    + split; [exact Hno|]. rewrite Hno. reflexivity.
Qed.

(** C6: on a fresh channel over the 1000-pixel overview,
    [min_sample(100000)] and [max_sample(100000)] install the window
    around pixel 100000, whose mapped backing index 1563 is outside the
    overview, and return [undefined]; [min_sample(0)] and
    [max_sample(0)], which install nothing, return [undefined] as well.
    None of them returns the number 0. *)
Theorem C6_unpopulated_index_reads_undefined :
  sampleIdxInOriginalWave (chan Scenario.world0) 100000 = 1563 /\
  drw_length (originalWaveform (chan Scenario.world0)) = 1000 /\
  fst (min_sample 100000 Scenario.world0) = JUndefined /\
  fst (max_sample 100000 Scenario.world0) = JUndefined /\
  fst (min_sample 0 Scenario.world0) = JUndefined /\
  fst (max_sample 0 Scenario.world0) = JUndefined /\
  JUndefined <> JNum 0.
Proof.
  assert (Hout : is_available (chan Scenario.world0) 100000 = false)
    by (apply scenario_fresh; lia).
  split; [vm_compute; reflexivity|]. split; [vm_compute; reflexivity|].
  destruct (ensure_leaves_hole Scenario.world0 100000 100000 Hout) as [H1 H2];
    [lia|reflexivity|right; vm_compute; discriminate|].
  rewrite min_sample_eq, max_sample_eq.
  split; [exact H1|]. split; [exact H2|].
  split; [reflexivity|]. split; [reflexivity|discriminate].
Qed.

(** ** The completion handler *)

Section Handler.

Variable wd_resample : WaveformData -> ResampleArgs -> WaveformData.

Lemma copy_body_min (ch : WaveformData) (i p : Z) (a : list jsval) :
  0 <= i ->
  arr_get (copy_body ch i a) (p * 2) =
  if p =? i then wd_min_sample ch i else arr_get a (p * 2).
Proof.
  intros Hi. unfold copy_body.
  destruct (Z.eqb_spec p i) as [->|Hne]; arr_simpl; reflexivity.
Qed.

Lemma copy_body_max (ch : WaveformData) (i p : Z) (a : list jsval) :
  0 <= i ->
  arr_get (copy_body ch i a) (p * 2 + 1) =
  if p =? i then wd_max_sample ch i else arr_get a (p * 2 + 1).
Proof.
  intros Hi. unfold copy_body.
  destruct (Z.eqb_spec p i) as [->|Hne]; arr_simpl; reflexivity.
Qed.

Lemma copy_loop_min (ch : WaveformData) (p : Z) (n : nat) :
  forall (i : Z) (a : list jsval), 0 <= i ->
  arr_get (for_loop n i (copy_body ch) a) (p * 2) =
  if (i <=? p) && (p <? i + Z.of_nat n) then wd_min_sample ch p else arr_get a (p * 2).
Proof.
  induction n as [|n IH]; intros i a Hi.
  - simpl. replace ((i <=? p) && (p <? i + Z.of_nat 0)) with false by zbool. reflexivity.
  - cbn [for_loop]. rewrite IH by lia. rewrite copy_body_min by exact Hi.
    destruct (Z.eqb_spec p i) as [->|Hne].
    + replace (i + 1 <=? i) with false by zbool.
      replace ((i <=? i) && (i <? i + Z.of_nat (S n))) with true by zbool. reflexivity.
    + replace ((i <=? p) && (p <? i + Z.of_nat (S n)))
        with ((i + 1 <=? p) && (p <? i + 1 + Z.of_nat n)) by zbool.
      reflexivity.
Qed.

Lemma copy_loop_max (ch : WaveformData) (p : Z) (n : nat) :
  forall (i : Z) (a : list jsval), 0 <= i ->
  arr_get (for_loop n i (copy_body ch) a) (p * 2 + 1) =
  if (i <=? p) && (p <? i + Z.of_nat n) then wd_max_sample ch p else arr_get a (p * 2 + 1).
Proof.
  induction n as [|n IH]; intros i a Hi.
  - simpl. replace ((i <=? p) && (p <? i + Z.of_nat 0)) with false by zbool. reflexivity.
  - cbn [for_loop]. rewrite IH by lia. rewrite copy_body_max by exact Hi.
    destruct (Z.eqb_spec p i) as [->|Hne].
    + replace (i + 1 <=? i) with false by zbool.
      replace ((i <=? i) && (i <? i + Z.of_nat (S n))) with true by zbool. reflexivity.
    + replace ((i <=? p) && (p <? i + Z.of_nat (S n)))
        with ((i + 1 <=? p) && (p <? i + 1 + Z.of_nat n)) by zbool.
      reflexivity.
Qed.

Lemma length_copy_loop (ch : WaveformData) (n : nat) :
  forall (i : Z) (a : list jsval), 0 <= i ->
  (i + Z.of_nat n) * 2 <= Z.of_nat (length a) ->
  length (for_loop n i (copy_body ch) a) = length a.
Proof.
  induction n as [|n IH]; intros i a Hi Hlen; [reflexivity|].
  cbn [for_loop].
  assert (Hb : length (copy_body ch i a) = length a)
    by (unfold copy_body; arr_simpl; reflexivity).
  rewrite IH; lia.
Qed.

(** The copy loop reads the resampled channel at
    0, 1, .., numSamplesToCopy - 1. *)
Lemma reads_loop (n : nat) :
  forall (i : Z) (l : list Z) (d : Z),
  In d (for_loop n i (fun dataIdx l => l ++ [dataIdx]) l) <->
  In d l \/ i <= d < i + Z.of_nat n.
Proof.
  induction n as [|n IH]; intros i l d.
  - simpl. split; [auto|intros [?|?]; [assumption|lia]].
  - cbn [for_loop]. rewrite IH, in_app_iff. simpl. split.
    + intros [[?|[?|[]]]|?]; [auto|right; lia|right; lia].
    + intros [?|?]; [auto|].
      destruct (Z.eq_dec d i); [left; right; left; congruence|right; lia].
Qed.

Lemma copy_reads_spec (x : Xhr) (response : WaveformData) (d : Z) :
  In d (copy_reads x response) <-> 0 <= d < numSamplesToCopy x response.
Proof.
  unfold copy_reads, for_range. rewrite reads_loop. simpl.
  split; [intros [[]|?]|intros ?; right]; lia.
Qed.

(** The handler on a successful mono response. *)
Lemma onload_success (k : nat) (x : Xhr) (response : WaveformData) (w : World) :
  xhrs w !! k = Some x ->
  wd_channels response = 1 ->
  onload wd_resample k 4 200 response w =
  {| chan := set_data (chan w)
               (for_range 0 (numSamplesToCopy x response)
                  (copy_body (resampled wd_resample (chan w) response)) (data (chan w)));
     xhrs := xhrs w;
     trace := trace w ++ (if refreshCallback (chan w) then [EvRefresh] else []) |}.
Proof. intros Hx Hc. unfold onload. rewrite Hx, Hc. reflexivity. Qed.

(** The handler on a status other than 200: one log line. *)
Lemma onload_bad_status (k : nat) (readyState status : Z) (response : WaveformData)
    (w : World) :
  status <> 200 ->
  exists msgs,
    onload wd_resample k readyState status response w =
    {| chan := chan w; xhrs := xhrs w; trace := trace w ++ map EvLog msgs |}.
Proof.
  intros Hs. unfold onload.
  destruct (xhrs w !! k) as [x|]; [|exists []; simpl; rewrite app_nil_r; destruct w; reflexivity].
  destruct (negb (readyState =? 4));
    [exists []; simpl; rewrite app_nil_r; destruct w; reflexivity|].
  replace (status =? 200) with false by zbool. simpl.
  eexists [_]. reflexivity.
Qed.

(** A load event runs the handler with what the request holds: the
    values the transport set, or 0 and 0 on an aborted request. *)
Lemma dispatch_load (k : nat) (readyState status : Z) (r : WaveformData) (w : World) :
  exists rs st,
    dispatch wd_resample k (LoadEvent readyState status r) w = onload wd_resample k rs st r w /\
    (rs = readyState /\ st = status \/ rs = 0 /\ st = 0).
Proof.
  cbn [dispatch]. destruct (xhrs w !! k) as [x|] eqn:Hk.
  - exists (xhr_readyState x readyState), (xhr_status x status). split; [reflexivity|].
    unfold xhr_readyState, xhr_status. destruct (xhr_state x); auto.
  - exists readyState, status. split; [|auto]. unfold onload. rewrite Hk. reflexivity.
Qed.

(** On an aborted request the handler returns at its first test. *)
Lemma dispatch_aborted (k : nat) (x : Xhr) (ev : Completion) (w : World) :
  xhrs w !! k = Some x -> xhr_state x = Aborted -> dispatch wd_resample k ev w = w.
Proof.
  intros Hk Hs. destruct ev as [rs st r| |]; cbn [dispatch]; [|reflexivity|reflexivity].
  rewrite Hk. unfold xhr_readyState, xhr_status. rewrite Hs.
  unfold onload. rewrite Hk. reflexivity.
Qed.

(** A failed fetch runs at most the logging branch of the handler. *)
Lemma dispatch_failure (k : nat) (ev : Completion) (w : World) :
  is_failure ev = true ->
  exists msgs,
    dispatch wd_resample k ev w =
    {| chan := chan w; xhrs := xhrs w; trace := trace w ++ map EvLog msgs |}.
Proof.
  intros Hf. destruct ev as [readyState status response| |].
  - destruct (dispatch_load k readyState status response w) as (rs & st & -> & Hrs).
    apply onload_bad_status. simpl in Hf.
    destruct (Z.eqb_spec status 200); [discriminate|]. destruct Hrs as [[_ ->]|[_ ->]]; lia.
  - exists []. simpl. rewrite app_nil_r. destruct w; reflexivity.
  - exists []. simpl. rewrite app_nil_r. destruct w; reflexivity.
Qed.

Lemma step_failure (strict : bool) (k : nat) (ev : Completion) (w : World) :
  is_failure ev = true ->
  exists msgs,
    chan (step wd_resample strict (Complete k ev) w) = chan w /\
    trace (step wd_resample strict (Complete k ev) w) = trace w ++ map EvLog msgs.
Proof.
  intros Hf. destruct (dispatch_failure k ev w Hf) as [msgs Hd].
  unfold step.
  destruct (xhrs w !! k) as [x|]; [|exists []; rewrite app_nil_r; auto].
  destruct (xhr_state x); [| |exists []; rewrite app_nil_r; auto].
  - exists msgs. rewrite Hd. auto.
  - destruct strict; [exists []; rewrite app_nil_r; auto|].
    exists msgs. rewrite Hd. auto.
Qed.

Lemma sends_logs (msgs : list string) : sends (map EvLog msgs) = 0%nat.
Proof. induction msgs; [reflexivity|assumption]. Qed.

Lemma refreshes_logs (msgs : list string) : refreshes (map EvLog msgs) = 0%nat.
Proof. induction msgs; [reflexivity|assumption]. Qed.

Lemma refreshes_app (t1 t2 : list Event) :
  refreshes (t1 ++ t2) = (refreshes t1 + refreshes t2)%nat.
Proof. unfold refreshes. rewrite List.filter_app, length_app. reflexivity. Qed.

(** When a detail fetch fails (a status other than 200, a transport
    error or an abort), the channel is left exactly as it was (window
    data, offset and request handle), the only trace of the failure is
    console output: the refresh callback is not invoked and no request
    is sent; and an access that afterwards falls before the window's
    offset, or beyond the index [offset + size], sends one new
    request. *)
Lemma failed_fetch_keeps_window
    (strict : bool) (k : nat) (ev : Completion) (w : World) :
  is_failure ev = true ->
  let w' := step wd_resample strict (Complete k ev) w in
  chan w' = chan w /\
  (exists msgs, trace w' = trace w ++ map EvLog msgs) /\
  refreshes (trace w') = refreshes (trace w) /\
  sends (trace w') = sends (trace w) /\
  forall i : Z,
    i < dataOffset (chan w') \/
    Z.of_nat (length (data (chan w'))) < 2 * (i - dataOffset (chan w')) ->
    sends (trace (ensureIndexAvailable i w')) = S (sends (trace w')).
Proof.
  intros Hf w'. destruct (step_failure strict k ev w Hf) as [msgs [Hc Ht]].
  fold w' in Hc, Ht.
  split; [exact Hc|]. split; [exists msgs; exact Ht|].
  split; [rewrite Ht, refreshes_app, refreshes_logs; lia|].
  split; [rewrite Ht, sends_app, sends_logs; lia|].
  intros i Hi. apply refresh_one_fetch.
  destruct (is_available (chan w') i) eqn:E; [|reflexivity].
  apply is_available_spec in E. lia.
Qed.

End Handler.

(** ** The min <= max invariant on populated pairs *)

Lemma arr_get_negative (a : list jsval) (k : Z) : k < 0 -> arr_get a k = JUndefined.
Proof. intros Hk. unfold arr_get. replace (k <? 0) with true by zbool. reflexivity. Qed.

Lemma arr_get_past_end (a : list jsval) (k : Z) :
  Z.of_nat (length a) <= k -> arr_get a k = JUndefined.
Proof.
  intros Hk. unfold arr_get. destruct (k <? 0); [reflexivity|].
  rewrite lookup_ge_None_2 by lia. reflexivity.
Qed.

Lemma wd_pair_ok (ch : WaveformData) (i : Z) :
  waveform_ok ch -> pair_ok (wd_min_sample ch i) (wd_max_sample ch i).
Proof.
  intros Hok. unfold wd_min_sample, wd_max_sample.
  destruct (i <? 0); [exact I|].
  destruct (wd_samples ch !! Z.to_nat i) as [p|] eqn:E; [|exact I].
  simpl. unfold waveform_ok in Hok. rewrite Forall_lookup in Hok. exact (Hok _ _ E).
Qed.

Lemma pairs_ok_nil : pairs_ok [].
Proof. intros p. rewrite !arr_get_nil. exact I. Qed.

(** Seeding and cache carry-over keep the invariant. *)
Lemma ensure_window_ok (w : World) (i : Z) :
  waveform_ok (waveformData (originalWaveform (chan w))) ->
  pairs_ok (data (chan w)) ->
  pairs_ok (data (chan (ensureIndexAvailable i w))).
Proof.
  intros Hb Hw. destruct (is_available (chan w) i) eqn:Hout.
  - rewrite ensure_available by exact Hout. exact Hw.
  - intros p.
    destruct (Z.lt_ge_cases p 0) as [Hneg|Hpos].
    { rewrite !arr_get_negative by lia. exact I. }
    destruct (Z.lt_ge_cases p 4000) as [Hin|Hpast].
    2:{ rewrite !arr_get_past_end by (rewrite refresh_length by exact Hout; lia). exact I. }
    set (j := p + (i - 2000)).
    replace p with (j - dataOffset (chan (ensureIndexAvailable i w)))
      by (rewrite refresh_offset by exact Hout; unfold j; lia).
    rewrite refresh_min, refresh_max by (try exact Hout; unfold j; lia).
    destruct (writes (chan w) j); [|exact I].
    unfold seed_pair. destruct (in_range (chan w) j); simpl.
    + apply Hw.
    + apply wd_pair_ok. exact Hb.
Qed.

(** Installing a response keeps the invariant. *)
Lemma copy_pairs_ok (ch : WaveformData) (n : Z) (a : list jsval) :
  waveform_ok ch -> pairs_ok a ->
  pairs_ok (for_range 0 n (copy_body ch) a).
Proof.
  intros Hch Ha p. unfold for_range.
  rewrite copy_loop_min, copy_loop_max by lia.
  destruct ((0 <=? p) && (p <? 0 + Z.of_nat (Z.to_nat (n - 0)))).
  - apply wd_pair_ok. exact Hch.
  - apply Ha.
Qed.

Section Invariant.

Variable wd_resample : WaveformData -> ResampleArgs -> WaveformData.

(** The library's [resample] maps pairs with min <= max to pairs with
    min <= max. *)
Hypothesis resample_ok :
  forall r args, waveform_ok r -> waveform_ok (wd_resample r args).

Lemma onload_static (k : nat) (readyState status : Z) (r : WaveformData) (w : World) :
  originalWaveform (chan (onload wd_resample k readyState status r w))
    = originalWaveform (chan w).
Proof.
  unfold onload. destruct (xhrs w !! k); [|reflexivity].
  destruct (negb (readyState =? 4)); [reflexivity|].
  destruct (negb (status =? 200)); [reflexivity|].
  destruct (negb (wd_channels r =? 1)); reflexivity.
Qed.

Lemma onload_window_ok (k : nat) (readyState status : Z) (r : WaveformData) (w : World) :
  waveform_ok r ->
  pairs_ok (data (chan w)) ->
  pairs_ok (data (chan (onload wd_resample k readyState status r w))).
Proof.
  intros Hr Hw. unfold onload. destruct (xhrs w !! k); [|exact Hw].
  destruct (negb (readyState =? 4)); [exact Hw|].
  destruct (negb (status =? 200)); [exact Hw|].
  destruct (negb (wd_channels r =? 1)); [exact Hw|].
  simpl. apply copy_pairs_ok; [|exact Hw].
  apply resample_ok. exact Hr.
Qed.

Lemma step_window_ok (strict : bool) (a : Action) (w : World) :
  waveform_ok (waveformData (originalWaveform (chan w))) ->
  response_ok a ->
  pairs_ok (data (chan w)) ->
  waveform_ok (waveformData (originalWaveform (chan (step wd_resample strict a w)))) /\
  pairs_ok (data (chan (step wd_resample strict a w))).
Proof.
  intros Hb Ha Hw. destruct a as [i|k ev]; simpl.
  - split; [|apply ensure_window_ok; assumption].
    destruct (ensure_static w i) as [-> _]. exact Hb.
  - destruct (xhrs w !! k) as [x|]; [|auto].
    assert (Hd : waveform_ok (waveformData (originalWaveform (chan (dispatch wd_resample k ev w))))
                 /\ pairs_ok (data (chan (dispatch wd_resample k ev w)))).
    { destruct ev as [rs0 st0 r| |]; [|simpl; auto|simpl; auto].
      destruct (dispatch_load wd_resample k rs0 st0 r w) as (rs & st & -> & _).
      rewrite onload_static. split; [exact Hb|].
      apply onload_window_ok; assumption. }
    destruct (xhr_state x); [exact Hd| |auto].
    destruct strict; [auto|exact Hd].
Qed.

(** In every state a channel reaches from its construction, every pair
    of the window is either unpopulated (both halves [undefined]) or
    two numbers with min <= max, provided the backing waveform and the
    responses are so. *)
Lemma run_window_ok (strict : bool) (acts : list Action) :
  forall w : World,
  waveform_ok (waveformData (originalWaveform (chan w))) ->
  Forall response_ok acts ->
  pairs_ok (data (chan w)) ->
  pairs_ok (data (chan (run wd_resample strict acts w))).
Proof.
  induction acts as [|a acts IH]; intros w Hb Ha Hw; [exact Hw|].
  inversion Ha as [|? ? Ha1 Ha2]; subst. simpl.
  destruct (step_window_ok strict a w Hb Ha1 Hw) as [Hb' Hw'].
  apply IH; assumption.
Qed.

End Invariant.

(** C8: in the window installed around pixel 100000 of a fresh channel
    over the 1000-pixel overview (whose pairs all satisfy min <= max),
    pixel 100000 is resident and unpopulated: both accessors return
    [undefined] and the JavaScript comparison
    [min_sample(100000) <= max_sample(100000)] is false. *)
Theorem C8_unpopulated_resident_pixel_fails_min_le_max :
  waveform_ok (waveformData (originalWaveform (chan Scenario.world0))) /\
  in_range (chan Scenario.far_world) 100000 = true /\
  fst (min_sample 100000 Scenario.far_world) = JUndefined /\
  fst (max_sample 100000 Scenario.far_world) = JUndefined /\
  js_le (fst (min_sample 100000 Scenario.far_world))
        (fst (max_sample 100000 Scenario.far_world)) = false.
Proof.
  assert (Hout : is_available (chan Scenario.world0) 100000 = false)
    by (apply scenario_fresh; lia).
  unfold Scenario.far_world.
  destruct (ensure_leaves_hole Scenario.world0 100000 100000 Hout) as [H1 H2];
    [lia|reflexivity|right; vm_compute; discriminate|].
  rewrite min_sample_eq, max_sample_eq.
  rewrite (ensure_twice Scenario.world0 100000 100000 Hout) by lia.
  rewrite H1, H2.
  split; [apply Forall_replicate; simpl; lia|].
  split; [apply refresh_in_range; [exact Hout|lia]|].
  repeat split.
Qed.

(** ** One request in flight *)

Lemma abort_not_sent (x : Xhr) : xhr_state (abort x) <> Sent.
Proof. unfold abort. destruct (xhr_state x) eqn:E; simpl; congruence. Qed.

Lemma abort_span (x : Xhr) : xhr_to (abort x) - xhr_from (abort x) = xhr_to x - xhr_from x.
Proof. unfold abort. destruct (xhr_state x); reflexivity. Qed.

Lemma single_fetch_fresh (c : VirtualChannel) :
  xhr c = None -> single_fetch (new_World c).
Proof.
  intros Hx. unfold single_fetch. simpl. rewrite Hx.
  repeat split; try reflexivity; intros; try discriminate; congruence.
Qed.

Lemma single_fetch_ensure (w : World) (i : Z) :
  single_fetch w -> single_fetch (ensureIndexAvailable i w).
Proof.
  intros HI.
  destruct (is_available (chan w) i) eqn:Hout.
  { rewrite ensure_available by exact Hout. exact HI. }
  destruct HI as (I1 & I2 & I3 & I4).
  unfold single_fetch.
  rewrite refresh_xhr, refresh_xhrs, refresh_offset by exact Hout.
  assert (Hlen := length_after_abort w).
  split; [rewrite length_app; simpl; lia|].
  split; [|split].
  - intros k x Hk Hs. apply lookup_app_Some in Hk as [Hk|[Hge Hk]].
    + exfalso. unfold after_abort in Hk. destruct (xhr (chan w)) as [k0|] eqn:Hx.
      * destruct (Nat.eq_dec k0 k) as [->|Hne].
        -- rewrite list_lookup_alter_eq in Hk.
           destruct (xhrs w !! k) as [x0|]; [|discriminate].
           injection Hk as <-. exact (abort_not_sent x0 Hs).
        -- rewrite list_lookup_alter_ne in Hk by exact Hne.
           destruct (I2 k x Hk Hs) as [Hlast _]. lia.
      * rewrite I1 in Hk. discriminate.
    + destruct (k - length (after_abort w))%nat as [|n] eqn:En; [|destruct n; discriminate].
      injection Hk as <-. simpl. rewrite length_app. simpl.
      unfold maxWindowSize. split; lia.
  - intros k x Hk. apply lookup_app_Some in Hk as [Hk|[Hge Hk]].
    + unfold after_abort in Hk. destruct (xhr (chan w)) as [k0|]; [|exact (I3 k x Hk)].
      destruct (Nat.eq_dec k0 k) as [->|Hne].
      * rewrite list_lookup_alter_eq in Hk.
        destruct (xhrs w !! k) as [x0|] eqn:E0; [|discriminate].
        injection Hk as <-. rewrite abort_span. exact (I3 k x0 E0).
      * rewrite list_lookup_alter_ne in Hk by exact Hne. exact (I3 k x Hk).
    + destruct (k - length (after_abort w))%nat as [|n]; [|destruct n; discriminate].
      injection Hk as <-. simpl. unfold maxWindowSize. lia.
  - intros _. apply refresh_length. exact Hout.
Qed.

Section OneInFlight.

Variable wd_resample : WaveformData -> ResampleArgs -> WaveformData.

Lemma dispatch_frame (k : nat) (ev : Completion) (w : World) :
  xhrs (dispatch wd_resample k ev w) = xhrs w /\
  xhr (chan (dispatch wd_resample k ev w)) = xhr (chan w) /\
  dataOffset (chan (dispatch wd_resample k ev w)) = dataOffset (chan w).
Proof.
  destruct ev as [rs0 st0 r| |]; [|simpl; auto|simpl; auto].
  destruct (dispatch_load wd_resample k rs0 st0 r w) as (rs & st & -> & _).
  unfold onload. destruct (xhrs w !! k); auto.
  destruct (negb (rs =? 4)); auto.
  destruct (negb (st =? 200)); auto.
  destruct (negb (wd_channels r =? 1)); auto.
Qed.

Lemma dispatch_length (k : nat) (ev : Completion) (w : World) :
  single_fetch w ->
  length (data (chan (dispatch wd_resample k ev w))) = length (data (chan w)).
Proof.
  intros (I1 & I2 & I3 & I4).
  destruct ev as [rs0 st0 r| |]; [|simpl; auto|simpl; auto].
  destruct (dispatch_load wd_resample k rs0 st0 r w) as (rs & st & -> & _).
  unfold onload. destruct (xhrs w !! k) as [x|] eqn:Hk; auto.
  destruct (negb (rs =? 4)); auto.
  destruct (negb (st =? 200)); auto.
  destruct (negb (wd_channels r =? 1)); auto.
  simpl. unfold for_range. apply length_copy_loop; [lia|].
  assert (Hspan := I3 k x Hk).
  assert (Hd : Z.of_nat (length (data (chan w))) = 8000)
    by (apply I4; intros Hnil; rewrite Hnil in Hk; discriminate).
  unfold numSamplesToCopy. lia.
Qed.

Lemma single_fetch_complete (k : nat) (ev : Completion) (w : World) :
  single_fetch w -> single_fetch (complete k (dispatch wd_resample k ev w)).
Proof.
  intros HI. assert (Hl := dispatch_length k ev w HI).
  destruct (dispatch_frame k ev w) as (Hx & Hh & Ho).
  destruct HI as (I1 & I2 & I3 & I4).
  unfold single_fetch, complete. simpl. rewrite Hx, Hh, Ho, Hl, length_alter.
  split; [|split; [|split]].
  - destruct (xhr (chan w)); [exact I1|]. rewrite I1. reflexivity.
  - intros k' x Hk Hs. destruct (Nat.eq_dec k k') as [->|Hne].
    + rewrite list_lookup_alter_eq in Hk.
      destruct (xhrs w !! k') as [x0|]; [|discriminate].
      injection Hk as <-. discriminate.
    + rewrite list_lookup_alter_ne in Hk by exact Hne. exact (I2 k' x Hk Hs).
  - intros k' x Hk. destruct (Nat.eq_dec k k') as [->|Hne].
    + rewrite list_lookup_alter_eq in Hk.
      destruct (xhrs w !! k') as [x0|] eqn:E0; [|discriminate].
      injection Hk as <-. exact (I3 k' x0 E0).
    + rewrite list_lookup_alter_ne in Hk by exact Hne. exact (I3 k' x Hk).
  - intros Hne. apply I4. intros Hnil. apply Hne. rewrite Hnil. reflexivity.
Qed.

Lemma single_fetch_step (strict : bool) (a : Action) (w : World) :
  single_fetch w -> single_fetch (step wd_resample strict a w).
Proof.
  intros HI. destruct a as [i|k ev]; simpl.
  - apply single_fetch_ensure. exact HI.
  - destruct (xhrs w !! k) as [x|]; [|exact HI].
    destruct (xhr_state x); [|destruct strict|]; try exact HI;
      apply single_fetch_complete; exact HI.
Qed.

Lemma single_fetch_run (strict : bool) (acts : list Action) :
  forall w, single_fetch w -> single_fetch (run wd_resample strict acts w).
Proof.
  induction acts as [|a acts IH]; intros w HI; [exact HI|].
  simpl. apply IH. apply single_fetch_step. exact HI.
Qed.

End OneInFlight.

Lemma filter_none_sent (l : list Xhr) :
  (forall x, In x l -> is_sent x = false) -> List.filter is_sent l = [].
Proof.
  induction l as [|x l IH]; intros H; [reflexivity|].
  simpl. rewrite (H x) by (left; reflexivity).
  apply IH. intros y Hy. apply H. right. exact Hy.
Qed.

Lemma count_only_last (l : list Xhr) :
  (forall k x, l !! k = Some x -> is_sent x = true -> S k = length l) ->
  (length (List.filter is_sent l) <= 1)%nat.
Proof.
  destruct l as [|x0 l0 _] using rev_ind; intros H; [simpl; lia|].
  rewrite List.filter_app, length_app.
  rewrite filter_none_sent.
  - simpl. destruct (is_sent x0); simpl; lia.
  - intros x Hx. apply list_elem_of_In, list_elem_of_lookup in Hx as [k Hk].
    destruct (is_sent x) eqn:Es; [|reflexivity].
    assert (Hlt := lookup_lt_Some _ _ _ Hk).
    assert (Hlast : S k = length (l0 ++ [x0])).
    { apply (H k x); [|exact Es]. rewrite lookup_app_l by exact Hlt. exact Hk. }
    rewrite length_app in Hlast. simpl in Hlast. lia.
Qed.

Lemma single_fetch_count (w : World) :
  single_fetch w -> (count_in_flight w <= 1)%nat.
Proof.
  intros (_ & I2 & _). unfold count_in_flight. apply count_only_last.
  intros k x Hk Hs. apply (I2 k x Hk).
  unfold is_sent in Hs. destruct (xhr_state x); congruence.
Qed.

Lemma single_fetch_in_flight (w : World) (k : nat) :
  single_fetch w -> in_flight w k = true ->
  xhr (chan w) = Some k /\
  exists x, xhrs w !! k = Some x /\
            xhr_from x = dataOffset (chan w) /\
            xhr_to x = dataOffset (chan w) + 4000.
Proof.
  intros (I1 & I2 & I3 & _) Hk. unfold in_flight in Hk.
  destruct (xhrs w !! k) as [x|] eqn:E; [|discriminate].
  assert (Hs : xhr_state x = Sent)
    by (unfold is_sent in Hk; destruct (xhr_state x); congruence).
  destruct (I2 k x E Hs) as [Hlast Hfrom]. assert (Hspan := I3 k x E).
  split.
  - destruct (xhr (chan w)) as [k0|]; [f_equal; lia|].
    rewrite I1 in E. discriminate.
  - exists x. repeat split; [exact Hfrom|lia].
Qed.

Lemma refresh_supersedes (w : World) (i : Z) (k : nat) :
  single_fetch w ->
  is_available (chan w) i = false ->
  xhr (chan w) = Some k ->
  abort_events w = [EvAbort k] /\
  in_flight (ensureIndexAvailable i w) k = false.
Proof.
  intros (I1 & _) Hout Hx. unfold abort_events, in_flight.
  rewrite refresh_xhrs by exact Hout. unfold after_abort. rewrite Hx in *.
  split; [reflexivity|].
  rewrite lookup_app_l by (rewrite length_alter; lia).
  rewrite list_lookup_alter_eq.
  destruct (xhrs w !! k) as [x|]; [|reflexivity].
  simpl. unfold is_sent. assert (H := abort_not_sent x).
  destruct (xhr_state (abort x)); congruence.
Qed.

Lemma refresh_in_flight (w : World) (i : Z) :
  is_available (chan w) i = false ->
  in_flight (ensureIndexAvailable i w) (length (xhrs w)) = true.
Proof.
  intros Hout. unfold in_flight. rewrite refresh_xhrs by exact Hout.
  rewrite lookup_app_r by (rewrite length_after_abort; lia).
  rewrite length_after_abort, Nat.sub_diag. reflexivity.
Qed.

(** C1: in every state a channel reaches from its construction,
    whatever the order in which accesses and completions arrive,
    - at most one request is in flight (sent, neither aborted nor
      ended), and it is the request [this.xhr] issued for the window
      now installed;
    - a window refresh calls [abort()] on the previous request before
      it sends the new one, after which the previous request is no
      longer in flight and the new one is;
    - a completion for a request that is not in flight changes
      nothing: the transport fires no event for a request that was
      aborted or has ended;
    - a response of a superseded request (any request but [this.xhr])
      never overwrites the window: the channel and the trace are as
      before, also if the event were dispatched all the same, since
      the handler reads [readyState] 0 on the request that was
      aborted and returns. *)
Theorem C1_abort_before_send_one_in_flight
    (wd_resample : WaveformData -> ResampleArgs -> WaveformData)
    (strict : bool) (acts : list Action)
    (org : DynamicResampleWaveform) (spp : Q) (provider : Q -> Q -> string) (cb : bool) :
  let w := run wd_resample strict acts
             (new_World (new_VirtualChannel org spp provider cb)) in
  (count_in_flight w <= 1)%nat /\
  (forall k, in_flight w k = true ->
     xhr (chan w) = Some k /\
     exists x, xhrs w !! k = Some x /\
               xhr_from x = dataOffset (chan w) /\
               xhr_to x = dataOffset (chan w) + 4000) /\
  (forall i, is_available (chan w) i = false ->
     let w' := ensureIndexAvailable i w in
     (exists fromSecs toSecs url,
        trace w' = trace w ++ [EvProvider fromSecs toSecs] ++ abort_events w
                           ++ [EvSend (length (xhrs w)) url]) /\
     (forall k, xhr (chan w) = Some k ->
        abort_events w = [EvAbort k] /\ in_flight w' k = false) /\
     in_flight w' (length (xhrs w)) = true /\
     (count_in_flight w' <= 1)%nat) /\
  (forall k ev, in_flight w k = false ->
     step wd_resample true (Complete k ev) w = w) /\
  (forall strict' k ev, xhr (chan w) <> Some k ->
     chan (step wd_resample strict' (Complete k ev) w) = chan w /\
     trace (step wd_resample strict' (Complete k ev) w) = trace w).
Proof.
  intros w.
  assert (HI : single_fetch w)
    by (apply single_fetch_run, single_fetch_fresh; reflexivity).
  split; [apply single_fetch_count; exact HI|].
  split; [intros k; apply single_fetch_in_flight; exact HI|].
  split.
  - intros i Hout w'. split; [|split; [|split]].
    + eexists _, _, _. apply refresh_trace. exact Hout.
    + intros k Hk. apply refresh_supersedes; assumption.
    + apply refresh_in_flight. exact Hout.
    + apply single_fetch_count, single_fetch_ensure. exact HI.
  - split.
    + intros k ev Hk. unfold in_flight in Hk. simpl.
      destruct (xhrs w !! k) as [x|]; [|reflexivity].
      unfold is_sent in Hk. destruct (xhr_state x); [discriminate|reflexivity|reflexivity].
    + intros strict' k ev Hk. cbn [step].
      destruct (xhrs w !! k) as [x|] eqn:E; [|auto].
      destruct (xhr_state x) eqn:Hs; [| |auto].
      * exfalso. apply Hk.
        apply (single_fetch_in_flight w k HI). unfold in_flight, is_sent.
        rewrite E, Hs. reflexivity.
      * destruct strict'; [auto|].
        rewrite (dispatch_aborted wd_resample k x ev w E Hs). auto.
Qed.

(** The two refreshes of the scenario: the window [100, 4100) with
    request 0, then the window [8000, 12000) with request 1. *)
Lemma scenario_two_refreshes :
  is_available (chan Scenario.world0) 2100 = false /\
  is_available (chan Scenario.world1) 10000 = false /\
  xhrs Scenario.world1 = [Scenario.request0] /\
  xhrs Scenario.world2 = [abort Scenario.request0; mkXhr "/detail" 8000 12000 Sent] /\
  xhr (chan Scenario.world2) = Some 1%nat /\
  dataOffset (chan Scenario.world2) = 8000 /\
  samples_per_pixel (chan Scenario.world1) = samples_per_pixel Scenario.channel /\
  samples_per_pixel (chan Scenario.world2) = samples_per_pixel Scenario.channel /\
  originalWaveform (chan Scenario.world1) = Scenario.base.
Proof.
  unfold Scenario.world2, Scenario.world1.
  assert (Hout1 : is_available (chan Scenario.world0) 2100 = false)
    by (apply scenario_fresh; lia).
  assert (Hout2 : is_available (chan (ensureIndexAvailable 2100 Scenario.world0)) 10000 = false).
  { destruct (is_available _ 10000) eqn:E; [|reflexivity].
    pose proof (proj1 (refresh_is_available Scenario.world0 2100 Hout1 10000) E). lia. }
  assert (Hx1 : xhrs (ensureIndexAvailable 2100 Scenario.world0) = [Scenario.request0])
    by (rewrite refresh_xhrs by exact Hout1; reflexivity).
  destruct (refresh_static Scenario.world0 2100 Hout1) as (Ho1 & Hs1 & Hp1 & _).
  destruct (refresh_static _ 10000 Hout2) as (_ & Hs2 & _).
  split; [exact Hout1|]. split; [exact Hout2|]. split; [exact Hx1|].
  split.
  { rewrite refresh_xhrs by exact Hout2. unfold after_abort.
    rewrite refresh_xhr by exact Hout1. rewrite Hx1, Hs1, Hp1. reflexivity. }
  split; [rewrite refresh_xhr by exact Hout2; rewrite Hx1; reflexivity|].
  split; [rewrite refresh_offset by exact Hout2; reflexivity|].
  split; [exact Hs1|]. split; [rewrite Hs2; exact Hs1|exact Ho1].
Qed.

(** C7: request 0, issued for the window [100, 4100), ends with HTTP
    404.  The channel is left as it was, the refresh callback is not
    invoked and nothing is sent.  Pixel 4100 is then outside the window
    ([in_range] is false), yet [ensureIndexAvailable(4100)] returns at
    its opening test, which is inclusive at the upper end: no new
    request is sent and [min_sample(4100)] reads [undefined].  An
    access to pixel 4101 does send a new request. *)
Theorem C7_no_new_attempt_at_window_end :
  let w := step Scenario.lib_resample true
             (Complete 0 (LoadEvent 4 404 Scenario.detail)) Scenario.world1 in
  is_failure (LoadEvent 4 404 Scenario.detail) = true /\
  chan w = chan Scenario.world1 /\
  refreshes (trace w) = refreshes (trace Scenario.world1) /\
  sends (trace w) = sends (trace Scenario.world1) /\
  dataOffset (chan w) = 100 /\
  Z.of_nat (length (data (chan w))) = 2 * 4000 /\
  in_range (chan w) 4100 = false /\
  ensureIndexAvailable 4100 w = w /\
  fst (min_sample 4100 w) = JUndefined /\
  sends (trace (ensureIndexAvailable 4101 w)) = S (sends (trace w)).
Proof.
  intros w.
  destruct (failed_fetch_keeps_window Scenario.lib_resample true 0
              (LoadEvent 4 404 Scenario.detail) Scenario.world1 eq_refl)
    as (Hc & _ & Hr & Hs & Hnew).
  fold w in Hc, Hr, Hs, Hnew.
  assert (Hout : is_available (chan Scenario.world0) 2100 = false)
    by (apply scenario_fresh; lia).
  assert (Ho : dataOffset (chan w) = 100)
    by (rewrite Hc; unfold Scenario.world1; rewrite refresh_offset by exact Hout; reflexivity).
  assert (Hl : Z.of_nat (length (data (chan w))) = 2 * 4000)
    by (rewrite Hc; unfold Scenario.world1; rewrite refresh_length by exact Hout; reflexivity).
  assert (Hno : ensureIndexAvailable 4100 w = w).
  { apply ensure_available, is_available_spec. rewrite Ho, Hl. lia. }
  split; [reflexivity|]. split; [exact Hc|]. split; [exact Hr|]. split; [exact Hs|].
  split; [exact Ho|]. split; [exact Hl|].
  split.
  { destruct (in_range (chan w) 4100) eqn:E; [|reflexivity].
    apply in_range_spec in E. rewrite Ho, Hl in E. lia. }
  split; [exact Hno|].
  split.
  { rewrite min_sample_eq, Hno, Ho. apply arr_get_past_end. rewrite Hl. lia. }
  apply Hnew. right. rewrite Ho, Hl. lia.
Qed.

(** ** The bounds of the copy loop *)

(** Whenever the resampled channel is shorter than the number of pairs
    copied, the loop reads it at its length, one past its last pair. *)
Lemma copy_reads_past_end
    (wd_resample : WaveformData -> ResampleArgs -> WaveformData)
    (c : VirtualChannel) (x : Xhr) (response : WaveformData) :
  wd_length (resampled wd_resample c response) < numSamplesToCopy x response ->
  In (wd_length (resampled wd_resample c response)) (copy_reads x response) /\
  wd_min_sample (resampled wd_resample c response)
    (wd_length (resampled wd_resample c response)) = JUndefined.
Proof.
  intros Hlt. split.
  - apply copy_reads_spec. unfold wd_length in *. lia.
  - unfold wd_min_sample, wd_length.
    replace (Z.of_nat (length (wd_samples (resampled wd_resample c response))) <? 0)
      with false by zbool.
    rewrite Nat2Z.id, lookup_ge_None_2 by lia. reflexivity.
Qed.

(** C10: the window [100, 4100) at 8 samples per pixel is being
    refreshed by request 0 and the response holds 4 pairs at 4 samples
    per pixel.  [numSamplesToCopy] is min(4000, 4) = 4, the length of
    the response before resampling, while the resampled channel has 2
    pairs: the loop reads it at 0, 1, 2 and 3.  The reads at 2 and 3 are
    outside the channel and return [undefined], which replaces the
    seeded pair (-1, 1) of pixel 102. *)
Theorem C10_copy_loop_reads_past_resampled_channel :
  xhrs Scenario.world1 !! 0%nat = Some Scenario.request0 /\
  wd_length Scenario.fine_detail = 4 /\
  numSamplesToCopy Scenario.request0 Scenario.fine_detail = Z.min 4000 4 /\
  wd_length (resampled Scenario.lib_resample (chan Scenario.world1) Scenario.fine_detail)
    = 2 /\
  copy_reads Scenario.request0 Scenario.fine_detail = [0; 1; 2; 3] /\
  wd_min_sample
    (resampled Scenario.lib_resample (chan Scenario.world1) Scenario.fine_detail) 2
    = JUndefined /\
  wd_max_sample
    (resampled Scenario.lib_resample (chan Scenario.world1) Scenario.fine_detail) 3
    = JUndefined /\
  arr_get (data (chan Scenario.world1)) 4 = JNum (-1) /\
  arr_get (data (chan Scenario.world1)) 5 = JNum 1 /\
  arr_get (data (chan (onload Scenario.lib_resample 0 4 200 Scenario.fine_detail
                         Scenario.world1))) 4 = JUndefined /\
  arr_get (data (chan (onload Scenario.lib_resample 0 4 200 Scenario.fine_detail
                         Scenario.world1))) 5 = JUndefined.
Proof.
  destruct scenario_two_refreshes as (Hout1 & _ & Hx1 & _ & _ & _ & Hs1 & _ & Hb1).
  unfold resampled. rewrite Hs1, Hx1.
  split; [reflexivity|]. split; [reflexivity|]. split; [reflexivity|].
  split; [vm_compute; reflexivity|]. split; [reflexivity|].
  split; [vm_compute; reflexivity|]. split; [vm_compute; reflexivity|].
  assert (Hseed : arr_get (data (chan Scenario.world1)) 4 = JNum (-1) /\
                  arr_get (data (chan Scenario.world1)) 5 = JNum 1).
  { assert (Hidx : sampleIdxInOriginalWave (chan Scenario.world0) 102 = 2)
      by (vm_compute; reflexivity).
    assert (Hs : 0 <= sampleIdxInOriginalWave (chan Scenario.world0) 102
                   < drw_length (originalWaveform (chan Scenario.world0)))
      by (rewrite Hidx; clear; vm_compute; split; [intros H; discriminate H|reflexivity]).
    destruct (ensure_seeds Scenario.world0 2100 102 Hout1 ltac:(lia) eq_refl Hs)
      as (lo & hi & Hl & Hmin & Hmax).
    rewrite (refresh_offset _ _ Hout1) in Hmin, Hmax.
    rewrite Hidx in Hl. vm_compute in Hl. injection Hl as <- <-.
    split; assumption. }
  split; [exact (proj1 Hseed)|]. split; [exact (proj2 Hseed)|].
  rewrite (onload_success Scenario.lib_resample 0 Scenario.request0
             Scenario.fine_detail _ ltac:(rewrite Hx1; reflexivity) eq_refl).
  cbn [chan data set_data]. unfold for_range, resampled. rewrite Hs1.
  rewrite (copy_loop_min _ 2), (copy_loop_max _ 2) by lia.
  replace ((0 <=? 2) && (2 <? 0 + Z.of_nat (Z.to_nat
             (numSamplesToCopy Scenario.request0 Scenario.fine_detail - 0))))
    with true by (clear; vm_compute; reflexivity).
  clear. split; vm_compute; reflexivity.
Qed.

(** ** DynamicResampleWaveform.resample *)

Lemma exceeds_spec (l : Q) (n : Z) :
  exceeds (Some l) n = true <-> (inject_Z n < l)%Q.
Proof.
  unfold exceeds. rewrite negb_true_iff. split.
  - intros H. apply Qnot_le_lt. intros Hle. apply Qle_bool_iff in Hle. congruence.
  - intros H. destruct (Qle_bool l (inject_Z n)) eqn:E; [|reflexivity].
    apply Qle_bool_iff in E. apply Qlt_not_le in H. contradiction.
Qed.


(** A multi-channel waveform cannot be virtualised: the constructor of
    DynamicLoadWaveForm throws. *)
Lemma resample_multichannel_throws
    (wd_resample : WaveformData -> ResampleArgs -> WaveformData)
    (self : DynamicResampleWaveform) (args : ResampleArgs) (cb : bool) (l : Q) :
  drw_channels self <> 1 ->
  target_length self args = Some l ->
  (inject_Z (drw_length self) < l)%Q ->
  resample wd_resample self args cb = Thrown "No support for multiple channels".
Proof.
  intros Hc Ht Hl. unfold resample. rewrite Ht.
  rewrite (proj2 (exceeds_spec l _)) by exact Hl.
  unfold new_DynamicLoadWaveForm.
  replace (drw_channels self =? 1) with false by zbool. reflexivity.
Qed.




(** ** WaveformBuilder.init *)

(** Passing both [dataUri] and [waveformData]: the callback is invoked
    once, with a TypeError and no waveform, and nothing else happens. *)
Lemma init_two_sources (e : Builder.Env) (o : Builder.Options) :
  Builder.is_some (Builder.dataUri o) = true ->
  Builder.is_some (Builder.waveformData o) = true ->
  Builder.init e o =
  Builder.call (Builder.CallError Builder.TypeError
    "Peaks.init(): You may only pass one source (webAudio, dataUri, or waveformData) to render waveform data.").
Proof.
  intros Hd Hw. unfold Builder.init. rewrite Hd, Hw.
  rewrite !andb_true_l, orb_true_r. reflexivity.
Qed.

(** The remote path reports a missing URL through the callback. *)
Lemma remote_without_url_reports (e : Builder.Env) (o : Builder.Options) :
  Builder.calls (Builder._getRemoteWaveformData e o (Builder.UriObject None None)) =
  [Builder.CallError Builder.Error
     "Peaks.init(): Unable to determine a compatible dataUri format for this browser"].
Proof.
  unfold Builder._getRemoteWaveformData, Builder.choose_url.
  destruct (Builder.window_ArrayBuffer e), (Builder.window_JSON e); reflexivity.
Qed.

(** No path of [init] invokes the callback more than once, as long as
    the library's [createFromAudio] does not. *)
Lemma init_at_most_once (e : Builder.Env) (o : Builder.Options) :
  (length (Builder.createFromAudio e) <= 1)%nat ->
  (length (Builder.calls (Builder.init e o)) <= 1)%nat.
Proof.
  intros Hlib.
  assert (Haudio : forall url,
            (length (Builder.calls (Builder._requestAudioAndBuildWaveformData e url)) <= 1)%nat).
  { intros url. unfold Builder._requestAudioAndBuildWaveformData.
    destruct (negb (Builder.nonempty url)); [simpl; lia|].
    destruct (Builder.xhr_outcome e url) as [rs st body| |]; [|simpl; lia|simpl; lia].
    destruct (negb (rs =? 4)); [simpl; lia|].
    destruct (negb (st =? 200)); [simpl; lia|exact Hlib]. }
  assert (Hrest : forall out,
            (length (Builder.calls out) <= 1)%nat ->
            (length (Builder.calls
               (if Builder.is_some (Builder.audioContext o)
                then Builder.logged
                  "Peaks.init(): The audioContext option is deprecated, please pass a webAudio object instead"
                  out
                else out)) <= 1)%nat).
  { intros out Hout. destruct (Builder.is_some (Builder.audioContext o)); exact Hout. }
  unfold Builder.init.
  destruct (_ || _ || _); [simpl; lia|].
  apply Hrest.
  destruct (Builder.dataUri o) as [uri|].
  { unfold Builder._getRemoteWaveformData.
    destruct (match uri with
              | Builder.UriObject ab js => Some (ab, js)
              | Builder.UriString s => _
              | Builder.UriOther => None
              end) as [[ab js]|]; [|simpl; lia].
    destruct (negb (Builder.truthy_url (Builder.choose_url e ab js))); [simpl; lia|].
    destruct (Builder.xhr_outcome e _) as [rs st body| |]; [|simpl; lia|simpl; lia].
    destruct (negb (rs =? 4)); [simpl; lia|].
    destruct (negb (st =? 200)); [simpl; lia|].
    destruct body as [err|w0]; [simpl; lia|].
    destruct (negb (Builder.valid_channels (wd_channels w0))); simpl; lia. }
  destruct (Builder.waveformData o) as [d|].
  { unfold Builder._buildWaveformFromLocalData.
    destruct d as [json ab|]; [|simpl; lia].
    destruct (match json with Some p => Some p | None => ab end) as [[err|w0]|];
      [simpl; lia| |simpl; lia].
    destruct (negb (Builder.valid_channels (wd_channels w0))); simpl; lia. }
  destruct (match Builder.audioContext o with
            | Some valid => Some (Builder.mkWebAudio valid false false None)
            | None => Builder.webAudio o
            end) as [a|]; [|simpl; lia].
  destruct (Builder.audioBuffer a); [exact Hlib|].
  unfold Builder._buildWaveformDataUsingWebAudio.
  destruct (negb (Builder.audioContext_valid a)); [simpl; lia|].
  destruct (Builder.nonempty (Builder.currentSrc e)); [apply Haudio|].
  destruct (Builder.canplay e); [apply Haudio|simpl; lia].
Qed.

(** C9: [init] is called with a valid [webAudio.audioContext] and no
    audio buffer; the media element has no source yet, and when
    [player.canplay] fires its [currentSrc] is still empty.
    [_requestAudioAndBuildWaveformData] logs and returns: the completion
    callback is never invoked, with neither an error nor a waveform. *)
Theorem C9_empty_media_url_never_calls_back :
  Builder.calls (Builder.init Scenario.no_media_source Scenario.audio_options) = [] /\
  Builder.logs (Builder.init Scenario.no_media_source Scenario.audio_options)
    = ["Peaks.init(): The mediaElement src is invalid"] /\
  Builder.uncaught (Builder.init Scenario.no_media_source Scenario.audio_options) = [].
Proof. split; [reflexivity|]. split; reflexivity. Qed.

(** * Further properties of the channel *)

(** X1: a refresh triggered by an access to pixel [i] installs the
    window of the 4000 pixels [i - 2000, i + 2000): the offset is
    [i - 2000], the array has 8000 slots, and [i] itself is resident
    afterwards. *)
Theorem X1_refresh_installs_window_around_index (w : World) (i : Z) :
  is_available (chan w) i = false ->
  dataOffset (chan (ensureIndexAvailable i w)) = i - 2000 /\
  Z.of_nat (length (data (chan (ensureIndexAvailable i w)))) = 2 * 4000 /\
  (forall j, in_range (chan (ensureIndexAvailable i w)) j = true
             <-> i - 2000 <= j < i + 2000) /\
  in_range (chan (ensureIndexAvailable i w)) i = true.
Proof.
  intros Hout.
  split; [apply refresh_offset; exact Hout|].
  split; [rewrite refresh_length by exact Hout; reflexivity|].
  split; [intros j; apply refresh_in_range; exact Hout|].
  apply refresh_in_range; [exact Hout|lia].
Qed.

Lemma X1_witness :
  is_available (chan Scenario.world0) 2100 = false /\
  dataOffset (chan (ensureIndexAvailable 2100 Scenario.world0)) = 2100 - 2000.
Proof.
  split; [reflexivity|].
  exact (proj1 (X1_refresh_installs_window_around_index Scenario.world0 2100 eq_refl)).
Defined.

(** X2: cache reuse.  When a refresh moves the window, every pixel of
    the new span that was resident in the previous window keeps its
    (min, max) pair. *)
Theorem X2_refresh_keeps_resident_pairs (w : World) (i j : Z) :
  is_available (chan w) i = false ->
  i - 2000 <= j < i + 2000 ->
  in_range (chan w) j = true ->
  arr_get (data (chan (ensureIndexAvailable i w)))
    ((j - dataOffset (chan (ensureIndexAvailable i w))) * 2)
    = arr_get (data (chan w)) ((j - dataOffset (chan w)) * 2) /\
  arr_get (data (chan (ensureIndexAvailable i w)))
    ((j - dataOffset (chan (ensureIndexAvailable i w))) * 2 + 1)
    = arr_get (data (chan w)) ((j - dataOffset (chan w)) * 2 + 1).
Proof. apply ensure_carries_over. Qed.

Lemma scenario_overlap :
  is_available (chan Scenario.world1) 4200 = false /\
  in_range (chan Scenario.world1) 3000 = true.
Proof.
  assert (Hout : is_available (chan Scenario.world0) 2100 = false)
    by (apply scenario_fresh; lia).
  unfold Scenario.world1. split.
  - destruct (is_available (chan (ensureIndexAvailable 2100 Scenario.world0)) 4200) eqn:E;
      [|reflexivity].
    pose proof (proj1 (refresh_is_available Scenario.world0 2100 Hout 4200) E). lia.
  - apply refresh_in_range; [exact Hout|lia].
Qed.

Lemma X2_witness :
  is_available (chan Scenario.world1) 4200 = false /\
  (4200 - 2000 <= 3000 < 4200 + 2000) /\
  in_range (chan Scenario.world1) 3000 = true /\
  arr_get (data (chan (ensureIndexAvailable 4200 Scenario.world1)))
    ((3000 - dataOffset (chan (ensureIndexAvailable 4200 Scenario.world1))) * 2)
    = arr_get (data (chan Scenario.world1)) ((3000 - dataOffset (chan Scenario.world1)) * 2).
Proof.
  assert (Hspan : 4200 - 2000 <= 3000 < 4200 + 2000)
    by (split; [apply Z.leb_le|apply Z.ltb_lt]; reflexivity).
  split; [exact (proj1 scenario_overlap)|].
  split; [exact Hspan|].
  split; [exact (proj2 scenario_overlap)|].
  exact (proj1 (X2_refresh_keeps_resident_pairs Scenario.world1 4200 3000
                  (proj1 scenario_overlap) Hspan (proj2 scenario_overlap))).
Defined.

(** X3: seeding.  A pixel of the new span that was not resident, and
    whose mapped index [round(0.5 + j * samples_per_pixel / scale)]
    lies inside the backing waveform, receives the backing pair stored
    at that index. *)
Theorem X3_refresh_seeds_from_backing_waveform (w : World) (i j : Z) :
  is_available (chan w) i = false ->
  i - 2000 <= j < i + 2000 ->
  in_range (chan w) j = false ->
  0 <= sampleIdxInOriginalWave (chan w) j < drw_length (originalWaveform (chan w)) ->
  exists lo hi,
    wd_samples (waveformData (originalWaveform (chan w)))
      !! Z.to_nat (sampleIdxInOriginalWave (chan w) j) = Some (lo, hi) /\
    arr_get (data (chan (ensureIndexAvailable i w)))
      ((j - dataOffset (chan (ensureIndexAvailable i w))) * 2) = JNum lo /\
    arr_get (data (chan (ensureIndexAvailable i w)))
      ((j - dataOffset (chan (ensureIndexAvailable i w))) * 2 + 1) = JNum hi.
Proof. apply ensure_seeds. Qed.

Lemma X3_witness :
  is_available (chan Scenario.world0) 2100 = false /\
  (2100 - 2000 <= 102 < 2100 + 2000) /\
  in_range (chan Scenario.world0) 102 = false /\
  (0 <= sampleIdxInOriginalWave (chan Scenario.world0) 102
     < drw_length (originalWaveform (chan Scenario.world0))) /\
  exists lo hi,
    wd_samples (waveformData (originalWaveform (chan Scenario.world0)))
      !! Z.to_nat (sampleIdxInOriginalWave (chan Scenario.world0) 102) = Some (lo, hi) /\
    arr_get (data (chan (ensureIndexAvailable 2100 Scenario.world0)))
      ((102 - dataOffset (chan (ensureIndexAvailable 2100 Scenario.world0))) * 2) = JNum lo /\
    arr_get (data (chan (ensureIndexAvailable 2100 Scenario.world0)))
      ((102 - dataOffset (chan (ensureIndexAvailable 2100 Scenario.world0))) * 2 + 1)
      = JNum hi.
Proof.
  assert (Hspan : 2100 - 2000 <= 102 < 2100 + 2000)
    by (split; [apply Z.leb_le|apply Z.ltb_lt]; reflexivity).
  assert (Hidx : 0 <= sampleIdxInOriginalWave (chan Scenario.world0) 102
                   < drw_length (originalWaveform (chan Scenario.world0)))
    by (split; [apply Z.leb_le|apply Z.ltb_lt]; vm_compute; reflexivity).
  split; [reflexivity|]. split; [exact Hspan|]. split; [reflexivity|].
  split; [exact Hidx|].
  exact (X3_refresh_seeds_from_backing_waveform Scenario.world0 2100 102
           eq_refl Hspan eq_refl Hidx).
Defined.

(** X4: an access never needs a second refresh.  Repeating
    [ensureIndexAvailable(i)] changes nothing, [max_sample(i)] after
    [min_sample(i)] leaves the channel as [min_sample(i)] left it, and
    reading both halves of a pair sends at most one request. *)
Theorem X4_repeated_access_sends_nothing (w : World) (i : Z) :
  ensureIndexAvailable i (ensureIndexAvailable i w) = ensureIndexAvailable i w /\
  snd (max_sample i (snd (min_sample i w))) = snd (min_sample i w) /\
  (sends (trace (snd (max_sample i (snd (min_sample i w)))))
     <= S (sends (trace w)))%nat.
Proof.
  assert (Hid : ensureIndexAvailable i (ensureIndexAvailable i w)
                = ensureIndexAvailable i w).
  { destruct (is_available (chan w) i) eqn:Hout.
    - rewrite (ensure_available w i Hout). apply ensure_available. exact Hout.
    - apply ensure_twice; [exact Hout|lia]. }
  split; [exact Hid|].
  change (snd (min_sample i w)) with (ensureIndexAvailable i w).
  change (snd (max_sample i (ensureIndexAvailable i w)))
    with (ensureIndexAvailable i (ensureIndexAvailable i w)).
  rewrite Hid. split; [reflexivity|].
  destruct (is_available (chan w) i) eqn:Hout.
  - rewrite (ensure_available w i Hout). lia.
  - rewrite (proj1 (refresh_one_fetch w i Hout)). lia.
Qed.

Lemma to_1024th_rounding : rounding Examples.to_1024th.
Proof.
  unfold rounding, Examples.to_1024th. split; [|split; reflexivity].
  intros x y Hxy. apply Qmult_le_compat_r; [|intros E; discriminate E].
  rewrite <- Zle_Qle. apply Qfloor_resp_le. lra.
Qed.

(** X5: the seeding map, in the arithmetic of the code.  Whatever the
    rounding of the product, the quotient and the sum (any monotone
    rounding that leaves 0 and 1/2 as they are, as double precision
    does), with samples_per_pixel not negative and a positive scale,
    the backing index grows with the pixel index and no pixel [i >= 0]
    is ever seeded from the backing index 0.  Without rounding the
    index is [sampleIdxInOriginalWave]. *)
Theorem X5_seed_index_is_monotone_and_never_0 (fl : Q -> Q) (c : VirtualChannel) :
  rounding fl ->
  (0 <= samples_per_pixel c)%Q ->
  (0 < drw_scale (originalWaveform c))%Q ->
  (forall i j, i <= j -> sampleIdx_rounded fl c i <= sampleIdx_rounded fl c j) /\
  (forall i, 0 <= i -> 1 <= sampleIdx_rounded fl c i) /\
  (forall i, sampleIdx_rounded (fun x => x) c i = sampleIdxInOriginalWave c i).
Proof.
  intros (Hmono & H0 & Hhalf) Hspp Hscale.
  assert (Hinv : (0 <= / drw_scale (originalWaveform c))%Q)
    by (apply Qlt_le_weak, Qinv_lt_0_compat; exact Hscale).
  split; [|split].
  - intros i j Hij. unfold sampleIdx_rounded, Math_round.
    apply Qfloor_resp_le, Qplus_le_l, Hmono, Qplus_le_r, Hmono.
    unfold Qdiv. apply Qmult_le_compat_r; [|exact Hinv].
    apply Hmono. apply Qmult_le_compat_r; [|exact Hspp].
    rewrite <- Zle_Qle. exact Hij.
  - intros i Hi. unfold sampleIdx_rounded, Math_round.
    assert (Hi' : (0 <= inject_Z i)%Q)
      by (change 0%Q with (inject_Z 0); rewrite <- Zle_Qle; exact Hi).
    assert (HA : (0 <= fl (inject_Z i * samples_per_pixel c))%Q).
    { apply Qle_trans with (fl 0%Q); [rewrite H0; apply Qle_refl|].
      apply Hmono. apply Qmult_le_0_compat; assumption. }
    assert (HB : (0 <= fl (fl (inject_Z i * samples_per_pixel c)
                           / drw_scale (originalWaveform c)))%Q).
    { apply Qle_trans with (fl 0%Q); [rewrite H0; apply Qle_refl|].
      apply Hmono. unfold Qdiv. apply Qmult_le_0_compat; assumption. }
    assert (HC : ((1 # 2) <= fl ((1 # 2) + fl (fl (inject_Z i * samples_per_pixel c)
                                              / drw_scale (originalWaveform c))))%Q).
    { apply Qle_trans with (fl (1 # 2)); [rewrite Hhalf; apply Qle_refl|].
      apply Hmono. rewrite <- (Qplus_0_r (1 # 2)) at 1. apply Qplus_le_r. exact HB. }
    match goal with
    | |- 1 <= Qfloor ?y =>
      assert (Hle : (1 <= y)%Q) by lra; exact (Qfloor_resp_le 1%Q y Hle)
    end.
  - intros i. reflexivity.
Qed.

Lemma X5_witness :
  rounding Examples.to_1024th /\
  (0 <= samples_per_pixel Scenario.channel)%Q /\
  (0 < drw_scale (originalWaveform Scenario.channel))%Q /\
  forall i, 0 <= i -> 1 <= sampleIdx_rounded Examples.to_1024th Scenario.channel i.
Proof.
  assert (H1 : (0 <= samples_per_pixel Scenario.channel)%Q)
    by (vm_compute; intros E; discriminate E).
  assert (H2 : (0 < drw_scale (originalWaveform Scenario.channel))%Q)
    by reflexivity.
  split; [exact to_1024th_rounding|]. split; [exact H1|]. split; [exact H2|].
  exact (proj1 (proj2 (X5_seed_index_is_monotone_and_never_0 Examples.to_1024th
                         Scenario.channel to_1024th_rounding H1 H2))).
Defined.

(** * Further properties of the completion handler and of runs *)

Lemma copy_until_throw_spec
    (lib_min_sample lib_max_sample : WaveformData -> Z -> option jsval)
    (ch : WaveformData) :
  forall (n : nat) (i : Z) (d : list jsval),
    0 <= i ->
    exists m,
      i <= m <= i + Z.of_nat n /\
      (forall p, i <= p < m ->
         pair_read lib_min_sample lib_max_sample ch
           (fst (copy_until_throw lib_min_sample lib_max_sample n i ch d)) p) /\
      (forall p, p < i \/ m < p ->
         pair_kept d (fst (copy_until_throw lib_min_sample lib_max_sample n i ch d)) p) /\
      ((m = i + Z.of_nat n /\
        snd (copy_until_throw lib_min_sample lib_max_sample n i ch d) = false /\
        pair_kept d (fst (copy_until_throw lib_min_sample lib_max_sample n i ch d)) m) \/
       (m < i + Z.of_nat n /\
        snd (copy_until_throw lib_min_sample lib_max_sample n i ch d) = true /\
        ((lib_min_sample ch m = None /\
          pair_kept d (fst (copy_until_throw lib_min_sample lib_max_sample n i ch d)) m) \/
         (exists lo,
            lib_min_sample ch m = Some lo /\ lib_max_sample ch m = None /\
            arr_get (fst (copy_until_throw lib_min_sample lib_max_sample n i ch d)) (m * 2)
              = lo /\
            arr_get (fst (copy_until_throw lib_min_sample lib_max_sample n i ch d))
              (m * 2 + 1) = arr_get d (m * 2 + 1))))).
Proof.
  induction n as [|n IH]; intros i d Hi; cbn [copy_until_throw].
  - exists i. cbn [fst snd]. split; [lia|]. split; [intros p Hp; lia|].
    split; [intros p _; split; reflexivity|].
    left. split; [lia|]. split; [reflexivity|split; reflexivity].
  - destruct (lib_min_sample ch i) as [lo|] eqn:Hlo.
    2:{ exists i. cbn [fst snd]. split; [lia|]. split; [intros p Hp; lia|].
        split; [intros p _; split; reflexivity|].
        right. split; [lia|]. split; [reflexivity|].
        left. split; [exact Hlo|split; reflexivity]. }
    cbv zeta. destruct (lib_max_sample ch i) as [hi|] eqn:Hhi.
    2:{ exists i. cbn [fst snd]. split; [lia|]. split; [intros p Hp; lia|].
        split.
        { intros p Hp. split; apply arr_get_set_ne; lia. }
        right. split; [lia|]. split; [reflexivity|].
        right. exists lo. split; [exact Hlo|]. split; [exact Hhi|].
        split; [apply arr_get_set_eq; lia|apply arr_get_set_ne; lia]. }
    assert (Hpair : forall p, p <> i ->
              pair_kept d (arr_set (arr_set d (i * 2) lo) (i * 2 + 1) hi) p).
    { intros p Hp. split; rewrite !arr_get_set_ne by lia; reflexivity. }
    destruct (IH (i + 1) (arr_set (arr_set d (i * 2) lo) (i * 2 + 1) hi) ltac:(lia))
      as (m & Hm & Hread & Hkept & Hend).
    exists m. split; [lia|]. split; [|split].
    + intros p Hp. destruct (Z.eq_dec p i) as [->|Hne].
      * destruct (Hkept i ltac:(lia)) as [K1 K2]. unfold pair_read.
        rewrite K1, K2, Hlo, Hhi.
        rewrite arr_get_set_ne by lia. rewrite !arr_get_set_eq by lia. split; reflexivity.
      * apply Hread. lia.
    + intros p Hp. destruct (Hkept p ltac:(lia)) as [K1 K2].
      destruct (Hpair p ltac:(lia)) as [P1 P2].
      split; [rewrite K1; exact P1|rewrite K2; exact P2].
    + destruct (Hpair m ltac:(lia)) as [P1 P2].
      destruct Hend as [(E & Hs & K1 & K2)|(E & Hs & Hthrow)].
      * left. split; [lia|]. split; [exact Hs|].
        split; [rewrite K1; exact P1|rewrite K2; exact P2].
      * right. split; [lia|]. split; [exact Hs|].
        destruct Hthrow as [(Hmin & K1 & K2)|(lo' & Hmin & Hmax & G1 & G2)].
        -- left. split; [exact Hmin|].
           split; [rewrite K1; exact P1|rewrite K2; exact P2].
        -- right. exists lo'. split; [exact Hmin|]. split; [exact Hmax|].
           split; [exact G1|rewrite G2; exact P2].
Qed.

(** With a library that never throws the copy loop is the one of
    [onload]. *)
Lemma copy_until_throw_total (ch : WaveformData) :
  forall (n : nat) (i : Z) (d : list jsval),
    copy_until_throw (fun c p => Some (wd_min_sample c p))
      (fun c p => Some (wd_max_sample c p)) n i ch d
    = (for_loop n i (copy_body ch) d, false).
Proof.
  induction n as [|n IH]; intros i d; [reflexivity|].
  cbn [copy_until_throw for_loop]. cbv zeta. rewrite IH. reflexivity.
Qed.

Lemma onload_throwing_total
    (wd_resample : WaveformData -> ResampleArgs -> WaveformData)
    (k : nat) (readyState status : Z) (r : WaveformData) (w : World) :
  onload_throwing (fun x a => Some (wd_resample x a))
    (fun c p => Some (wd_min_sample c p)) (fun c p => Some (wd_max_sample c p))
    k readyState status (Builder.Parsed r) w
  = (onload wd_resample k readyState status r w, false).
Proof.
  unfold onload_throwing, onload. destruct (xhrs w !! k) as [x|]; [|reflexivity].
  destruct (negb (readyState =? 4)); [reflexivity|].
  destruct (negb (status =? 200)); [reflexivity|].
  destruct (negb (wd_channels r =? 1)); [reflexivity|].
  cbv zeta. rewrite copy_until_throw_total. unfold for_range, resampled.
  cbn [fst snd]. destruct (refreshCallback (chan w)); reflexivity.
Qed.

(** X6: a load event with [readyState] 4, status 200 and a mono body
    runs the copy loop until a call into the library throws.  The
    offset and the requests are untouched.  If [resample] throws,
    nothing changes.  Otherwise there is a pixel [m] up to which the
    window holds what the reads of the resampled channel returned,
    and after which every pixel keeps its pair: either [m] is
    [numSamplesToCopy], no call threw and the refresh callback, when
    there is one, is invoked once; or the read of pixel [m] threw
    ([min_sample], or [max_sample] after the minimum was stored), the
    exception escapes and the refresh callback is not invoked. *)
Theorem X6_response_installed_until_a_call_throws
    (lib_resample : WaveformData -> ResampleArgs -> option WaveformData)
    (lib_min_sample lib_max_sample : WaveformData -> Z -> option jsval)
    (k : nat) (x : Xhr) (r : WaveformData) (w : World) :
  xhrs w !! k = Some x ->
  wd_channels r = 1 ->
  let out := onload_throwing lib_resample lib_min_sample lib_max_sample
               k 4 200 (Builder.Parsed r) w in
  dataOffset (chan (fst out)) = dataOffset (chan w) /\
  xhrs (fst out) = xhrs w /\
  match lib_resample r
          {| arg_scale := Some (samples_per_pixel (chan w)); arg_width := None |} with
  | None => fst out = w /\ snd out = true
  | Some channel =>
    exists m,
      0 <= m <= Z.max 0 (numSamplesToCopy x r) /\
      (forall p, 0 <= p < m ->
         pair_read lib_min_sample lib_max_sample channel (data (chan (fst out))) p) /\
      (forall p, p < 0 \/ m < p ->
         pair_kept (data (chan w)) (data (chan (fst out))) p) /\
      ((m = Z.max 0 (numSamplesToCopy x r) /\
        snd out = false /\
        pair_kept (data (chan w)) (data (chan (fst out))) m /\
        trace (fst out)
          = trace w ++ (if refreshCallback (chan w) then [EvRefresh] else [])) \/
       (m < numSamplesToCopy x r /\
        snd out = true /\
        trace (fst out) = trace w /\
        ((lib_min_sample channel m = None /\
          pair_kept (data (chan w)) (data (chan (fst out))) m) \/
         (exists lo,
            lib_min_sample channel m = Some lo /\ lib_max_sample channel m = None /\
            arr_get (data (chan (fst out))) (m * 2) = lo /\
            arr_get (data (chan (fst out))) (m * 2 + 1)
              = arr_get (data (chan w)) (m * 2 + 1)))))
  end.
Proof.
  intros Hx Hc. cbv zeta. unfold onload_throwing. rewrite Hx, Hc.
  cbn [Z.eqb Pos.eqb negb].
  destruct (lib_resample r _) as [channel|] eqn:Hres.
  2:{ cbn [fst snd]. auto. }
  cbn [fst snd chan xhrs trace set_data data dataOffset].
  split; [reflexivity|]. split; [reflexivity|].
  destruct (copy_until_throw_spec lib_min_sample lib_max_sample channel
              (Z.to_nat (numSamplesToCopy x r - 0)) 0 (data (chan w)) ltac:(lia))
    as (m & Hm & Hread & Hkept & Hend).
  exists m. split; [lia|]. split; [exact Hread|]. split; [exact Hkept|].
  destruct Hend as [(E & Hs & K)|(E & Hs & Hthrow)].
  - left. split; [lia|]. split; [exact Hs|]. split; [exact K|].
    rewrite Hs. reflexivity.
  - right. split; [lia|]. split; [exact Hs|]. split; [|exact Hthrow].
    rewrite Hs. apply app_nil_r.
Qed.

Lemma X6_witness :
  xhrs Scenario.world1 !! 0%nat = Some Scenario.request0 /\
  wd_channels Scenario.detail = 1 /\
  dataOffset
    (chan (fst (onload_throwing Examples.checked_resample Examples.checked_min
                  Examples.checked_max 0 4 200 (Builder.Parsed Scenario.detail)
                  Scenario.world1)))
    = dataOffset (chan Scenario.world1).
Proof.
  assert (Hx : xhrs Scenario.world1 !! 0%nat = Some Scenario.request0)
    by (rewrite (proj1 (proj2 (proj2 scenario_two_refreshes))); reflexivity).
  split; [exact Hx|]. split; [reflexivity|].
  exact (proj1 (X6_response_installed_until_a_call_throws Examples.checked_resample
                  Examples.checked_min Examples.checked_max 0
                  Scenario.request0 Scenario.detail Scenario.world1 Hx eq_refl)).
Defined.

(** X7: the handler touches the window only for [readyState] 4,
    status 200 and a response of exactly one channel.  In every other
    case the channel and the requests are as before, nothing is sent,
    the refresh callback is not invoked, and at most console output is
    produced. *)
Theorem X7_handler_ignores_unusable_response
    (wd_resample : WaveformData -> ResampleArgs -> WaveformData)
    (k : nat) (readyState status : Z) (r : WaveformData) (w : World) :
  readyState <> 4 \/ status <> 200 \/ wd_channels r <> 1 ->
  chan (onload wd_resample k readyState status r w) = chan w /\
  xhrs (onload wd_resample k readyState status r w) = xhrs w /\
  exists msgs,
    trace (onload wd_resample k readyState status r w) = trace w ++ map EvLog msgs.
Proof.
  intros Hbad. unfold onload.
  destruct (xhrs w !! k) as [x|];
    [|split; [reflexivity|split; [reflexivity|exists []; simpl; rewrite app_nil_r; reflexivity]]].
  destruct (Z.eqb_spec readyState 4) as [Hrs|Hrs]; simpl;
    [|split; [reflexivity|split; [reflexivity|exists []; simpl; rewrite app_nil_r; reflexivity]]].
  destruct (Z.eqb_spec status 200) as [Hst|Hst]; simpl;
    [|split; [reflexivity|split; [reflexivity|eexists [_]; reflexivity]]].
  destruct (Z.eqb_spec (wd_channels r) 1) as [Hch|Hch]; simpl;
    [|split; [reflexivity|split; [reflexivity|eexists [_]; reflexivity]]].
  exfalso. destruct Hbad as [?|[?|?]]; contradiction.
Qed.

Lemma X7_witness :
  (4 <> 4 \/ 200 <> 200 \/ wd_channels Examples.stereo_detail <> 1) /\
  chan (onload Scenario.lib_resample 0 4 200 Examples.stereo_detail Scenario.world1)
    = chan Scenario.world1.
Proof.
  assert (H : 4 <> 4 \/ 200 <> 200 \/ wd_channels Examples.stereo_detail <> 1)
    by (right; right; intros E; discriminate E).
  split; [exact H|].
  exact (proj1 (X7_handler_ignores_unusable_response Scenario.lib_resample 0 4 200
                  Examples.stereo_detail Scenario.world1 H)).
Defined.

Lemma provider_calls_app (t1 t2 : list Event) :
  provider_calls (t1 ++ t2) = (provider_calls t1 + provider_calls t2)%nat.
Proof. unfold provider_calls. rewrite List.filter_app, length_app. reflexivity. Qed.

(** What a completion adds to the trace: no send, no abort, no provider
    call, and at most one refresh callback, none when no callback is
    installed. *)
Lemma dispatch_trace
    (wd_resample : WaveformData -> ResampleArgs -> WaveformData)
    (k : nat) (ev : Completion) (w : World) :
  exists t,
    trace (dispatch wd_resample k ev w) = trace w ++ t /\
    sends t = 0%nat /\ aborts t = 0%nat /\ provider_calls t = 0%nat /\
    (refreshes t <= 1)%nat /\
    (refreshCallback (chan w) = false -> refreshes t = 0%nat) /\
    (refreshes t <= (if is_load (Complete k ev) then 1 else 0))%nat.
Proof.
  assert (Hnil : exists t, trace w = trace w ++ t /\
            sends t = 0%nat /\ aborts t = 0%nat /\ provider_calls t = 0%nat /\
            (refreshes t <= 1)%nat /\
            (refreshCallback (chan w) = false -> refreshes t = 0%nat) /\
            (refreshes t <= 0)%nat).
  { exists []. rewrite app_nil_r. repeat split; auto. }
  destruct ev as [rs0 st0 r| |].
  2,3: simpl; destruct Hnil as (t & H1 & H2 & H3 & H4 & H5 & H6 & H7);
       exists t; repeat split; auto.
  destruct (dispatch_load wd_resample k rs0 st0 r w) as (rs & st & -> & _).
  cbn [is_load]. unfold onload.
  assert (Hnil1 : exists t, trace w = trace w ++ t /\
            sends t = 0%nat /\ aborts t = 0%nat /\ provider_calls t = 0%nat /\
            (refreshes t <= 1)%nat /\
            (refreshCallback (chan w) = false -> refreshes t = 0%nat) /\
            (refreshes t <= 1)%nat).
  { exists []. rewrite app_nil_r. repeat split; auto. }
  destruct (xhrs w !! k); [|exact Hnil1].
  destruct (negb (rs =? 4)); [exact Hnil1|].
  destruct (negb (st =? 200)); [eexists [_]; simpl; repeat split; auto|].
  destruct (negb (wd_channels r =? 1)); [eexists [_]; simpl; repeat split; auto|].
  simpl. eexists. split; [reflexivity|].
  destruct (refreshCallback (chan w)); repeat split; auto; discriminate.
Qed.

Lemma step_trace
    (wd_resample : WaveformData -> ResampleArgs -> WaveformData)
    (strict : bool) (a : Action) (w : World) :
  (sends (trace (step wd_resample strict a w))
     <= sends (trace w) + (if is_access a then 1 else 0))%nat /\
  (refreshes (trace (step wd_resample strict a w))
     <= refreshes (trace w) + (if is_load a then 1 else 0))%nat /\
  (refreshCallback (chan w) = false ->
     refreshes (trace (step wd_resample strict a w)) = refreshes (trace w)).
Proof.
  destruct a as [i|k ev].
  - simpl. destruct (is_available (chan w) i) eqn:Hout.
    + rewrite (ensure_available w i Hout). repeat split; lia.
    + rewrite (refresh_trace w i Hout), !sends_app, !refreshes_app.
      unfold abort_events. destruct (xhr (chan w)); simpl;
        unfold sends, refreshes; simpl; repeat split; lia.
  - destruct (dispatch_trace wd_resample k ev w)
      as (t & Ht & Hs & _ & _ & _ & Hcb & Hl).
    assert (Hsame : (sends (trace w) <= sends (trace w) + 0)%nat /\
                    (refreshes (trace w)
                       <= refreshes (trace w) + (if is_load (Complete k ev) then 1 else 0))%nat /\
                    (refreshCallback (chan w) = false ->
                       refreshes (trace w) = refreshes (trace w)))
      by (repeat split; lia).
    assert (Hdone : (sends (trace (complete k (dispatch wd_resample k ev w)))
                       <= sends (trace w) + 0)%nat /\
                    (refreshes (trace (complete k (dispatch wd_resample k ev w)))
                       <= refreshes (trace w) + (if is_load (Complete k ev) then 1 else 0))%nat /\
                    (refreshCallback (chan w) = false ->
                       refreshes (trace (complete k (dispatch wd_resample k ev w)))
                       = refreshes (trace w))).
    { cbn [complete trace]. rewrite Ht, sends_app, refreshes_app, Hs.
      split; [lia|]. split; [lia|]. intros Hf. rewrite (Hcb Hf). lia. }
    cbn [step is_access].
    destruct (xhrs w !! k) as [x|]; [|exact Hsame].
    destruct (xhr_state x); [exact Hdone| |exact Hsame].
    destruct strict; [exact Hsame|exact Hdone].
Qed.

Lemma step_static
    (wd_resample : WaveformData -> ResampleArgs -> WaveformData)
    (strict : bool) (a : Action) (w : World) :
  originalWaveform (chan (step wd_resample strict a w)) = originalWaveform (chan w) /\
  samples_per_pixel (chan (step wd_resample strict a w)) = samples_per_pixel (chan w) /\
  detailUriProvider (chan (step wd_resample strict a w)) = detailUriProvider (chan w) /\
  refreshCallback (chan (step wd_resample strict a w)) = refreshCallback (chan w).
Proof.
  destruct a as [i|k ev]; [apply ensure_static|].
  assert (Hd : originalWaveform (chan (dispatch wd_resample k ev w)) = originalWaveform (chan w) /\
               samples_per_pixel (chan (dispatch wd_resample k ev w)) = samples_per_pixel (chan w) /\
               detailUriProvider (chan (dispatch wd_resample k ev w)) = detailUriProvider (chan w) /\
               refreshCallback (chan (dispatch wd_resample k ev w)) = refreshCallback (chan w)).
  { destruct ev as [rs0 st0 r| |]; [|simpl; auto|simpl; auto].
    destruct (dispatch_load wd_resample k rs0 st0 r w) as (rs & st & -> & _).
    unfold onload. destruct (xhrs w !! k); auto.
    destruct (negb (rs =? 4)); auto.
    destruct (negb (st =? 200)); auto.
    destruct (negb (wd_channels r =? 1)); auto. }
  cbn [step]. destruct (xhrs w !! k) as [x|]; auto.
  destruct (xhr_state x); auto. destruct strict; auto.
Qed.

Lemma run_static
    (wd_resample : WaveformData -> ResampleArgs -> WaveformData)
    (strict : bool) (acts : list Action) :
  forall w,
  originalWaveform (chan (run wd_resample strict acts w)) = originalWaveform (chan w) /\
  samples_per_pixel (chan (run wd_resample strict acts w)) = samples_per_pixel (chan w) /\
  detailUriProvider (chan (run wd_resample strict acts w)) = detailUriProvider (chan w) /\
  refreshCallback (chan (run wd_resample strict acts w)) = refreshCallback (chan w).
Proof.
  induction acts as [|a acts IH]; intros w; [auto|].
  simpl. destruct (IH (step wd_resample strict a w)) as (-> & -> & -> & ->).
  apply step_static.
Qed.

Lemma counted_step
    (wd_resample : WaveformData -> ResampleArgs -> WaveformData)
    (strict : bool) (a : Action) (w : World) :
  counted w -> counted (step wd_resample strict a w).
Proof.
  intros HC. destruct a as [i|k ev].
  - simpl. destruct (is_available (chan w) i) eqn:Hout.
    { rewrite (ensure_available w i Hout). exact HC. }
    destruct HC as (Hs & Hp & Ha & Hx). unfold counted.
    rewrite (refresh_trace w i Hout), (refresh_xhrs w i Hout), (refresh_xhr w i Hout).
    rewrite !sends_app, !provider_calls_app, !aborts_app, length_app, length_after_abort.
    unfold abort_events. destruct (xhr (chan w)) as [k0|].
    + assert (length (xhrs w) <> 0%nat) by (destruct (xhrs w); [congruence|discriminate]).
      simpl. unfold sends, provider_calls, aborts in *. simpl.
      repeat split; try lia. intros E. apply app_eq_nil in E as [_ E]. discriminate.
    + rewrite Hx in *. unfold sends, provider_calls, aborts in *. simpl in *.
      repeat split; try lia. intros E. apply app_eq_nil in E as [_ E]. discriminate.
  - destruct (dispatch_trace wd_resample k ev w) as (t & Ht & Hs' & Ha' & Hp' & _).
    destruct (dispatch_frame wd_resample k ev w) as (Hxs & Hh & _).
    assert (Hdone : counted (complete k (dispatch wd_resample k ev w))).
    { destruct HC as (Hs & Hp & Ha & Hx). unfold counted. cbn [complete trace xhrs chan].
      rewrite Ht, Hxs, Hh, sends_app, provider_calls_app, aborts_app, length_alter.
      split; [lia|]. split; [lia|]. split; [lia|].
      destruct (xhr (chan w)).
      - intros E. apply Hx. apply (f_equal (@length Xhr)) in E.
        rewrite length_alter in E. destruct (xhrs w); [reflexivity|discriminate].
      - rewrite Hx. reflexivity. }
    cbn [step]. destruct (xhrs w !! k) as [x|]; [|exact HC].
    destruct (xhr_state x); [exact Hdone| |exact HC].
    destruct strict; [exact HC|exact Hdone].
Qed.

Lemma counted_run
    (wd_resample : WaveformData -> ResampleArgs -> WaveformData)
    (strict : bool) (acts : list Action) :
  forall w, counted w -> counted (run wd_resample strict acts w).
Proof.
  induction acts as [|a acts IH]; intros w HC; [exact HC|].
  simpl. apply IH, counted_step. exact HC.
Qed.

Lemma run_trace_bounds
    (wd_resample : WaveformData -> ResampleArgs -> WaveformData)
    (strict : bool) (acts : list Action) :
  forall w,
  (sends (trace (run wd_resample strict acts w)) <= sends (trace w) + accesses acts)%nat /\
  (refreshes (trace (run wd_resample strict acts w)) <= refreshes (trace w) + loads acts)%nat /\
  (refreshCallback (chan w) = false ->
     refreshes (trace (run wd_resample strict acts w)) = refreshes (trace w)).
Proof.
  induction acts as [|a acts IH]; intros w.
  - simpl. unfold accesses, loads. simpl. repeat split; lia.
  - simpl.
    destruct (step_trace wd_resample strict a w) as (Hs & Hr & Hcb).
    destruct (IH (step wd_resample strict a w)) as (IHs & IHr & IHcb).
    destruct (step_static wd_resample strict a w) as (_ & _ & _ & Hstat).
    unfold accesses, loads in *. simpl.
    split; [destruct (is_access a); simpl; lia|].
    split; [destruct (is_load a); simpl; lia|].
    intros Hf. rewrite IHcb by (rewrite Hstat; exact Hf). apply Hcb. exact Hf.
Qed.

(** X8: the bookkeeping of a channel's traffic.  In every state reached
    from the construction, each request created was sent exactly once
    after exactly one call of the detail provider, [abort()] was called
    once for every request but the latest, and there are at most as
    many requests as accesses: completions never send anything. *)
Theorem X8_one_send_per_request_one_abort_per_successor
    (wd_resample : WaveformData -> ResampleArgs -> WaveformData)
    (strict : bool) (acts : list Action)
    (org : DynamicResampleWaveform) (spp : Q) (provider : Q -> Q -> string) (cb : bool) :
  sends (trace (run wd_resample strict acts
                  (new_World (new_VirtualChannel org spp provider cb))))
    = length (xhrs (run wd_resample strict acts
                      (new_World (new_VirtualChannel org spp provider cb)))) /\
  provider_calls (trace (run wd_resample strict acts
                           (new_World (new_VirtualChannel org spp provider cb))))
    = length (xhrs (run wd_resample strict acts
                      (new_World (new_VirtualChannel org spp provider cb)))) /\
  aborts (trace (run wd_resample strict acts
                   (new_World (new_VirtualChannel org spp provider cb))))
    = Nat.pred (length (xhrs (run wd_resample strict acts
                                (new_World (new_VirtualChannel org spp provider cb))))) /\
  (sends (trace (run wd_resample strict acts
                   (new_World (new_VirtualChannel org spp provider cb))))
     <= accesses acts)%nat.
Proof.
  assert (HC : counted (run wd_resample strict acts
                          (new_World (new_VirtualChannel org spp provider cb)))).
  { apply counted_run. unfold counted. simpl. repeat split; reflexivity. }
  destruct HC as (Hs & Hp & Ha & _).
  split; [exact Hs|]. split; [exact Hp|]. split; [exact Ha|].
  exact (proj1 (run_trace_bounds wd_resample strict acts
                  (new_World (new_VirtualChannel org spp provider cb)))).
Qed.

(** X9: the refresh callback is invoked at most once per load event
    delivered, and never when the channel was built without one. *)
Theorem X9_refresh_callback_only_after_a_load
    (wd_resample : WaveformData -> ResampleArgs -> WaveformData)
    (strict : bool) (acts : list Action)
    (org : DynamicResampleWaveform) (spp : Q) (provider : Q -> Q -> string) (cb : bool) :
  (refreshes (trace (run wd_resample strict acts
                       (new_World (new_VirtualChannel org spp provider cb))))
     <= loads acts)%nat /\
  (cb = false ->
   refreshes (trace (run wd_resample strict acts
                       (new_World (new_VirtualChannel org spp provider cb)))) = 0%nat).
Proof.
  destruct (run_trace_bounds wd_resample strict acts
              (new_World (new_VirtualChannel org spp provider cb))) as (_ & Hr & Hcb).
  split; [exact Hr|]. intros ->. apply Hcb. reflexivity.
Qed.

Lemma window_sized_step
    (wd_resample : WaveformData -> ResampleArgs -> WaveformData)
    (strict : bool) (a : Action) (w : World) :
  single_fetch w -> window_sized w -> window_sized (step wd_resample strict a w).
Proof.
  intros HI HW. assert (HI' := single_fetch_step wd_resample strict a w HI).
  destruct HI' as (_ & _ & _ & I4).
  destruct (list_eq_nil_dec (xhrs (step wd_resample strict a w))) as [Hnil|Hne].
  2:{ right. split; [exact Hne|apply I4; exact Hne]. }
  left. split; [exact Hnil|].
  destruct a as [i|k ev].
  - simpl in *. destruct (is_available (chan w) i) eqn:Hout.
    + rewrite (ensure_available w i Hout) in *.
      destruct HW as [(_ & Hd & Ho)|(Hne & _)]; [auto|contradiction].
    + rewrite (refresh_xhrs w i Hout) in Hnil. apply app_eq_nil in Hnil as [_ E]. discriminate.
  - cbn [step] in *. destruct (xhrs w !! k) as [x|] eqn:Hk.
    + exfalso. assert (Hlen : xhrs w <> []) by (intros E; rewrite E in Hk; discriminate).
      destruct (dispatch_frame wd_resample k ev w) as (Hxs & _).
      assert (Hc : xhrs (complete k (dispatch wd_resample k ev w)) <> []).
      { cbn [complete xhrs]. rewrite Hxs. intros E. apply Hlen.
        apply (f_equal (@length Xhr)) in E. rewrite length_alter in E.
        destruct (xhrs w); [reflexivity|discriminate]. }
      destruct (xhr_state x); [contradiction| |contradiction].
      destruct strict; contradiction.
    + destruct HW as [(_ & Hd & Ho)|(Hne & _)]; [auto|contradiction].
Qed.

Lemma window_sized_run
    (wd_resample : WaveformData -> ResampleArgs -> WaveformData)
    (strict : bool) (acts : list Action) :
  forall w, single_fetch w -> window_sized w ->
  window_sized (run wd_resample strict acts w).
Proof.
  induction acts as [|a acts IH]; intros w HI HW; [exact HW|].
  simpl. apply IH; [apply single_fetch_step; exact HI|apply window_sized_step; assumption].
Qed.

(** X10: what a channel keeps for life.  In every state reached from
    the construction the backing waveform, samples_per_pixel, provider
    and refresh callback are those the channel was built with, and the
    window is either the empty one of the constructor (no request was
    ever created) or exactly 4000 pixels wide. *)
Theorem X10_window_is_empty_or_4000_pixels
    (wd_resample : WaveformData -> ResampleArgs -> WaveformData)
    (strict : bool) (acts : list Action)
    (org : DynamicResampleWaveform) (spp : Q) (provider : Q -> Q -> string) (cb : bool) :
  window_sized (run wd_resample strict acts
                  (new_World (new_VirtualChannel org spp provider cb))) /\
  originalWaveform (chan (run wd_resample strict acts
                            (new_World (new_VirtualChannel org spp provider cb)))) = org /\
  samples_per_pixel (chan (run wd_resample strict acts
                             (new_World (new_VirtualChannel org spp provider cb)))) = spp /\
  detailUriProvider (chan (run wd_resample strict acts
                             (new_World (new_VirtualChannel org spp provider cb)))) = provider /\
  refreshCallback (chan (run wd_resample strict acts
                           (new_World (new_VirtualChannel org spp provider cb)))) = cb.
Proof.
  split.
  - apply window_sized_run; [apply single_fetch_fresh; reflexivity|].
    left. simpl. auto.
  - apply (run_static wd_resample strict acts
             (new_World (new_VirtualChannel org spp provider cb))).
Qed.

(** * The invariant on populated pairs *)

Lemma merge_ok (l : list (Z * Z)) :
  forall acc, fst acc <= snd acc ->
  fst (Scenario.merge l acc) <= snd (Scenario.merge l acc).
Proof.
  induction l as [|p l IH]; intros acc Hacc; [exact Hacc|].
  simpl. apply IH. simpl. lia.
Qed.

Lemma decimate_ok (f : nat) (fuel : nat) :
  forall l, Forall (fun p => fst p <= snd p) l ->
  Forall (fun p => fst p <= snd p) (Scenario.decimate fuel f l).
Proof.
  induction fuel as [|fuel IH]; intros l Hl; [constructor|].
  destruct l as [|p l]; [constructor|].
  inversion Hl as [|? ? Hp Hl']; subst. simpl. constructor.
  - apply merge_ok. exact Hp.
  - apply IH. apply Forall_drop. exact Hl'.
Qed.

Lemma lib_resample_ok (r : WaveformData) (args : ResampleArgs) :
  waveform_ok r -> waveform_ok (Scenario.lib_resample r args).
Proof.
  intros Hr. unfold Scenario.lib_resample, waveform_ok.
  destruct (arg_scale args); [|exact Hr].
  simpl. apply decimate_ok. exact Hr.
Qed.

(** X11: min <= max on populated pairs.  If the library's [resample]
    keeps min <= max, the backing waveform and every response satisfy
    it, and the window does, then after any sequence of accesses and
    completions every pair of the window is either unpopulated (both
    halves [undefined]) or two numbers with min <= max. *)
Theorem X11_populated_pairs_keep_min_le_max
    (wd_resample : WaveformData -> ResampleArgs -> WaveformData)
    (strict : bool) (acts : list Action) (w : World) :
  (forall r args, waveform_ok r -> waveform_ok (wd_resample r args)) ->
  waveform_ok (waveformData (originalWaveform (chan w))) ->
  Forall response_ok acts ->
  pairs_ok (data (chan w)) ->
  pairs_ok (data (chan (run wd_resample strict acts w))).
Proof. intros Hlib. apply run_window_ok. exact Hlib. Qed.

Lemma X11_witness :
  (forall r args, waveform_ok r -> waveform_ok (Scenario.lib_resample r args)) /\
  waveform_ok (waveformData (originalWaveform (chan Scenario.world0))) /\
  Forall response_ok [Access 2100; Complete 0 (LoadEvent 4 200 Scenario.detail)] /\
  pairs_ok (data (chan Scenario.world0)) /\
  pairs_ok (data (chan (run Scenario.lib_resample true
                          [Access 2100; Complete 0 (LoadEvent 4 200 Scenario.detail)]
                          Scenario.world0))).
Proof.
  assert (Hb : waveform_ok (waveformData (originalWaveform (chan Scenario.world0)))).
  { apply Forall_replicate. intros E. discriminate E. }
  assert (Hr : Forall response_ok
                 [Access 2100; Complete 0 (LoadEvent 4 200 Scenario.detail)]).
  { constructor; [exact I|]. constructor; [|constructor].
    constructor; [intros E; discriminate E|].
    constructor; [intros E; discriminate E|constructor]. }
  split; [exact lib_resample_ok|]. split; [exact Hb|]. split; [exact Hr|].
  split; [exact pairs_ok_nil|].
  exact (X11_populated_pairs_keep_min_le_max Scenario.lib_resample true _ _
           lib_resample_ok Hb Hr pairs_ok_nil).
Defined.

(** * Further properties of the waveform facades *)

Lemma resample_virtual_inv
    (wd_resample : WaveformData -> ResampleArgs -> WaveformData)
    (self : DynamicResampleWaveform) (args : ResampleArgs) (cb : bool)
    (v : DynamicLoadWaveForm) :
  resample wd_resample self args cb = Virtual v ->
  dl_waveformData v = self /\
  dl_channels v = 1 /\
  dl_sample_rate v = drw_sample_rate self /\
  target_length self args = Some (dl_get_length v) /\
  (inject_Z (drw_length self) < dl_get_length v)%Q /\
  (dl_get_length v * dl_get_scale v == inject_Z (drw_length self) * drw_scale self)%Q /\
  dl_channel v = new_VirtualChannel self (dl_get_scale v) (drw_detailUriProvider self) cb /\
  dl_channel_at v 0 = inr (dl_channel v) /\
  (forall i, i <> 0 -> dl_channel_at v i = inl "Invalid channel").
Proof.
  unfold resample. destruct (target_length self args) as [l|]; [|discriminate].
  fold (drw_length self).
  destruct (exceeds (Some l) (drw_length self)) eqn:E; [|discriminate].
  apply exceeds_spec in E.
  unfold new_DynamicLoadWaveForm.
  destruct (Z.eqb_spec (drw_channels self) 1) as [Hc|Hc]; simpl; [|discriminate].
  intros Hv. injection Hv as <-. unfold dl_channels, dl_sample_rate. simpl.
  assert (HL : (0 <= inject_Z (drw_length self))%Q).
  { change 0%Q with (inject_Z 0). rewrite <- Zle_Qle. unfold drw_length, wd_length. lia. }
  repeat split; try assumption; try reflexivity.
  - field. intros E0. rewrite E0 in E. apply Qlt_not_le in E. contradiction.
  - intros i Hi. unfold dl_channel_at. replace (i =? 0) with false by zbool. reflexivity.
Qed.

(** X13: the virtual waveform [resample] returns.  It wraps the
    waveform it was asked on, reports one channel and the base sample
    rate, is longer than the base, and covers the same number of audio
    samples: length * scale equals baseLength * baseScale.  Its channel
    is a freshly constructed VirtualChannel (empty window, no request)
    at the waveform's samples per pixel, with the base's detail
    provider; [channel(0)] returns it and any other index throws. *)
Theorem X13_virtual_waveform_covers_the_same_samples
    (wd_resample : WaveformData -> ResampleArgs -> WaveformData)
    (self : DynamicResampleWaveform) (args : ResampleArgs) (cb : bool)
    (v : DynamicLoadWaveForm) :
  resample wd_resample self args cb = Virtual v ->
  dl_waveformData v = self /\
  dl_channels v = 1 /\
  dl_sample_rate v = drw_sample_rate self /\
  target_length self args = Some (dl_get_length v) /\
  (inject_Z (drw_length self) < dl_get_length v)%Q /\
  (dl_get_length v * dl_get_scale v == inject_Z (drw_length self) * drw_scale self)%Q /\
  dl_channel v = new_VirtualChannel self (dl_get_scale v) (drw_detailUriProvider self) cb /\
  dl_channel_at v 0 = inr (dl_channel v) /\
  (forall i, i <> 0 -> dl_channel_at v i = inl "Invalid channel").
Proof. apply resample_virtual_inv. Qed.

Lemma X13_witness :
  resample Scenario.lib_resample Scenario.base1000 (mkArgs None (Some 5000%Q)) true
    = Virtual Examples.virtual5000 /\
  (dl_get_length Examples.virtual5000 * dl_get_scale Examples.virtual5000
   == inject_Z (drw_length Scenario.base1000) * drw_scale Scenario.base1000)%Q.
Proof.
  split; [reflexivity|].
  exact (proj1 (proj2 (proj2 (proj2 (proj2 (proj2
    (X13_virtual_waveform_covers_the_same_samples Scenario.lib_resample
       Scenario.base1000 (mkArgs None (Some 5000%Q)) true Examples.virtual5000
       eq_refl))))))).
Defined.

(** * Further properties of WaveformBuilder.init *)

(** X14: a completion callback that returns normally is never invoked
    twice.  Whatever the options and whatever the browser and the
    network do, [init] invokes the callback at most once, as long as
    the library's [createFromAudio] invokes the callback it is handed
    at most once. *)
Theorem X14_callback_invoked_at_most_once (e : Builder.Env) (o : Builder.Options) :
  (length (Builder.createFromAudio e) <= 1)%nat ->
  (length (Builder.calls (Builder.init e o)) <= 1)%nat.
Proof. apply init_at_most_once. Qed.

Lemma X14_witness :
  (length (Builder.createFromAudio Examples.good_server) <= 1)%nat /\
  (length (Builder.calls (Builder.init Examples.good_server Examples.remote_options)) <= 1)%nat.
Proof.
  assert (H : (length (Builder.createFromAudio Examples.good_server) <= 1)%nat)
    by (apply le_S, le_n).
  split; [exact H|].
  exact (X14_callback_invoked_at_most_once Examples.good_server Examples.remote_options H).
Defined.

Lemma no_single_source (e : Builder.Env) (o : Builder.Options) :
  nsources o <> 1%nat ->
  exists kind msg, Builder.init e o = Builder.call (Builder.CallError kind msg).
Proof.
  intros Hn. destruct o as [d w wa ac fmt cred zl prov].
  unfold nsources in Hn. unfold Builder.init. simpl in *.
  destruct d, w, wa, ac; simpl in *;
    try (exfalso; apply Hn; reflexivity); eexists _, _; reflexivity.
Qed.

(** X15: exactly one kind of source, or an error.  When the options
    name none of dataUri, waveformData and webAudio/audioContext, or
    more than one of them, [init] invokes the callback once with an
    error and does nothing else: no request is sent, nothing is
    logged and no exception escapes, in every browser. *)
Theorem X15_no_source_or_several_is_an_error (e : Builder.Env) (o : Builder.Options) :
  nsources o <> 1%nat ->
  (exists kind msg, Builder.calls (Builder.init e o) = [Builder.CallError kind msg]) /\
  Builder.requests (Builder.init e o) = [] /\
  Builder.logs (Builder.init e o) = [] /\
  Builder.uncaught (Builder.init e o) = [].
Proof.
  intros Hn. destruct (no_single_source e o Hn) as (kind & msg & ->).
  split; [exists kind, msg; reflexivity|]. split; [reflexivity|]. split; reflexivity.
Qed.

Lemma X15_witness :
  nsources Examples.two_sources <> 1%nat /\
  Builder.requests (Builder.init Examples.good_server Examples.two_sources) = [].
Proof.
  assert (H : nsources Examples.two_sources <> 1%nat) by (intros E; discriminate E).
  split; [exact H|].
  exact (proj1 (proj2 (X15_no_source_or_several_is_an_error Examples.good_server
                         Examples.two_sources H))).
Defined.

Lemma local_data_outcome
    (e : Builder.Env) (o : Builder.Options) (d : Builder.LocalData) :
  Builder.dataUri o = None ->
  Builder.waveformData o = Some d ->
  Builder.webAudio o = None ->
  Builder.audioContext o = None ->
  (exists c, Builder.init e o = Builder.call c) /\
  (forall wf,
     Builder.calls (Builder.init e o) = [Builder.CallWaveform wf] <->
     exists w, local_payload d = Some (Builder.Parsed w) /\
               Builder.valid_channels (wd_channels w) = true /\
               wf = Builder.Plain w) /\
  (forall kind err,
     local_payload d = Some (Builder.Malformed kind err) ->
     Builder.calls (Builder.init e o) = [Builder.CallError kind err]).
Proof.
  intros Hd Hw Hwa Hac. unfold Builder.init. rewrite Hd, Hw, Hwa, Hac. simpl.
  unfold Builder._buildWaveformFromLocalData, local_payload.
  destruct d as [json ab|].
  2:{ split; [eexists; reflexivity|]. split; [|intros kind err H; discriminate H].
      intros wf. split; [intros H; discriminate H|intros (w0 & H & _); discriminate H]. }
  destruct (match json with Some p => Some p | None => ab end) as [[kind0 err0|w0]|].
  - split; [eexists; reflexivity|]. split.
    + intros wf. split; [intros H; discriminate H|intros (w1 & H & _); discriminate H].
    + intros kind err H. injection H as <- <-. reflexivity.
  - split; [|split; [|intros kind err H; discriminate H]].
    + destruct (Builder.valid_channels (wd_channels w0)); eexists; reflexivity.
    + destruct (Builder.valid_channels (wd_channels w0)) eqn:Hv; simpl.
      * intros wf. split.
        -- intros H. injection H as <-. exists w0. auto.
        -- intros (w1 & H & _ & ->). injection H as <-. reflexivity.
      * intros wf. split; [intros H; discriminate H|].
        intros (w1 & H & Hv1 & _). injection H as <-. congruence.
  - split; [eexists; reflexivity|]. split; [|intros kind err H; discriminate H].
    intros wf. split; [intros H; discriminate H|intros (w1 & H & _); discriminate H].
Qed.

(** X16: local data is answered at once.  With [waveformData] as the
    only source, [init] invokes the callback (one that returns
    normally) exactly once; no request is sent, nothing is logged and
    no exception escapes, in every browser.  The callback receives a
    waveform exactly when the payload chosen ([json] if it is an
    object, else [arraybuffer]) parses into a waveform of one or two
    channels, and that waveform is the plain parsed one; when
    [WaveformData.create] throws, the callback receives what was
    thrown. *)
Theorem X16_local_data_is_answered_once
    (e : Builder.Env) (o : Builder.Options) (d : Builder.LocalData) :
  Builder.dataUri o = None ->
  Builder.waveformData o = Some d ->
  Builder.webAudio o = None ->
  Builder.audioContext o = None ->
  (exists c, Builder.calls (Builder.init e o) = [c]) /\
  Builder.requests (Builder.init e o) = [] /\
  Builder.logs (Builder.init e o) = [] /\
  Builder.uncaught (Builder.init e o) = [] /\
  (forall wf,
     Builder.calls (Builder.init e o) = [Builder.CallWaveform wf] <->
     exists w, local_payload d = Some (Builder.Parsed w) /\
               Builder.valid_channels (wd_channels w) = true /\
               wf = Builder.Plain w) /\
  (forall kind err,
     local_payload d = Some (Builder.Malformed kind err) ->
     Builder.calls (Builder.init e o) = [Builder.CallError kind err]).
Proof.
  intros Hd Hw Hwa Hac.
  destruct (local_data_outcome e o d Hd Hw Hwa Hac) as ((c & Hc) & Hwf & Herr).
  split; [exists c; rewrite Hc; reflexivity|].
  split; [rewrite Hc; reflexivity|]. split; [rewrite Hc; reflexivity|].
  split; [rewrite Hc; reflexivity|]. split; [exact Hwf|exact Herr].
Qed.

Lemma X16_witness :
  Builder.dataUri Examples.local_options = None /\
  Builder.waveformData Examples.local_options
    = Some (Builder.LocalObject (Some (Builder.Parsed Examples.overview)) None) /\
  Builder.webAudio Examples.local_options = None /\
  Builder.audioContext Examples.local_options = None /\
  Builder.requests (Builder.init Examples.good_server Examples.local_options) = [].
Proof.
  split; [reflexivity|]. split; [reflexivity|]. split; [reflexivity|].
  split; [reflexivity|].
  exact (proj1 (proj2 (X16_local_data_is_answered_once Examples.good_server
                         Examples.local_options _ eq_refl eq_refl eq_refl eq_refl))).
Defined.

(** X17: the deprecated [audioContext] option replaces [webAudio].
    When [audioContext] is given without a remote or local source, the
    outcome of [init] does not depend on the [webAudio] option at all,
    and the first log line is the deprecation notice. *)
Theorem X17_audioContext_replaces_webAudio
    (e : Builder.Env) (o : Builder.Options) (wa : option Builder.WebAudio) (valid : bool) :
  Builder.dataUri o = None ->
  Builder.waveformData o = None ->
  Builder.audioContext o = Some valid ->
  Builder.init e (with_webAudio o wa) = Builder.init e o /\
  exists rest,
    Builder.logs (Builder.init e o) =
    "Peaks.init(): The audioContext option is deprecated, please pass a webAudio object instead"
      :: rest.
Proof.
  intros Hd Hw Hac. destruct o as [d w wa0 ac fmt cred zl prov]. simpl in *. subst.
  unfold Builder.init, with_webAudio. simpl.
  split; [|eexists; reflexivity].
  destruct wa, wa0; reflexivity.
Qed.

Lemma X17_witness :
  Builder.dataUri Examples.deprecated_options = None /\
  Builder.waveformData Examples.deprecated_options = None /\
  Builder.audioContext Examples.deprecated_options = Some true /\
  Builder.init Scenario.no_media_source
    (with_webAudio Examples.deprecated_options
       (Some (Builder.mkWebAudio false true true None)))
  = Builder.init Scenario.no_media_source Examples.deprecated_options.
Proof.
  split; [reflexivity|]. split; [reflexivity|]. split; [reflexivity|].
  exact (proj1 (X17_audioContext_replaces_webAudio Scenario.no_media_source
                  Examples.deprecated_options
                  (Some (Builder.mkWebAudio false true true None)) true
                  eq_refl eq_refl eq_refl)).
Defined.

(** The remote path sends one request, for the URL chosen. *)
Lemma remote_request (e : Builder.Env) (o : Builder.Options) (ab js : option string)
    (url : string) :
  Builder.choose_url e ab js = Some url ->
  Builder.nonempty url = true ->
  Builder.requests (Builder._getRemoteWaveformData e o (Builder.UriObject ab js)) = [url].
Proof.
  intros Hu Hn. unfold Builder._getRemoteWaveformData. rewrite Hu. simpl. rewrite Hn. simpl.
  destruct (Builder.xhr_outcome e url) as [rs st body| |]; [|reflexivity|reflexivity].
  destruct (negb (rs =? 4)); [reflexivity|].
  destruct (negb (st =? 200)); [reflexivity|].
  destruct body as [kind err|w]; [reflexivity|].
  destruct (negb (Builder.valid_channels (wd_channels w))); reflexivity.
Qed.

Lemma remote_calls (e : Builder.Env) (o : Builder.Options) (ab js : option string) :
  forall wf,
  Builder.calls (Builder._getRemoteWaveformData e o (Builder.UriObject ab js))
    = [Builder.CallWaveform wf] <->
  exists url w,
    Builder.choose_url e ab js = Some url /\
    Builder.nonempty url = true /\
    Builder.xhr_outcome e url = Builder.OnLoad 4 200 (Builder.Parsed w) /\
    Builder.valid_channels (wd_channels w) = true /\
    wf = Builder.Dynamic (mkDynamicResampleWaveform w (Builder.opt_detailUriProvider o)).
Proof.
  intros wf. unfold Builder._getRemoteWaveformData.
  destruct (Builder.choose_url e ab js) as [url|] eqn:Hurl; simpl.
  2:{ split; [intros H; discriminate H|intros (u & w & H & _); discriminate H]. }
  destruct (Builder.nonempty url) eqn:Hne; simpl.
  2:{ split; [intros H; discriminate H|].
      intros (u & w & H & Hn & _). injection H as <-. congruence. }
  destruct (Builder.xhr_outcome e url) as [rs st body| |] eqn:Hout.
  2,3: split; [intros H; discriminate H|];
       intros (u & w & H & _ & Ho & _); injection H as <-; congruence.
  destruct (Z.eqb_spec rs 4) as [->|Hrs]; simpl.
  2:{ split; [intros H; discriminate H|].
      intros (u & w & H & _ & Ho & _). injection H as <-. congruence. }
  destruct (Z.eqb_spec st 200) as [->|Hst]; simpl.
  2:{ split; [intros H; discriminate H|].
      intros (u & w & H & _ & Ho & _). injection H as <-. congruence. }
  destruct body as [err|w0]; simpl.
  { split; [intros H; discriminate H|].
    intros (u & w & H & _ & Ho & _). injection H as <-. congruence. }
  destruct (Builder.valid_channels (wd_channels w0)) eqn:Hv; simpl.
  - split.
    + intros H. injection H as <-. exists url, w0. auto.
    + intros (u & w & H & _ & Ho & _ & ->). injection H as <-.
      rewrite Hout in Ho. injection Ho as <-. reflexivity.
  - split; [intros H; discriminate H|].
    intros (u & w & H & _ & Ho & Hv' & _). injection H as <-.
    rewrite Hout in Ho. injection Ho as <-. congruence.
Qed.

(** X18: the remote source.  With an object [dataUri] as the only
    source, the callback receives a waveform exactly when a non-empty
    URL was chosen, the request for it ended with [readyState] 4 and
    status 200, and the body parsed into a waveform of one or two
    channels; the waveform is then the DynamicResampleWaveform over
    that data with the options' detailUriProvider.  The URL chosen is
    the binary one when the browser has ArrayBuffer and that URL is not
    empty, and otherwise the JSON one when the browser has JSON. *)
Theorem X18_remote_waveform_delivered_iff
    (e : Builder.Env) (o : Builder.Options) (ab js : option string) :
  Builder.dataUri o = Some (Builder.UriObject ab js) ->
  Builder.waveformData o = None ->
  Builder.webAudio o = None ->
  Builder.audioContext o = None ->
  (forall wf,
     Builder.calls (Builder.init e o) = [Builder.CallWaveform wf] <->
     exists url w,
       Builder.choose_url e ab js = Some url /\
       Builder.nonempty url = true /\
       Builder.xhr_outcome e url = Builder.OnLoad 4 200 (Builder.Parsed w) /\
       Builder.valid_channels (wd_channels w) = true /\
       wf = Builder.Dynamic
              (mkDynamicResampleWaveform w (Builder.opt_detailUriProvider o))) /\
  (Builder.window_ArrayBuffer e = true -> Builder.truthy_url ab = true ->
     Builder.choose_url e ab js = ab) /\
  (Builder.window_ArrayBuffer e = false \/ Builder.truthy_url ab = false ->
     Builder.window_JSON e = true ->
     Builder.choose_url e ab js = js).
Proof.
  intros Hd Hw Hwa Hac. split; [|split].
  - intros wf. unfold Builder.init. rewrite Hd, Hw, Hwa, Hac. simpl.
    apply remote_calls.
  - intros H1 H2. unfold Builder.choose_url. rewrite H1, H2. reflexivity.
  - intros H1 H2. unfold Builder.choose_url. rewrite H2.
    destruct H1 as [H1|H1]; [rewrite H1; reflexivity|].
    destruct (Builder.window_ArrayBuffer e); [rewrite H1|]; reflexivity.
Qed.

Lemma X18_witness :
  Builder.dataUri Examples.remote_options
    = Some (Builder.UriObject (Some "/overview.dat") (Some "/overview.json")) /\
  Builder.waveformData Examples.remote_options = None /\
  Builder.webAudio Examples.remote_options = None /\
  Builder.audioContext Examples.remote_options = None /\
  Builder.choose_url Examples.good_server (Some "/overview.dat") (Some "/overview.json")
    = Some "/overview.dat".
Proof.
  split; [reflexivity|]. split; [reflexivity|]. split; [reflexivity|].
  split; [reflexivity|].
  exact (proj1 (proj2 (X18_remote_waveform_delivered_iff Examples.good_server
                         Examples.remote_options _ _ eq_refl eq_refl eq_refl eq_refl))
           eq_refl eq_refl).
Defined.

Lemma remote_provider (e : Builder.Env) (o : Builder.Options) (uri : Builder.DataUri)
    (d : DynamicResampleWaveform) :
  Builder.calls (Builder._getRemoteWaveformData e o uri)
    = [Builder.CallWaveform (Builder.Dynamic d)] ->
  drw_detailUriProvider d = Builder.opt_detailUriProvider o.
Proof.
  unfold Builder._getRemoteWaveformData.
  destruct (match uri with
            | Builder.UriObject ab js => Some (ab, js)
            | Builder.UriString s => _
            | Builder.UriOther => None
            end) as [[ab js]|]; [|intros H; discriminate H].
  destruct (negb (Builder.truthy_url (Builder.choose_url e ab js)));
    [intros H; discriminate H|].
  destruct (Builder.xhr_outcome e _) as [rs st body| |];
    [|intros H; discriminate H|intros H; discriminate H].
  destruct (negb (rs =? 4)); [intros H; discriminate H|].
  destruct (negb (st =? 200)); [intros H; discriminate H|].
  destruct body as [err|w0]; [intros H; discriminate H|].
  destruct (negb (Builder.valid_channels (wd_channels w0))); [intros H; discriminate H|].
  intros H. injection H as <-. reflexivity.
Qed.

(** X19: the detail provider given to [init] is the one the channel
    calls.  When [init] with a remote source hands a waveform to the
    callback and [resample] on that waveform returns a virtual
    waveform, the channel of the virtual waveform is a fresh channel
    over the delivered waveform whose detail provider is the
    [detailUriProvider] of the options; the delivered waveform is then
    mono. *)
Theorem X19_init_provider_reaches_the_channel
    (wd_resample : WaveformData -> ResampleArgs -> WaveformData)
    (e : Builder.Env) (o : Builder.Options) (uri : Builder.DataUri)
    (d : DynamicResampleWaveform) (args : ResampleArgs) (cb : bool)
    (v : DynamicLoadWaveForm) :
  Builder.dataUri o = Some uri ->
  Builder.calls (Builder.init e o) = [Builder.CallWaveform (Builder.Dynamic d)] ->
  resample wd_resample d args cb = Virtual v ->
  detailUriProvider (dl_channel v) = Builder.opt_detailUriProvider o /\
  originalWaveform (dl_channel v) = d /\
  drw_channels d = 1 /\
  data (dl_channel v) = [] /\
  xhr (dl_channel v) = None.
Proof.
  intros Hd Hcall Hres.
  assert (Hprov : drw_detailUriProvider d = Builder.opt_detailUriProvider o).
  { unfold Builder.init in Hcall. rewrite Hd in Hcall. simpl in Hcall.
    destruct (_ || _ || _); [discriminate Hcall|].
    destruct (Builder.is_some (Builder.audioContext o));
      apply (remote_provider e o uri d); exact Hcall. }
  destruct (resample_virtual_inv wd_resample d args cb v Hres)
    as (Hwd & Hch & _ & _ & _ & _ & Hchan & _).
  unfold dl_channels in Hch. rewrite Hwd in Hch.
  rewrite Hchan. simpl.
  repeat split; try assumption; reflexivity.
Qed.

Lemma X19_witness :
  Builder.dataUri Examples.remote_options
    = Some (Builder.UriObject (Some "/overview.dat") (Some "/overview.json")) /\
  Builder.calls (Builder.init Examples.good_server Examples.remote_options)
    = [Builder.CallWaveform (Builder.Dynamic Examples.delivered)] /\
  resample Scenario.lib_resample Examples.delivered (mkArgs None (Some 5000%Q)) true
    = Virtual Examples.delivered_view /\
  detailUriProvider (dl_channel Examples.delivered_view)
    = Builder.opt_detailUriProvider Examples.remote_options.
Proof.
  split; [reflexivity|]. split; [reflexivity|]. split; [reflexivity|].
  exact (proj1 (X19_init_provider_reaches_the_channel Scenario.lib_resample
                  Examples.good_server Examples.remote_options _ Examples.delivered
                  (mkArgs None (Some 5000%Q)) true Examples.delivered_view
                  eq_refl eq_refl eq_refl)).
Defined.

(** * The ordinate axis *)

Lemma label_loop_reaches (timeToPixels : Z -> Q) (q r : nat) :
  (r < 6)%nat ->
  (Axis.minSpacing <= timeToPixels (Axis.ladder q r))%Q ->
  (forall q' r', (r' < 6)%nat -> (6 * q' + r' < 6 * q + r)%nat ->
     (timeToPixels (Axis.ladder q' r') < Axis.minSpacing)%Q) ->
  forall (d q0 r0 fuel : nat),
    (r0 < 6)%nat -> (6 * q0 + r0 + d = 6 * q + r)%nat -> (d < fuel)%nat ->
    Axis.label_loop fuel timeToPixels (60 ^ Z.of_nat q0, r0) = Some (Axis.ladder q r).
Proof.
  intros Hr Hge Hlt. induction d as [|d IH]; intros q0 r0 fuel Hr0 Hd Hf;
    (destruct fuel as [|fuel]; [lia|]); cbn [Axis.label_loop]; cbv zeta;
    unfold Axis.secs_of; cbn [fst snd].
  - assert (q0 = q /\ r0 = r) as [-> ->] by lia.
    fold (Axis.ladder q r). rewrite (proj2 (Qle_bool_iff _ _) Hge). reflexivity.
  - assert (Hlt' := Hlt q0 r0 Hr0 ltac:(lia)). fold (Axis.ladder q0 r0).
    destruct (Qle_bool Axis.minSpacing (timeToPixels (Axis.ladder q0 r0))) eqn:E.
    { apply Qle_bool_iff in E. exfalso. exact (Qlt_not_le _ _ Hlt' E). }
    cbn [negb]. unfold Axis.next. cbn [fst snd].
    change (length Axis.steps) with 6%nat.
    destruct (Nat.eqb_spec (S r0) 6) as [E6|E6].
    + replace (60 ^ Z.of_nat q0 * 60) with (60 ^ Z.of_nat (S q0))
        by (rewrite Nat2Z.inj_succ, Z.pow_succ_r; lia).
      apply IH; lia.
    + apply IH; lia.
Qed.

Lemma label_loop_inv (timeToPixels : Z -> Q) (s : Z) :
  forall (fuel q0 r0 : nat),
    (r0 < 6)%nat ->
    Axis.label_loop fuel timeToPixels (60 ^ Z.of_nat q0, r0) = Some s ->
    exists q r,
      (r < 6)%nat /\
      (6 * q0 + r0 <= 6 * q + r < 6 * q0 + r0 + fuel)%nat /\
      s = Axis.ladder q r /\
      (Axis.minSpacing <= timeToPixels s)%Q /\
      (forall q' r', (r' < 6)%nat ->
         (6 * q0 + r0 <= 6 * q' + r' < 6 * q + r)%nat ->
         (timeToPixels (Axis.ladder q' r') < Axis.minSpacing)%Q).
Proof.
  induction fuel as [|fuel IH]; intros q0 r0 Hr0; [intros H; discriminate H|].
  cbn [Axis.label_loop]; cbv zeta. unfold Axis.secs_of; cbn [fst snd].
  fold (Axis.ladder q0 r0).
  destruct (Qle_bool Axis.minSpacing (timeToPixels (Axis.ladder q0 r0))) eqn:E;
    cbn [negb].
  - intros H. injection H as <-. apply Qle_bool_iff in E.
    exists q0, r0. split; [exact Hr0|]. split; [lia|]. split; [reflexivity|].
    split; [exact E|]. intros q' r' _ Hq. lia.
  - assert (Hlt : (timeToPixels (Axis.ladder q0 r0) < Axis.minSpacing)%Q).
    { apply Qnot_le_lt. intros Hle. apply Qle_bool_iff in Hle. congruence. }
    unfold Axis.next. cbn [fst snd]. change (length Axis.steps) with 6%nat.
    destruct (Nat.eqb_spec (S r0) 6) as [E6|E6].
    + replace (60 ^ Z.of_nat q0 * 60) with (60 ^ Z.of_nat (S q0))
        by (rewrite Nat2Z.inj_succ, Z.pow_succ_r; lia).
      intros H. destruct (IH (S q0) 0%nat ltac:(lia) H)
        as (q & r & Hr & Hb & Hs & Hge & Hbefore).
      exists q, r. split; [exact Hr|]. split; [lia|]. split; [exact Hs|].
      split; [exact Hge|]. intros q' r' Hr' Hq.
      destruct (Nat.eq_dec (6 * q' + r')%nat (6 * q0 + r0)%nat) as [Heq|Hne].
      * assert (q' = q0 /\ r' = r0) as [-> ->] by lia. exact Hlt.
      * apply Hbefore; [exact Hr'|lia].
    + intros H. destruct (IH q0 (S r0) ltac:(lia) H)
        as (q & r & Hr & Hb & Hs & Hge & Hbefore).
      exists q, r. split; [exact Hr|]. split; [lia|]. split; [exact Hs|].
      split; [exact Hge|]. intros q' r' Hr' Hq.
      destruct (Nat.eq_dec (6 * q' + r')%nat (6 * q0 + r0)%nat) as [Heq|Hne].
      * assert (q' = q0 /\ r' = r0) as [-> ->] by lia. exact Hlt.
      * apply Hbefore; [exact Hr'|lia].
Qed.

Lemma ladder_exact (q r : nat) :
  (r < 6)%nat -> (q <= 8)%nat -> 1 <= Axis.ladder q r < 2 ^ 53.
Proof.
  intros Hr Hq. unfold Axis.ladder.
  assert (H1 : 1 <= 60 ^ Z.of_nat q) by (apply Z.lt_succ_r, Z.lt_pred_lt_succ; simpl; apply Z.pow_pos_nonneg; lia).
  assert (H2 : 60 ^ Z.of_nat q <= 60 ^ 8) by (apply Z.pow_le_mono_r; lia).
  assert (H3 : 1 <= nth r Axis.steps 0 <= 30).
  { destruct r as [|[|[|[|[|[|r]]]]]]; simpl; lia. }
  change (60 ^ 8) with 167961600000000 in H2.
  change (2 ^ 53) with 9007199254740992. nia.
Qed.

(** X20: the label interval found.  The loop of [getAxisLabelScale]
    tries 1, 2, 5, 10, 20, 30 seconds, then the same numbers of minutes,
    of hours, and so on ([ladder q r] is the value of step [r] in round
    [q]).  If some value of that sequence spans at least [minSpacing] =
    60 pixels and all the values before it span less, the loop returns
    exactly that value, after [6q + r + 1] turns.  The value is taken
    in the range where the products are exact integers. *)
Theorem X20_label_scale_is_first_wide_enough_step
    (timeToPixels : Z -> Q) (q r : nat) :
  (r < 6)%nat ->
  Axis.ladder q r < 2 ^ 53 ->
  (Axis.minSpacing <= timeToPixels (Axis.ladder q r))%Q ->
  (forall q' r', (r' < 6)%nat -> (6 * q' + r' < 6 * q + r)%nat ->
     (timeToPixels (Axis.ladder q' r') < Axis.minSpacing)%Q) ->
  forall fuel, (6 * q + r < fuel)%nat ->
    Axis.getAxisLabelScale fuel timeToPixels = Some (Axis.ladder q r).
Proof.
  intros Hr _ Hge Hlt fuel Hf. unfold Axis.getAxisLabelScale.
  change (1, 0%nat) with (60 ^ Z.of_nat 0, 0%nat).
  apply (label_loop_reaches timeToPixels q r Hr Hge Hlt (6 * q + r)); lia.
Qed.

Lemma X20_witness :
  Axis.getAxisLabelScale 4 Examples.ten_per_second = Some 10.
Proof.
  assert (Hr : (3 < 6)%nat) by lia.
  assert (Hb : Axis.ladder 0 3 < 2 ^ 53) by reflexivity.
  assert (Hge : (Axis.minSpacing <= Examples.ten_per_second (Axis.ladder 0 3))%Q).
  { apply Qle_bool_iff. reflexivity. }
  assert (Hlt : forall q' r', (r' < 6)%nat -> (6 * q' + r' < 6 * 0 + 3)%nat ->
            (Examples.ten_per_second (Axis.ladder q' r') < Axis.minSpacing)%Q).
  { intros q' r' _ H. assert (q' = 0%nat) as -> by lia.
    destruct r' as [|[|[|r']]]; [| | |lia]; apply Qlt_alt; reflexivity. }
  exact (X20_label_scale_is_first_wide_enough_step Examples.ten_per_second 0 3
           Hr Hb Hge Hlt 4%nat ltac:(lia)).
Defined.

(** X21: what [getAxisLabelScale] can return.  Whenever the loop
    breaks within its first 54 turns (the turns whose products are
    exact integers), the value returned is one of 1, 2, 5, 10, 20, 30
    times a power of 60, it is below 2^53, it spans at least 60 pixels,
    and every earlier value of the sequence spans less than 60 pixels. *)
Theorem X21_label_scale_result_is_on_the_ladder
    (timeToPixels : Z -> Q) (fuel : nat) (s : Z) :
  (fuel <= 54)%nat ->
  Axis.getAxisLabelScale fuel timeToPixels = Some s ->
  exists q r,
    (r < 6)%nat /\ (6 * q + r < fuel)%nat /\
    s = Axis.ladder q r /\ 1 <= s < 2 ^ 53 /\
    (Axis.minSpacing <= timeToPixels s)%Q /\
    (forall q' r', (r' < 6)%nat -> (6 * q' + r' < 6 * q + r)%nat ->
       (timeToPixels (Axis.ladder q' r') < Axis.minSpacing)%Q).
Proof.
  unfold Axis.getAxisLabelScale. change (1, 0%nat) with (60 ^ Z.of_nat 0, 0%nat).
  intros Hfuel H. destruct (label_loop_inv timeToPixels s fuel 0 0 ltac:(lia) H)
    as (q & r & Hr & Hb & Hs & Hge & Hbefore).
  exists q, r. split; [exact Hr|]. split; [lia|]. split; [exact Hs|].
  split; [rewrite Hs; apply ladder_exact; [exact Hr|lia]|].
  split; [exact Hge|]. intros q' r' Hr' Hq. apply Hbefore; [exact Hr'|lia].
Qed.

Lemma X21_witness :
  Axis.getAxisLabelScale 10 Examples.ten_per_second = Some 10 /\
  exists q r,
    (r < 6)%nat /\ (6 * q + r < 10)%nat /\
    10 = Axis.ladder q r /\ 1 <= 10 < 2 ^ 53 /\
    (Axis.minSpacing <= Examples.ten_per_second 10)%Q /\
    (forall q' r', (r' < 6)%nat -> (6 * q' + r' < 6 * q + r)%nat ->
       (Examples.ten_per_second (Axis.ladder q' r') < Axis.minSpacing)%Q).
Proof.
  split; [reflexivity|].
  exact (X21_label_scale_result_is_on_the_ladder Examples.ten_per_second 10 10
           ltac:(lia) eq_refl).
Defined.

(** X22: the labels of the db scale.  For every marker index [i],
    [_getMarkerLabel(i, false)] reads -5 * min(i, 24 - i): 0, -5, ...
    down to -60 at marker 12 and back up to 0 at marker 24, so markers
    [i] and [24 - i] carry the same text.  Below marker 12 the value
    returned is a number, from marker 12 on a string. *)
Theorem X22_db_labels_mirror_about_marker_12 (i : Z) :
  Axis.label_text (Axis._getMarkerLabel i false) = pretty (-5 * Z.min i (24 - i)) /\
  Axis.label_text (Axis._getMarkerLabel (24 - i) false)
    = Axis.label_text (Axis._getMarkerLabel i false) /\
  (i < 12 -> Axis._getMarkerLabel i false = Axis.LabelNumber (-5 * i)) /\
  (12 <= i -> Axis._getMarkerLabel i false = Axis.LabelString (pretty (5 * i - 120))).
Proof.
  assert (F : forall j, Axis.label_text (Axis._getMarkerLabel j false)
                        = pretty (-5 * Z.min j (24 - j))).
  { intros j. unfold Axis._getMarkerLabel.
    destruct (Z.ltb_spec j 12); cbn [Axis.label_text]; f_equal; lia. }
  split; [apply F|]. split.
  - rewrite !F. f_equal. lia.
  - unfold Axis._getMarkerLabel. split; intros Hi.
    + replace (i <? 12) with true by zbool. f_equal. lia.
    + replace (i <? 12) with false by zbool. do 2 f_equal. lia.
Qed.

(** X23: the labels of the linear scale.  For the markers 0 to 20 that
    [drawAxis] draws, [_getMarkerLabel(i, true)] is 1 - i/10 written
    with one decimal: no sign up to marker 10 and a minus sign after
    it, then the integer part and the tenths of |10 - i| (so 1.0 at
    marker 0, 0.0 at marker 10 and -1.0 at marker 20). *)
Theorem X23_linear_labels_are_tenths (i : Z) :
  0 <= i <= 20 ->
  Axis._getMarkerLabel i true =
  Axis.LabelString ((if i <=? 10 then "" else "-") +:+
                    pretty (Z.abs (10 - i) / 10) +:+ "." +:+
                    pretty (Z.abs (10 - i) mod 10)).
Proof.
  intros Hi.
  assert (H : forallb (fun j =>
                match Axis._getMarkerLabel j true with
                | Axis.LabelString s =>
                  String.eqb s ((if j <=? 10 then "" else "-") +:+
                                pretty (Z.abs (10 - j) / 10) +:+ "." +:+
                                pretty (Z.abs (10 - j) mod 10))
                | Axis.LabelNumber _ => false
                end) (seqZ 0 21) = true) by (vm_compute; reflexivity).
  rewrite forallb_forall in H.
  assert (Hin : In i (seqZ 0 21)).
  { apply list_elem_of_In, elem_of_seqZ. lia. }
  specialize (H i Hin).
  destruct (Axis._getMarkerLabel i true) as [z|s]; [discriminate H|].
  apply String.eqb_eq in H. rewrite H. reflexivity.
Qed.

Lemma X23_witness :
  0 <= 13 <= 20 /\ Axis._getMarkerLabel 13 true = Axis.LabelString "-0.3".
Proof.
  assert (H : 0 <= 13 <= 20) by lia.
  split; [exact H|].
  exact (X23_linear_labels_are_tenths 13 H).
Defined.

Lemma drawn_labels_loop (view : Axis.View) (n : Z) (dy : Q) (k : nat) :
  forall (i : Z) (acc : list Axis.Cmd),
    Axis.drawn_labels (for_loop k i (Axis.draw_marker view n dy) acc) =
    Axis.drawn_labels acc ++
    map (fun j => (Axis._getMarkerLabel j (negb (Axis.getIsDbScale view)),
                   (0 / 2 + inject_Z j * dy)%Q))
        (seqZ i (Z.of_nat k)).
Proof.
  induction k as [|k IH]; intros i acc; cbn [for_loop].
  - rewrite seqZ_nil by lia. simpl. rewrite app_nil_r. reflexivity.
  - rewrite IH. rewrite (seqZ_cons i (Z.of_nat (S k))) by lia.
    replace (Z.pred (Z.of_nat (S k))) with (Z.of_nat k) by lia.
    replace (Z.succ i) with (i + 1) by lia.
    unfold Axis.draw_marker, Axis.drawn_labels. rewrite flat_map_app.
    cbn [flat_map map app]. rewrite <- app_assoc. reflexivity.
Qed.

Lemma baselines_loop (view : Axis.View) (n : Z) (dy : Q) (k : nat) :
  forall (i : Z) (acc : list Axis.Cmd),
    Axis.baselines (for_loop k i (Axis.draw_marker view n dy) acc) =
    Axis.baselines acc ++
    map (fun j => if j =? n then "bottom" else if j =? 0 then "top" else "middle")
        (seqZ i (Z.of_nat k)).
Proof.
  induction k as [|k IH]; intros i acc; cbn [for_loop].
  - rewrite seqZ_nil by lia. simpl. rewrite app_nil_r. reflexivity.
  - rewrite IH. rewrite (seqZ_cons i (Z.of_nat (S k))) by lia.
    replace (Z.pred (Z.of_nat (S k))) with (Z.of_nat k) by lia.
    replace (Z.succ i) with (i + 1) by lia.
    unfold Axis.draw_marker, Axis.baselines. rewrite flat_map_app.
    cbn [map]. rewrite <- app_assoc. reflexivity.
Qed.

(** X24: what [drawAxis] draws.  With n = 24 intervals on the db scale
    and n = 20 on the linear scale, the axis carries n + 1 labels; the
    label of marker i is [_getMarkerLabel(i, !dbScale)] and is drawn at
    height i * height / n, so the first one sits at 0 and the last one
    at the view's height; the first label is drawn with the text
    baseline [top], the last one with [bottom] and all others with
    [middle]. *)
Theorem X24_axis_labels_are_evenly_spaced
    (axisGridlineColor axisLabelColor : string) (view : Axis.View) :
  Forall2
    (fun i (label : Axis.Label * Q) =>
       fst label = Axis._getMarkerLabel i (negb (Axis.getIsDbScale view)) /\
       (snd label == inject_Z i * Axis.getHeight view
                     / inject_Z (Axis._getNIntervals (Axis.getIsDbScale view)))%Q)
    (seqZ 0 (Axis._getNIntervals (Axis.getIsDbScale view) + 1))
    (Axis.drawn_labels (Axis.drawAxis axisGridlineColor axisLabelColor view)) /\
  Axis.baselines (Axis.drawAxis axisGridlineColor axisLabelColor view) =
  "top" :: replicate (Z.to_nat (Axis._getNIntervals (Axis.getIsDbScale view) - 1)) "middle"
        ++ ["bottom"].
Proof.
  destruct view as [w h db]. unfold Axis.drawAxis, for_range. cbv zeta.
  rewrite drawn_labels_loop, baselines_loop. cbn [Axis.getIsDbScale Axis.getHeight].
  split.
  - change (Axis.drawn_labels _) with (@nil (Axis.Label * Q)). cbn [app].
    apply Forall2_fmap_r.
    destruct db; cbn [Axis._getNIntervals];
      [change (Z.of_nat (Z.to_nat (24 + 1 - 0))) with (24 + 1)
      |change (Z.of_nat (Z.to_nat (20 + 1 - 0))) with (20 + 1)];
      apply Forall_Forall2_diag, Forall_forall; intros j _; cbn [fst snd compose];
      (split; [reflexivity|]).
    + change (inject_Z 24) with 24%Q. field.
    + change (inject_Z 20) with 20%Q. field.
  - destruct db; vm_compute; reflexivity.
Qed.

(** * A callback that throws on the local-data path *)

(** X25: a callback that throws is invoked a second time.  When the
    local payload parses into a waveform of one or two channels and the
    callback throws on receiving it, the [catch] clause of
    [_buildWaveformFromLocalData] invokes the same callback again, with
    the exception it has just thrown: the callback sees the waveform
    and then an error.  An exception of that second invocation
    escapes. *)
Theorem X25_throwing_callback_is_invoked_again
    (cb : Callback) (o : Builder.Options) (d : Builder.LocalData)
    (w : WaveformData) (exn : string) :
  local_payload d = Some (Builder.Parsed w) ->
  Builder.valid_channels (wd_channels w) = true ->
  cb (Builder.CallWaveform (Builder.Plain w)) = Some exn ->
  Builder.calls (_buildWaveformFromLocalData_with cb o d)
    = [Builder.CallWaveform (Builder.Plain w); Builder.CallError Builder.Error exn] /\
  Builder.uncaught (_buildWaveformFromLocalData_with cb o d)
    = match cb (Builder.CallError Builder.Error exn) with
      | Some exn' => [exn']
      | None => []
      end.
Proof.
  intros Hd Hv Hcb. unfold _buildWaveformFromLocalData_with.
  destruct d as [json ab|]; [|discriminate Hd]. unfold local_payload in Hd.
  cbv zeta. rewrite Hd, Hv. cbn [negb]. unfold invoke_in_try. rewrite Hcb.
  split; reflexivity.
Qed.

Lemma X25_witness :
  local_payload (Builder.LocalObject (Some (Builder.Parsed Examples.overview)) None)
    = Some (Builder.Parsed Examples.overview) /\
  Builder.valid_channels (wd_channels Examples.overview) = true /\
  Examples.failing_renderer (Builder.CallWaveform (Builder.Plain Examples.overview))
    = Some "cannot render" /\
  Builder.calls
    (_buildWaveformFromLocalData_with Examples.failing_renderer Examples.local_options
       (Builder.LocalObject (Some (Builder.Parsed Examples.overview)) None))
    = [Builder.CallWaveform (Builder.Plain Examples.overview);
       Builder.CallError Builder.Error "cannot render"].
Proof.
  split; [reflexivity|]. split; [reflexivity|]. split; [reflexivity|].
  exact (proj1 (X25_throwing_callback_is_invoked_again Examples.failing_renderer
                  Examples.local_options
                  (Builder.LocalObject (Some (Builder.Parsed Examples.overview)) None)
                  Examples.overview "cannot render"
                  eq_refl eq_refl eq_refl)).
Defined.

(** X26: the local-data path with any callback.  With a callback that
    never throws it behaves as [init] takes it to (one invocation).
    With any callback there are one or two invocations, and two only
    when the payload parsed and the first invocation, made inside the
    [try] block, threw: the second invocation then carries that
    exception. *)
Theorem X26_local_data_invokes_once_or_twice
    (cb : Callback) (o : Builder.Options) (d : Builder.LocalData) :
  ((forall c, cb c = None) ->
     _buildWaveformFromLocalData_with cb o d = Builder._buildWaveformFromLocalData o d) /\
  (1 <= length (Builder.calls (_buildWaveformFromLocalData_with cb o d)) <= 2)%nat /\
  (length (Builder.calls (_buildWaveformFromLocalData_with cb o d)) = 2%nat ->
     exists w c exn,
       local_payload d = Some (Builder.Parsed w) /\
       cb c = Some exn /\
       Builder.calls (_buildWaveformFromLocalData_with cb o d)
         = [c; Builder.CallError Builder.Error exn]).
Proof.
  unfold _buildWaveformFromLocalData_with, Builder._buildWaveformFromLocalData,
    local_payload.
  destruct d as [json ab|].
  2:{ split; [|split].
      - intros Hcb. unfold invoke. rewrite Hcb. reflexivity.
      - simpl. lia.
      - intros H. discriminate H. }
  cbv zeta.
  destruct (match json with Some p => Some p | None => ab end) as [[err|w]|].
  - split; [|split].
    + intros Hcb. unfold invoke. rewrite Hcb. reflexivity.
    + simpl. lia.
    + intros H. discriminate H.
  - destruct (negb (Builder.valid_channels (wd_channels w)));
      unfold invoke_in_try;
      match goal with
      | |- context [cb ?c] => destruct (cb c) as [exn|] eqn:Hc
      end.
    all: split; [|split].
    all: try (intros Hcb; rewrite Hcb in Hc; discriminate Hc).
    all: try (intros _; reflexivity).
    all: try (simpl; lia).
    all: try (intros H; discriminate H).
    all: intros _; eexists w, _, exn; split; [reflexivity|]; split; [exact Hc|reflexivity].
  - split; [|split].
    + intros Hcb. unfold invoke. rewrite Hcb. reflexivity.
    + simpl. lia.
    + intros H. discriminate H.
Qed.
